(** * Fail2Pass bundle check: a shallow embedding of
      [scripts/f2p_from_swegent_bundle.py] and the properties of its
      pipeline (bundle loading, worktree provisioning, build and test,
      classification, report).

    Conventions of the embedding.
    - A Python [str] is a [string] whose characters are the code points
      below 256; in that range [\d] is exactly [0-9], and [str.isspace],
      [str.lower] and [repr] are as written below.
    - A value decoded by [json.load] is a [json]; numbers are the integers
      the bundle format uses.
    - A [pathlib.Path] is the [string] that [str()] gives for it, and
      [p / name] is [p ++ "/" ++ name].
    - [main] runs in a writer-and-error monad: the trace lists the external
      effects in program order (processes started, files written, lines
      printed), the result is either a value, a [sys.exit] or an uncaught
      exception.  What the outside world answers is read from a [World].
    - A call into the file system ([Path.resolve], [mkdir], [write_text],
      [copy2]) is recorded as the effect it asks for and taken to succeed;
      a real run in which such a call raises ends at that call, so its
      effects are a prefix of the trace given here. *)

From Stdlib Require Import Strings.String Strings.Ascii Lists.List ZArith Bool Lia.
From Stdlib Require Import Numbers.DecimalString Numbers.DecimalNat Sorting.Mergesort Sorting.Sorted
  Sorting.Permutation Structures.Orders.
Import ListNotations.

Set Warnings "-register-all".

Local Open Scope list_scope.
Local Open Scope string_scope.

(* ================================================================= *)
(** ** Characters and strings as Python has them *)

Definition code (c : ascii) : nat := nat_of_ascii c.

Definition between (lo hi : nat) (c : ascii) : bool :=
  (lo <=? code c)%nat && (code c <=? hi)%nat.

(** [\d] of [re] on a [str] pattern, for code points below 256. *)
Definition is_digit (c : ascii) : bool := between 48 57 c.

(** [str.isspace] on one character, for code points below 256. *)
Definition isspace (c : ascii) : bool :=
  between 9 13 c || between 28 32 c || (code c =? 133)%nat || (code c =? 160)%nat.

(** [str.lower] on one character, for code points below 256. *)
Definition lower_char (c : ascii) : ascii :=
  if between 65 90 c || (between 192 222 c && negb (code c =? 215)%nat)
  then ascii_of_nat (code c + 32) else c.

Fixpoint lower (s : string) : string :=
  match s with
  | EmptyString => EmptyString
  | String c s' => String (lower_char c) (lower s')
  end.

Fixpoint lstrip (s : string) : string :=
  match s with
  | EmptyString => EmptyString
  | String c s' => if isspace c then lstrip s' else s
  end.

Fixpoint rstrip (s : string) : string :=
  match s with
  | EmptyString => EmptyString
  | String c s' =>
      match rstrip s' with
      | EmptyString => if isspace c then EmptyString else String c EmptyString
      | r => String c r
      end
  end.

(** [s.strip()] *)
Definition strip (s : string) : string := rstrip (lstrip s).

Definition nonempty (s : string) : bool :=
  match s with EmptyString => false | _ => true end.

(** [s.split()]: the maximal runs of non-whitespace characters. *)
Fixpoint split_ws (s cur : string) : list string :=
  match s with
  | EmptyString => if nonempty cur then [cur] else []
  | String c s' =>
      if isspace c
      then (if nonempty cur then cur :: split_ws s' "" else split_ws s' "")
      else split_ws s' (cur ++ String c "")
  end.

Definition py_split (s : string) : list string := split_ws s "".

Fixpoint contains_char (c : ascii) (s : string) : bool :=
  match s with
  | EmptyString => false
  | String d s' => Ascii.eqb c d || contains_char c s'
  end.

(** [s.startswith(p)] *)
Fixpoint startswith (p s : string) : bool :=
  match p, s with
  | EmptyString, _ => true
  | String a p', String b s' => Ascii.eqb a b && startswith p' s'
  | String _ _, EmptyString => false
  end.

(** [str(n)] for an [int]. *)
Definition str_of_Z (z : Z) : string := NilZero.string_of_int (Z.to_int z).

Definition squote : ascii := ascii_of_nat 39.
Definition dquote : ascii := ascii_of_nat 34.
Definition bslash : ascii := ascii_of_nat 92.

Definition hex_digit (n : nat) : ascii :=
  if (n <? 10)%nat then ascii_of_nat (48 + n) else ascii_of_nat (87 + n).

(** Printable characters ([str.isprintable]) below 256. *)
Definition isprintable (c : ascii) : bool :=
  between 32 126 c || (between 161 255 c && negb (code c =? 173)%nat).

Definition repr_char (q c : ascii) : string :=
  if Ascii.eqb c q || Ascii.eqb c bslash then String bslash (String c "")
  else if (code c =? 9)%nat then String bslash "t"
  else if (code c =? 10)%nat then String bslash "n"
  else if (code c =? 13)%nat then String bslash "r"
  else if isprintable c then String c ""
  else String bslash (String "x" (String (hex_digit (code c / 16))
                                   (String (hex_digit (code c mod 16)) ""))).

Fixpoint repr_chars (q : ascii) (s : string) : string :=
  match s with
  | EmptyString => EmptyString
  | String c s' => repr_char q c ++ repr_chars q s'
  end.

(** [repr(s)] for a [str]: single quotes unless the text holds a single
    quote and no double quote. *)
Definition repr_str (s : string) : string :=
  let q := if contains_char squote s && negb (contains_char dquote s)
           then dquote else squote in
  String q (repr_chars q s ++ String q "").

(* ================================================================= *)
(** ** Values decoded from JSON, and Python's view of them *)

Inductive json : Type :=
| JNull
| JBool (b : bool)
| JInt (z : Z)
| JStr (s : string)
| JList (l : list json)
| JObj (kv : list (string * json)).

(** Truth value of a Python object ([bool(v)], [if v], [v or d]). *)
Definition truthy (v : json) : bool :=
  match v with
  | JNull => false
  | JBool b => b
  | JInt z => negb (z =? 0)%Z
  | JStr s => nonempty s
  | JList l => match l with [] => false | _ => true end
  | JObj kv => match kv with [] => false | _ => true end
  end.

(** [a or b] *)
Definition py_or (a b : json) : json := if truthy a then a else b.

Fixpoint py_repr (v : json) : string :=
  match v with
  | JNull => "None"
  | JBool true => "True"
  | JBool false => "False"
  | JInt z => str_of_Z z
  | JStr s => repr_str s
  | JList l =>
      "[" ++ (fix items (l : list json) : string :=
                match l with
                | [] => ""
                | x :: l' =>
                    py_repr x ++ match l' with [] => "" | _ => ", " ++ items l' end
                end) l ++ "]"
  | JObj kv =>
      "{" ++ (fix items (l : list (string * json)) : string :=
                match l with
                | [] => ""
                | (k, x) :: l' =>
                    repr_str k ++ ": " ++ py_repr x
                      ++ match l' with [] => "" | _ => ", " ++ items l' end
                end) kv ++ "}"
  end.

(** [str(v)], also what an f-string field [{v}] prints. *)
Definition py_str (v : json) : string :=
  match v with
  | JStr s => s
  | _ => py_repr v
  end.

(** A [dict] with [str] keys, in insertion order; keys are unique. *)
Definition dict := list (string * json).

Fixpoint dict_find (d : dict) (k : string) : option json :=
  match d with
  | [] => None
  | (k', v) :: d' => if String.eqb k k' then Some v else dict_find d' k
  end.

(** [d.get(k)] *)
Definition dict_get (d : dict) (k : string) : json :=
  match dict_find d k with Some v => v | None => JNull end.

(** [d[k] = v]: a present key keeps its place, a new one goes last. *)
Fixpoint dict_set (d : dict) (k : string) (v : json) : dict :=
  match d with
  | [] => [(k, v)]
  | (k', v') :: d' =>
      if String.eqb k k' then (k', v) :: d' else (k', v') :: dict_set d' k v
  end.

(** A dict display [{k1: v1, ..., **d, ...}] evaluated left to right. *)
Definition dict_update (d : dict) (kvs : list (string * json)) : dict :=
  fold_left (fun acc kv => dict_set acc (fst kv) (snd kv)) kvs d.

Definition dict_of (kvs : list (string * json)) : dict := dict_update [] kvs.

Definition keys (d : dict) : list string := map fst d.

(* ================================================================= *)
(** ** Outcome classifier *)

Definition _classify (before_ok after_ok : bool) : string :=
  if negb before_ok && after_ok then "fail2pass"
  else if negb before_ok && negb after_ok then "fail2fail"
  else if before_ok && after_ok then "pass2pass"
  else if before_ok && negb after_ok then "pass2fail"
  else "error".

(* ================================================================= *)
(** ** Regular expressions, as far as [re.search] is used *)

(** Backtracking matcher: every way a pattern can match a prefix of the
    text, in the order the engine tries them; it returns the first. *)
Inductive regex : Type :=
| Lit (s : string)
| Plus (cls : ascii -> bool)
| Alt (r1 r2 : regex)
| Seq (r1 r2 : regex)
| Group (r : regex).

Fixpoint drop (n : nat) (s : string) : string :=
  match n, s with
  | O, _ => s
  | S n', String _ s' => drop n' s'
  | S _, EmptyString => EmptyString
  end.

Fixpoint take (n : nat) (s : string) : string :=
  match n, s with
  | O, _ => EmptyString
  | S n', String c s' => String c (take n' s')
  | S _, EmptyString => EmptyString
  end.

(** Remainders after a greedy [cls*], longest consumption first. *)
Fixpoint star_splits (cls : ascii -> bool) (s : string) : list string :=
  match s with
  | EmptyString => [s]
  | String c s' => if cls c then (star_splits cls s' ++ [s])%list else [s]
  end.

Definition plus_splits (cls : ascii -> bool) (s : string) : list string :=
  match s with
  | EmptyString => []
  | String c s' => if cls c then star_splits cls s' else []
  end.

(** [rmatch r s caps]: the remainders of [s] after a match of [r], each
    with the groups captured so far. *)
Fixpoint rmatch (r : regex) (s : string) (caps : list string)
  : list (string * list string) :=
  match r with
  | Lit l => if startswith l s then [(drop (String.length l) s, caps)] else []
  | Plus cls => map (fun rest => (rest, caps)) (plus_splits cls s)
  | Alt r1 r2 => (rmatch r1 s caps ++ rmatch r2 s caps)%list
  | Seq r1 r2 => flat_map (fun m => rmatch r2 (fst m) (snd m)) (rmatch r1 s caps)
  | Group r1 =>
      map (fun m => (fst m, (snd m ++ [take (String.length s - String.length (fst m)) s])%list))
          (rmatch r1 s caps)
  end.

(** [re.search(r, s)]: the first match at the leftmost position that has
    one; the result is the list of its groups. *)
Fixpoint re_search (r : regex) (s : string) : option (list string) :=
  match rmatch r s [] with
  | m :: _ => Some (snd m)
  | [] => match s with
          | EmptyString => None
          | String _ s' => re_search r s'
          end
  end.

Definition slash : ascii := ascii_of_nat 47.
Definition not_slash (c : ascii) : bool := negb (Ascii.eqb c slash).

(** [github\.com/([^/]+/[^/]+)/(?:issues|pull)/\d+] *)
Definition issue_url_re : regex :=
  Seq (Lit "github.com/")
 (Seq (Group (Seq (Plus not_slash) (Seq (Lit "/") (Plus not_slash))))
 (Seq (Lit "/")
 (Seq (Alt (Lit "issues") (Lit "pull"))
 (Seq (Lit "/") (Plus is_digit))))).

(* ================================================================= *)
(** ** Exceptions, effects and the outside world *)

Inductive exn : Type :=
| ValueError (msg : string)
| FileNotFoundError (msg : string)
| AttributeError
| TypeError
| KeyError
| IndexError
| LibraryError (what : string).

Inductive abort : Type :=
| SysExit (status : Z)
| Uncaught (e : exn).

Inductive content : Type :=
| Text (s : string)
| JsonText (v : json).

Inductive event : Type :=
| EvProc (cmd : list string) (cwd : string) (timeout_s : Z)
| EvWrite (dir name : string) (c : content)
| EvMkdir (path : string)
| EvCopy (src dst : string)
| EvStdout (line : string)
| EvStderr (line : string).

Definition M (A : Type) : Type := (list event * (abort + A))%type.

Definition ret {A} (a : A) : M A := ([], inr a).

Definition bind {A B} (m : M A) (f : A -> M B) : M B :=
  match m with
  | (t, inl e) => (t, inl e)
  | (t, inr a) => let (t', r) := f a in ((t ++ t')%list, r)
  end.

Notation "x <- m ;; k" := (bind m (fun x => k))
  (at level 100, m at next level, right associativity).
Notation "m ;;; k" := (bind m (fun _ => k))
  (at level 100, right associativity).

Definition emit (e : event) : M unit := ([e], inr tt).
Definition raise {A} (e : exn) : M A := ([], inl (Uncaught e)).
Definition lift {A} (r : exn + A) : M A :=
  match r with inl e => raise e | inr a => ret a end.

Definition trace {A} (m : M A) : list event := fst m.
Definition result {A} (m : M A) : abort + A := snd m.

(** Exit status of the interpreter: 0 on a normal return, the argument of
    [sys.exit], 1 after an uncaught exception. *)
Definition exit_status {A} (m : M A) : Z :=
  match result m with
  | inr _ => 0
  | inl (SysExit c) => c
  | inl (Uncaught _) => 1
  end.

(** [try: m except Exception: pass] *)
Definition try_pass (m : M unit) : M unit :=
  match m with
  | (t, inl (Uncaught _)) => (t, inr tt)
  | other => other
  end.

Record datetime : Type := {
  year : nat; month : nat; day : nat;
  hour : nat; minute : nat; second : nat; microsecond : nat
}.

Record CompletedProcess : Type := {
  returncode : Z; cp_stdout : string; cp_stderr : string
}.

Record World : Type := {
  (** [Path.resolve()] *)
  resolve : string -> string;
  (** [Path.exists()] *)
  path_exists : string -> bool;
  (** [shutil.which(tool) is not None] *)
  which : string -> bool;
  (** names of the entries of a directory, in the order it lists them *)
  listdir : string -> list string;
  (** [open] and [json.load] of a file; either may raise *)
  json_load : string -> exn + json;
  (** [datetime.now(timezone.utc)] *)
  utcnow : datetime;
  (** [subprocess.run(cmd, cwd, timeout, capture_output=True, text=True)];
      it raises when the timeout expires *)
  subprocess_run : list string -> string -> Z -> exn + CompletedProcess
}.

Record Args : Type := {
  arg_bundle_dir : string;
  arg_work_dir : string;
  arg_keep_workdir : bool;
  arg_pytest_args : string;
  arg_timeout_build : Z;
  arg_timeout_test : Z
}.

(** [p / name] *)
Definition joinpath (p name : string) : string := p ++ "/" ++ name.

Definition write_text (dir name : string) (s : string) : M unit :=
  emit (EvWrite dir name (Text s)).

(* ================================================================= *)
(** ** The script's helpers *)

Record RunResult : Type := {
  ok : bool; exit_code : Z; stdout : string; stderr : string
}.

Definition _run (w : World) (cmd : list string) (cwd : string) (timeout_s : Z)
  : M RunResult :=
  emit (EvProc cmd cwd timeout_s) ;;;
  p <- lift (subprocess_run w cmd cwd timeout_s) ;;
  ret {| ok := (returncode p =? 0)%Z; exit_code := returncode p;
         stdout := cp_stdout p; stderr := cp_stderr p |}.

Definition _die {A} (msg : string) : M A :=
  ([EvStderr msg], inl (SysExit 2)).

Definition _parse_repo_from_issue_url (url : json) : exn + string :=
  match py_or url (JStr "") with
  | JStr s =>
      match re_search issue_url_re s with
      | None => inl (ValueError ("Cannot parse repo from url: " ++ py_repr url))
      | Some caps => inr (nth 0 caps "")
      end
  | _ => inl TypeError
  end.

(** [fnmatch] for a pattern of literals and [*]. *)
Fixpoint fnmatch (pat : string) (name : string) : bool :=
  match pat with
  | EmptyString => negb (nonempty name)
  | String p pat' =>
      if Ascii.eqb p "*"
      then (fix any (s : string) : bool :=
              fnmatch pat' s ||
              match s with EmptyString => false | String _ s' => any s' end) name
      else match name with
           | EmptyString => false
           | String c name' => Ascii.eqb p c && fnmatch pat' name'
           end
  end.

(** Names that [dir.glob(pat)] yields. *)
Definition glob (w : World) (dir pat : string) : list string :=
  filter (fnmatch pat) (listdir w dir).

Module StringLe <: TotalLeBool.
Definition t := string.
Definition leb := String.leb.
Theorem leb_total (a b : t) : leb a b = true \/ leb b a = true.
Proof. apply String.leb_total. Qed.
End StringLe.

Module StringSort := Sort StringLe.

(** [sorted] on paths of one directory: by name, code point by code point. *)
Definition sorted (l : list string) : list string := StringSort.sort l.

(** The loaders return the names of the files; the path of each is
    [bundle_dir / name]. *)
Definition _load_issue_json (w : World) (bundle_dir : string) : exn + json :=
  match sorted (glob w bundle_dir "issue_*.json") with
  | [] => inl (FileNotFoundError ("No issue_*.json found under " ++ bundle_dir))
  | issue_json :: _ => json_load w (joinpath bundle_dir issue_json)
  end.

Definition _pick_dockerfile (w : World) (bundle_dir : string) : exn + string :=
  match sorted (glob w bundle_dir "*.dockerfile") with
  | [] => inl (FileNotFoundError ("No *.dockerfile found under " ++ bundle_dir))
  | c :: _ => inr c
  end.

Definition _pick_tests (w : World) (bundle_dir : string) : list string :=
  match sorted (glob w bundle_dir "test*.py") with
  | (_ :: _) as tests => tests
  | [] =>
      filter (fun name => negb (startswith "issue_" name))
             (sorted (glob w bundle_dir "*.py"))
  end.

Definition unless (c : bool) (m : M unit) : M unit :=
  if c then ret tt else m.

Fixpoint for_each {A} (l : list A) (body : A -> M unit) : M unit :=
  match l with
  | [] => ret tt
  | x :: l' => body x ;;; for_each l' body
  end.

Definition _ensure_tools (w : World) : M unit :=
  for_each ["git"; "docker"] (fun tool =>
    unless (which w tool)
      (_die ("Missing required tool: " ++ tool ++ ". Please install it first."))).

(* ================================================================= *)
(** ** [main], in the order of the script *)

(** [v.get(k)]: only a dict has the method. *)
Definition py_get (v : json) (k : string) : exn + json :=
  match v with
  | JObj d => inr (dict_get d k)
  | _ => inl AttributeError
  end.

(** [v[0]] *)
Definition py_index0 (v : json) : exn + json :=
  match v with
  | JList (x :: _) => inr x
  | JList [] => inl IndexError
  | JStr (String c _) => inr (JStr (String c ""))
  | JStr EmptyString => inl IndexError
  | JObj _ => inl KeyError
  | _ => inl TypeError
  end.

(** Looking up a [str] method such as [v.strip] on a value. *)
Definition py_str_method (v : json) : exn + string :=
  match v with
  | JStr s => inr s
  | _ => inl AttributeError
  end.

(** The locals of [main] that later steps read. *)
Record Bundle : Type := {
  bundle_dir : string;
  issue_number : json;
  issue_url : json;
  repo : string;
  base_sha : json;
  head_sha : json;
  patch_text : string;
  dockerfile_src : string;
  test_files : list string
}.

(** Lines 136-146: the linked pull request that gives the base revision
    and the patch. *)
Definition select_linked_pr (issue : json) : M (json * json * string) :=
  lp <- lift (py_get issue "linked_prs") ;;
  let linked_prs := py_or lp (JList []) in
  unless (truthy linked_prs)
    (_die "issue_*.json has no linked_prs; cannot get base/head sha.") ;;;
  pr0 <- lift (py_index0 linked_prs) ;;
  base_sha <- lift (py_get pr0 "base_sha") ;;
  head_sha <- lift (py_get pr0 "head_sha") ;;
  patch <- lift (py_get pr0 "patch") ;;
  let patch_text := py_or patch (JStr "") in
  unless (truthy base_sha) (_die "linked_prs[0] missing base_sha.") ;;;
  patch_text <- lift (py_str_method patch_text) ;;
  unless (nonempty (strip patch_text))
    (_die "linked_prs[0] missing patch text; cannot apply fix on top of base_sha.") ;;;
  ret (base_sha, head_sha, patch_text).

(** Lines 125-151: arguments, tools and the bundle. *)
Definition load_bundle (w : World) (args : Args) : M Bundle :=
  let bundle_dir := resolve w (arg_bundle_dir args) in
  unless (path_exists w bundle_dir)
    (_die ("Bundle dir not found: " ++ bundle_dir)) ;;;
  _ensure_tools w ;;;
  issue <- lift (_load_issue_json w bundle_dir) ;;
  issue_number <- lift (py_get issue "number") ;;
  url <- lift (py_get issue "url") ;;
  let issue_url := py_or url (JStr "") in
  repo <- lift (_parse_repo_from_issue_url issue_url) ;;
  pr <- select_linked_pr issue ;;
  let '(base_sha, head_sha, patch_text) := pr in
  dockerfile_src <- lift (_pick_dockerfile w bundle_dir) ;;
  let test_files := _pick_tests w bundle_dir in
  unless (match test_files with [] => false | _ => true end)
    (_die ("No test*.py found under " ++ bundle_dir)) ;;;
  ret {| bundle_dir := bundle_dir; issue_number := issue_number;
         issue_url := issue_url; repo := repo; base_sha := base_sha;
         head_sha := head_sha; patch_text := patch_text;
         dockerfile_src := dockerfile_src; test_files := test_files |}.

Definition str_of_nat (n : nat) : string := NilZero.string_of_uint (Nat.to_uint n).

Fixpoint zeros (n : nat) : string :=
  match n with O => "" | S n' => String "0" (zeros n') end.

(** A number printed in at least [k] digits. *)
Definition pad (k n : nat) : string :=
  zeros (k - String.length (str_of_nat n)) ++ str_of_nat n.

(** [strftime("%Y%m%dT%H%M%SZ")] *)
Definition strftime (d : datetime) : string :=
  pad 4 (year d) ++ pad 2 (month d) ++ pad 2 (day d) ++ "T"
    ++ pad 2 (hour d) ++ pad 2 (minute d) ++ pad 2 (second d) ++ "Z".

Definition make_run_id (issue_number : json) (ts : string) : string :=
  if truthy issue_number
  then "issue_" ++ py_str issue_number ++ "-" ++ ts
  else "bundle-" ++ ts.

Definition make_meta (b : Bundle) (run_id : string) : dict :=
  dict_of [ ("run_id", JStr run_id);
            ("bundle_dir", JStr (bundle_dir b));
            ("repo", JStr (repo b));
            ("issue_url", issue_url b);
            ("issue_number", issue_number b);
            ("base_sha", base_sha b);
            ("head_sha", head_sha b);
            ("dockerfile", JStr (dockerfile_src b));
            ("tests", JList (map JStr (test_files b))) ].

Record Run : Type := {
  run_id : string;
  run_root : string;
  meta : dict
}.

Definition repo_dir (r : Run) : string := joinpath (run_root r) "repo".
Definition base_dir (r : Run) : string := joinpath (run_root r) "base".
Definition head_dir (r : Run) : string := joinpath (run_root r) "head".

(** Lines 153-169: run identifier, artifact directory, [meta.json]. *)
Definition new_run (w : World) (args : Args) (b : Bundle) : Run :=
  let ts := strftime (utcnow w) in
  let run_id := make_run_id (issue_number b) ts in
  let run_root := resolve w (joinpath (arg_work_dir args) run_id) in
  {| run_id := run_id; run_root := run_root; meta := make_meta b run_id |}.

Definition start_run (w : World) (args : Args) (b : Bundle) : M Run :=
  let r := new_run w args b in
  emit (EvMkdir (run_root r)) ;;;
  emit (EvWrite (run_root r) "meta.json" (JsonText (JObj (meta r)))) ;;;
  ret r.

(** Lines 171-211: clone, fetch, the two worktrees, the patch. *)
Definition provision (w : World) (b : Bundle) (r : Run) : M unit :=
  let run_root := run_root r in
  let origin_url := "https://github.com/" ++ repo b ++ ".git" in
  clone <- _run w ["git"; "clone"; "--no-checkout"; origin_url; repo_dir r]
                run_root 3600 ;;
  write_text run_root "git_clone.stdout.txt" (stdout clone) ;;;
  write_text run_root "git_clone.stderr.txt" (stderr clone) ;;;
  unless (ok clone)
    (_die ("git clone failed (see logs under " ++ run_root ++ ")")) ;;;
  fetch <- _run w ["git"; "fetch"; "--all"; "--tags"] (repo_dir r) 3600 ;;
  write_text run_root "git_fetch.stdout.txt" (stdout fetch) ;;;
  write_text run_root "git_fetch.stderr.txt" (stderr fetch) ;;;
  unless (ok fetch) (_die "git fetch failed") ;;;
  let patch_path := joinpath run_root "gold_patch.diff" in
  write_text run_root "gold_patch.diff" (patch_text b) ;;;
  wt_base <- _run w ["git"; "worktree"; "add"; "--detach"; base_dir r;
                     py_str (base_sha b)] (repo_dir r) 600 ;;
  write_text run_root "git_worktree_base.stdout.txt" (stdout wt_base) ;;;
  write_text run_root "git_worktree_base.stderr.txt" (stderr wt_base) ;;;
  unless (ok wt_base) (_die "git worktree add (base) failed") ;;;
  wt_head <- _run w ["git"; "worktree"; "add"; "--detach"; head_dir r;
                     py_str (base_sha b)] (repo_dir r) 600 ;;
  write_text run_root "git_worktree_head.stdout.txt" (stdout wt_head) ;;;
  write_text run_root "git_worktree_head.stderr.txt" (stderr wt_head) ;;;
  unless (ok wt_head) (_die "git worktree add (head) failed") ;;;
  apply_patch <- _run w ["git"; "apply"; "--whitespace=nowarn"; patch_path]
                      (head_dir r) 300 ;;
  write_text run_root "git_apply_patch.stdout.txt" (stdout apply_patch) ;;;
  write_text run_root "git_apply_patch.stderr.txt" (stderr apply_patch) ;;;
  unless (ok apply_patch)
    (_die "git apply patch failed (see git_apply_patch.stderr.txt)").

(** Lines 214-217. *)
Definition stage_bundle_into (b : Bundle) (worktree : string) : M unit :=
  emit (EvCopy (joinpath (bundle_dir b) (dockerfile_src b))
               (joinpath worktree (dockerfile_src b))) ;;;
  for_each (test_files b) (fun t =>
    emit (EvCopy (joinpath (bundle_dir b) t) (joinpath worktree t))).

(** Line 222. *)
Definition pytest_args (args : Args) : list string :=
  if nonempty (strip (arg_pytest_args args))
  then py_split (strip (arg_pytest_args args)) else [].

(** Lines 224-249. *)
Definition build_and_test (w : World) (args : Args) (b : Bundle) (r : Run)
    (label worktree : string) : M dict :=
  let image := lower ("swegent-f2p:" ++ run_id r ++ "-" ++ label) in
  bd <- _run w ["docker"; "build"; "-t"; image; "-f"; dockerfile_src b; "."]
             worktree (arg_timeout_build args) ;;
  write_text (run_root r) ("docker_build_" ++ label ++ ".stdout.txt") (stdout bd) ;;;
  write_text (run_root r) ("docker_build_" ++ label ++ ".stderr.txt") (stderr bd) ;;;
  if negb (ok bd)
  then ret (dict_of [ ("label", JStr label); ("image", JStr image);
                      ("build_ok", JBool false); ("test_ok", JBool false);
                      ("build_exit", JInt (exit_code bd)); ("test_exit", JNull) ])
  else
    let cmd := (["docker"; "run"; "--rm"; image; "pytest"]
                  ++ pytest_args args ++ test_files b)%list in
    t <- _run w cmd worktree (arg_timeout_test args) ;;
    write_text (run_root r) ("pytest_" ++ label ++ ".stdout.txt") (stdout t) ;;;
    write_text (run_root r) ("pytest_" ++ label ++ ".stderr.txt") (stderr t) ;;;
    ret (dict_of [ ("label", JStr label); ("image", JStr image);
                   ("build_ok", JBool true); ("test_ok", JBool (ok t));
                   ("build_exit", JInt (exit_code bd));
                   ("test_exit", JInt (exit_code t)) ]).

Definition make_report (r : Run) (status : string) (before after : dict) : dict :=
  dict_update (dict_of (meta r))
    [ ("status", JStr status);
      ("before", JObj before);
      ("after", JObj after);
      ("paths", JObj (dict_of [ ("run_root", JStr (run_root r));
                                ("base_worktree", JStr (base_dir r));
                                ("head_worktree", JStr (head_dir r)) ])) ].

(** Lines 251-268: both sides, the label, the report. *)
Definition classify_and_report (w : World) (args : Args) (b : Bundle) (r : Run)
  : M unit :=
  before <- build_and_test w args b r "before" (base_dir r) ;;
  after <- build_and_test w args b r "after" (head_dir r) ;;
  let status := _classify (truthy (dict_get before "test_ok"))
                          (truthy (dict_get after "test_ok")) in
  let report := make_report r status before after in
  emit (EvWrite (run_root r) "f2p_report.json" (JsonText (JObj report))) ;;;
  emit (EvStdout ("[F2P] " ++ status)) ;;;
  emit (EvStdout ("Report: " ++ joinpath (run_root r) "f2p_report.json")).

(** Lines 270-276. *)
Definition cleanup (w : World) (args : Args) (r : Run) : M unit :=
  unless (arg_keep_workdir args)
    (try_pass
       (_run w ["git"; "worktree"; "remove"; "--force"; base_dir r] (repo_dir r) 300 ;;;
        _run w ["git"; "worktree"; "remove"; "--force"; head_dir r] (repo_dir r) 300 ;;;
        ret tt)).

(** Lines 125-276: [main] from the point where [parser.parse_args()]
    (lines 114-123) has returned the namespace [args].  What argparse
    prints, and its own [sys.exit] on [--help] or on a command line it
    refuses, come before and are not part of this definition. *)
Definition main (w : World) (args : Args) : M unit :=
  b <- load_bundle w args ;;
  r <- start_run w args b ;;
  provision w b r ;;;
  stage_bundle_into b (base_dir r) ;;;
  stage_bundle_into b (head_dir r) ;;;
  classify_and_report w args b r ;;;
  cleanup w args r.

(* ================================================================= *)
(** ** Concrete bundles and worlds used in examples *)

Definition example_pr : json :=
  JObj [ ("base_sha", JStr "abc123"); ("head_sha", JStr "def456");
         ("patch", JStr "diff --git a/x b/x") ].

Definition example_issue (prs : list json) : json :=
  JObj [ ("number", JInt 256);
         ("url", JStr "https://github.com/always-further/AgentUp/issues/256");
         ("linked_prs", JList prs) ].

Definition example_now (us : nat) : datetime :=
  {| year := 2026; month := 1; day := 2; hour := 3; minute := 4; second := 5;
     microsecond := us |}.

(** A world where the bundle directory lists [names], the issue file
    decodes to [issue], the clock shows [now], and a process started with
    command [cmd] exits with status [status cmd]. *)
Definition example_world (names : list string) (issue : json) (now : datetime)
    (status : list string -> Z) : World :=
  {| resolve := fun p => p;
     path_exists := fun _ => true;
     which := fun _ => true;
     listdir := fun _ => names;
     json_load := fun _ => inr issue;
     utcnow := now;
     subprocess_run := fun cmd _ _ =>
       inr {| returncode := status cmd; cp_stdout := "out"; cp_stderr := "err" |} |}.

Definition example_names : list string :=
  ["test_b.py"; "claude.dockerfile"; "issue_256.json"; "test_a.py"; "base.dockerfile"].

Definition example_args : Args :=
  {| arg_bundle_dir := "/bundle"; arg_work_dir := "/work";
     arg_keep_workdir := false; arg_pytest_args := "-q";
     arg_timeout_build := 3600; arg_timeout_test := 1800 |}.

(** Every process succeeds. *)
Definition all_pass : list string -> Z := fun _ => 0%Z.

(** The image of the patched side does not build. *)
Definition after_build_fails (cmd : list string) : Z :=
  match cmd with
  | "docker" :: "build" :: "-t" :: image :: _ =>
      if String.eqb image "swegent-f2p:issue_256-20260102t030405z-after"
      then 1%Z else 0%Z
  | _ => 0%Z
  end.

(** [git apply] rejects the patch. *)
Definition apply_fails (cmd : list string) : Z :=
  match cmd with
  | "git" :: "apply" :: _ => 1%Z
  | _ => 0%Z
  end.

Definition example_bundle : Bundle :=
  {| bundle_dir := "/bundle"; issue_number := JInt 256;
     issue_url := JStr "https://github.com/always-further/AgentUp/issues/256";
     repo := "always-further/AgentUp";
     base_sha := JStr "abc123"; head_sha := JStr "def456";
     patch_text := "diff --git a/x b/x";
     dockerfile_src := "base.dockerfile";
     test_files := ["test_a.py"; "test_b.py"] |}.

(** The fields of a [datetime] are in the ranges of the calendar, with a
    year of four digits. *)
Definition calendar (d : datetime) : Prop :=
  (String.length (str_of_nat (year d)) = 4 /\ 1 <= month d <= 12 /\ 1 <= day d <= 31 /\
   hour d < 24 /\ minute d < 60 /\ second d < 60)%nat.

(** Two instants fall in the same second. *)
Definition same_second (d1 d2 : datetime) : Prop :=
  year d1 = year d2 /\ month d1 = month d2 /\ day d1 = day d2 /\
  hour d1 = hour d2 /\ minute d1 = minute d2 /\ second d1 = second d2.

(* ================================================================= *)
(** ** Notions used in the statements *)

Definition name_le (a b : string) : Prop := String.leb a b = true.

(** What the words "first match wins" would give for the test files. *)
Definition spec_pick_tests (w : World) (dir : string) : list string :=
  match sorted (glob w dir "test*.py") with
  | [] => []
  | first :: _ => [first]
  end.

(** Reading a decimal numeral back, leading zeros allowed. *)
Definition decode (s : string) : nat :=
  match NilEmpty.uint_of_string s with
  | Some d => Nat.of_uint d
  | None => 0%nat
  end.

Fixpoint all_chars (cls : ascii -> bool) (s : string) : bool :=
  match s with
  | EmptyString => true
  | String c s' => cls c && all_chars cls s'
  end.

(** [url] holds [github.com/<owner>/<repo>/(issues|pull)/<digit>], with
    owner and repo non-empty and free of [/]. *)
Definition github_issue_form (url owner repo : string) : Prop :=
  exists pre kind d rest,
    url = pre ++ "github.com/" ++ owner ++ "/" ++ repo ++ "/" ++ kind ++ "/"
              ++ String d rest /\
    owner <> "" /\ repo <> "" /\
    all_chars not_slash owner = true /\ all_chars not_slash repo = true /\
    (kind = "issues" \/ kind = "pull") /\ is_digit d = true.

(** The form as the specification words it:
    [.../<owner>/<repo>/(issues|pull)/<number>]. *)
Definition spec_issue_form (url owner repo : string) : Prop :=
  exists pre kind d rest,
    url = pre ++ "/" ++ owner ++ "/" ++ repo ++ "/" ++ kind ++ "/"
              ++ String d rest /\
    owner <> "" /\ repo <> "" /\
    all_chars not_slash owner = true /\ all_chars not_slash repo = true /\
    (kind = "issues" \/ kind = "pull") /\ is_digit d = true.

(** A match of the pattern at the start of [s]. *)
Definition matches_here (s owner repo rest : string) : Prop :=
  exists kind d ds,
    s = "github.com/" ++ owner ++ "/" ++ repo ++ "/" ++ kind ++ "/"
          ++ String d ds ++ rest /\
    owner <> "" /\ repo <> "" /\
    all_chars not_slash owner = true /\ all_chars not_slash repo = true /\
    (kind = "issues" \/ kind = "pull") /\
    is_digit d = true /\ all_chars is_digit ds = true.

(** [cmd] begins with the words [ws]. *)
Fixpoint begins (ws cmd : list string) : bool :=
  match ws, cmd with
  | [], _ => true
  | x :: ws', y :: cmd' => String.eqb x y && begins ws' cmd'
  | _ :: _, [] => false
  end.

(** The processes of a trace, in order. *)
Fixpoint processes (t : list event) : list (list string * string * Z) :=
  match t with
  | [] => []
  | EvProc cmd cwd timeout_s :: t' => (cmd, cwd, timeout_s) :: processes t'
  | _ :: t' => processes t'
  end.

(** Every event of a computation satisfies [P]. *)
Definition all_events {A} (P : event -> Prop) (m : M A) : Prop :=
  forall ev, In ev (trace m) -> P ev.

(** A computation that returns has had no effect. *)
Definition quiet {A} (m : M A) : Prop :=
  forall a, result m = inr a -> trace m = [].

(** [sys.exit] is only ever called with status 2. *)
Definition exits_with_2 {A} (m : M A) : Prop :=
  forall c, result m = inl (SysExit c) -> c = 2%Z.

(** The bundle with another recorded head revision. *)
Definition set_head_sha (b : Bundle) (h : json) : Bundle :=
  {| bundle_dir := bundle_dir b; issue_number := issue_number b;
     issue_url := issue_url b; repo := repo b; base_sha := base_sha b;
     head_sha := h; patch_text := patch_text b;
     dockerfile_src := dockerfile_src b; test_files := test_files b |}.

(** What [main] does once the bundle is loaded and the run directory
    set up: lines 171-276. *)
Definition pipeline (w : World) (args : Args) (b : Bundle) (r : Run) : M unit :=
  provision w b r ;;;
  stage_bundle_into b (base_dir r) ;;;
  stage_bundle_into b (head_dir r) ;;;
  classify_and_report w args b r ;;;
  cleanup w args r.

(** One git step of [main]: run the command, log its output, stop the
    run when it failed. *)
Definition checked_run (w : World) (cmd : list string) (cwd : string)
    (timeout_s : Z) (dir out_name err_name msg : string) : M unit :=
  x <- _run w cmd cwd timeout_s ;;
  write_text dir out_name (stdout x) ;;;
  write_text dir err_name (stderr x) ;;;
  unless (ok x) (_die msg).

(** A process of the computation that exits with a non-zero status stops
    the run with [sys.exit(2)]. *)
Definition strict {A} (w : World) (m : M A) : Prop :=
  forall cmd cwd t p,
    In (EvProc cmd cwd t) (trace m) ->
    subprocess_run w cmd cwd t = inr p -> returncode p <> 0%Z ->
    result m = inl (SysExit 2).

(** The git commands whose failure is fatal. *)
Definition is_workspace_step (cmd : list string) : bool :=
  begins ["git"; "clone"] cmd || begins ["git"; "fetch"] cmd
  || begins ["git"; "worktree"; "add"] cmd || begins ["git"; "apply"] cmd.

Definition image_of (r : Run) (label : string) : string :=
  lower ("swegent-f2p:" ++ run_id r ++ "-" ++ label).

Definition build_cmd (b : Bundle) (r : Run) (label : string) : list string :=
  ["docker"; "build"; "-t"; image_of r label; "-f"; dockerfile_src b; "."].

Definition apply_cmd (r : Run) : list string :=
  ["git"; "apply"; "--whitespace=nowarn"; joinpath (run_root r) "gold_patch.diff"].

Definition apply_failed_msg : string :=
  "git apply patch failed (see git_apply_patch.stderr.txt)".

(** Lines 171-205: everything of [provision] before the patch is applied. *)
Definition provision_setup (w : World) (b : Bundle) (r : Run) : M unit :=
  checked_run w ["git"; "clone"; "--no-checkout";
                 "https://github.com/" ++ repo b ++ ".git"; repo_dir r]
    (run_root r) 3600 (run_root r) "git_clone.stdout.txt" "git_clone.stderr.txt"
    ("git clone failed (see logs under " ++ run_root r ++ ")") ;;;
  checked_run w ["git"; "fetch"; "--all"; "--tags"] (repo_dir r) 3600
    (run_root r) "git_fetch.stdout.txt" "git_fetch.stderr.txt" "git fetch failed" ;;;
  write_text (run_root r) "gold_patch.diff" (patch_text b) ;;;
  checked_run w ["git"; "worktree"; "add"; "--detach"; base_dir r; py_str (base_sha b)]
    (repo_dir r) 600 (run_root r) "git_worktree_base.stdout.txt"
    "git_worktree_base.stderr.txt" "git worktree add (base) failed" ;;;
  checked_run w ["git"; "worktree"; "add"; "--detach"; head_dir r; py_str (base_sha b)]
    (repo_dir r) 600 (run_root r) "git_worktree_head.stdout.txt"
    "git_worktree_head.stderr.txt" "git worktree add (head) failed".

(** Lines 207-211. *)
Definition apply_step (w : World) (r : Run) : M unit :=
  checked_run w (apply_cmd r) (head_dir r) 300
    (run_root r) "git_apply_patch.stdout.txt" "git_apply_patch.stderr.txt"
    apply_failed_msg.

(** The world of the examples where every process succeeds. *)
Definition passing_world : World :=
  example_world example_names (example_issue [example_pr]) (example_now 0) all_pass.

(** The world of the examples where the patch does not apply. *)
Definition unpatchable_world : World :=
  example_world example_names (example_issue [example_pr]) (example_now 0) apply_fails.

(** The world of the examples where the patched side does not build. *)
Definition unbuildable_world : World :=
  example_world example_names (example_issue [example_pr]) (example_now 0)
                after_build_fails.

(** Nothing is printed to standard output. *)
Definition silent {A} (m : M A) : Prop :=
  all_events (fun ev => forall line, ev <> EvStdout line) m.

(** The four labels. *)
Definition labels : list string :=
  ["fail2pass"; "fail2fail"; "pass2pass"; "pass2fail"].

(** Until the patch is applied a run starts no container process, writes
    no report and prints nothing to standard output. *)
Definition workspace_event (ev : event) : Prop :=
  (forall cmd cwd t, ev = EvProc cmd cwd t -> begins ["docker"] cmd = false) /\
  (forall dir c, ev <> EvWrite dir "f2p_report.json" c) /\
  (forall line, ev <> EvStdout line).

(** The record [build_and_test] returns for a side whose build exited
    with status [rc]. *)
Definition failed_outcome (r : Run) (label : string) (rc : Z) : dict :=
  [ ("label", JStr label); ("image", JStr (image_of r label));
    ("build_ok", JBool false); ("test_ok", JBool false);
    ("build_exit", JInt rc); ("test_exit", JNull) ].

(** The build of a side ran and exited with a non-zero status. *)
Definition build_failed (w : World) (args : Args) (b : Bundle) (r : Run)
    (label worktree : string) (p : CompletedProcess) : Prop :=
  subprocess_run w (build_cmd b r label) worktree (arg_timeout_build args) = inr p /\
  returncode p <> 0%Z.

(** The record the specification calls authoritative: the first one with
    a non-empty base revision and a non-empty patch text. *)
Definition spec_authoritative_pr (prs : list json) : option json :=
  find (fun pr =>
          match pr with
          | JObj d =>
              truthy (dict_get d "base_sha") &&
              match dict_get d "patch" with
              | JStr s => nonempty s
              | _ => false
              end
          | _ => false
          end) prs.

(** A linked pull request without base revision and without patch. *)
Definition empty_pr : json :=
  JObj [ ("base_sha", JStr ""); ("head_sha", JNull); ("patch", JStr "") ].

(** The world of the examples with an empty record before the usable one. *)
Definition second_pr_world : World :=
  example_world example_names (example_issue [empty_pr; example_pr])
                (example_now 0) all_pass.

(** The keys of [meta.json] and those the report adds. *)
Definition meta_keys : list string :=
  ["run_id"; "bundle_dir"; "repo"; "issue_url"; "issue_number"; "base_sha";
   "head_sha"; "dockerfile"; "tests"].

Definition report_keys : list string := ["status"; "before"; "after"; "paths"].

(** The base side does not build and the build of the patched side runs
    into its timeout. *)
Definition after_build_times_out : World :=
  {| resolve := fun p => p;
     path_exists := fun _ => true;
     which := fun _ => true;
     listdir := fun _ => example_names;
     json_load := fun _ => inr (example_issue [example_pr]);
     utcnow := example_now 0;
     subprocess_run := fun cmd _ _ =>
       match cmd with
       | "docker" :: "build" :: "-t" :: image :: _ =>
           if String.eqb image "swegent-f2p:issue_256-20260102t030405z-after"
           then inl (LibraryError "subprocess.TimeoutExpired")
           else inr {| returncode := 1; cp_stdout := "out"; cp_stderr := "err" |}
       | _ => inr {| returncode := 0; cp_stdout := "out"; cp_stderr := "err" |}
       end |}.

(* ================================================================= *)
(** ** Notions for the rest of the script *)

(** [s] ends with [suffix]. *)
Definition has_suffix (suffix s : string) : Prop := exists pre, s = pre ++ suffix.

(** [name] is [pre ++ mid ++ suffix] for some [mid]. *)
Definition framed (pre suffix name : string) : Prop :=
  exists mid, name = pre ++ mid ++ suffix.

(** A pattern without [*]. *)
Fixpoint star_free (pat : string) : bool :=
  match pat with
  | EmptyString => true
  | String c pat' => negb (Ascii.eqb c "*") && star_free pat'
  end.

(** The pytest command of a side: line 238. *)
Definition test_cmd (args : Args) (b : Bundle) (r : Run) (label : string)
  : list string :=
  (["docker"; "run"; "--rm"; image_of r label; "pytest"]
     ++ pytest_args args ++ test_files b)%list.

(** The cleanup commands: lines 273-274. *)
Definition remove_cmd (dir : string) : list string :=
  ["git"; "worktree"; "remove"; "--force"; dir].

(** The image of a side builds and its tests exit with status 0. *)
Definition side_passes (w : World) (args : Args) (b : Bundle) (r : Run)
    (label worktree : string) : bool :=
  match subprocess_run w (build_cmd b r label) worktree (arg_timeout_build args) with
  | inl _ => false
  | inr p =>
      (returncode p =? 0)%Z &&
      match subprocess_run w (test_cmd args b r label) worktree
                           (arg_timeout_test args) with
      | inl _ => false
      | inr q => (returncode q =? 0)%Z
      end
  end.

(** A computation that calls [sys.exit] has just printed to stderr. *)
Definition announced {A} (m : M A) : Prop :=
  forall c, result m = inl (SysExit c) ->
    exists pre msg, trace m = (pre ++ [EvStderr msg])%list.

(** A line on stderr is the last effect and is followed by [sys.exit(2)]. *)
Definition stderr_is_final {A} (m : M A) : Prop :=
  forall msg, In (EvStderr msg) (trace m) ->
    result m = inl (SysExit 2) /\
    exists pre, trace m = (pre ++ [EvStderr msg])%list /\
                forall msg', ~ In (EvStderr msg') pre.

(** The output of every process that returned, other than the removal of
    a worktree, is in two files of the run. *)
Definition logged {A} (w : World) (m : M A) : Prop :=
  forall cmd cwd t p,
    In (EvProc cmd cwd t) (trace m) ->
    subprocess_run w cmd cwd t = inr p ->
    begins ["git"; "worktree"; "remove"] cmd = false ->
    exists dir out err,
      has_suffix ".stdout.txt" out /\ has_suffix ".stderr.txt" err /\
      In (EvWrite dir out (Text (cp_stdout p))) (trace m) /\
      In (EvWrite dir err (Text (cp_stderr p))) (trace m).

(** When the computation returns, every process it started has exited
    with status 0. *)
Definition vetted {A} (w : World) (m : M A) : Prop :=
  forall a, result m = inr a ->
    forall cmd cwd t, In (EvProc cmd cwd t) (trace m) ->
      exists p, subprocess_run w cmd cwd t = inr p /\ returncode p = 0%Z.

(** Where the effects of a run take place. *)
Definition located (b : Bundle) (r : Run) (ev : event) : Prop :=
  match ev with
  | EvProc _ cwd _ =>
      cwd = run_root r \/ cwd = repo_dir r \/ cwd = base_dir r \/ cwd = head_dir r
  | EvWrite dir _ _ => dir = run_root r
  | EvMkdir path => path = run_root r
  | EvCopy src dst =>
      exists name,
        src = joinpath (bundle_dir b) name /\
        (dst = joinpath (base_dir r) name \/ dst = joinpath (head_dir r) name)
  | EvStdout _ => True
  | EvStderr _ => True
  end.

(** The timeout each kind of command is given. *)
Definition timeout_of (args : Args) (cmd : list string) : Z :=
  if begins ["docker"; "build"] cmd then arg_timeout_build args
  else if begins ["docker"; "run"] cmd then arg_timeout_test args
  else if begins ["git"; "clone"] cmd || begins ["git"; "fetch"] cmd then 3600%Z
  else if begins ["git"; "worktree"; "add"] cmd then 600%Z
  else 300%Z.

(** An upper-case letter of [str.lower], below 256. *)
Definition is_upper (c : ascii) : bool :=
  between 65 90 c || (between 192 222 c && negb (code c =? 215)%nat).

(** The copies of a trace, in order. *)
Fixpoint copies (t : list event) : list (string * string) :=
  match t with
  | [] => []
  | EvCopy src dst :: t' => (src, dst) :: copies t'
  | _ :: t' => copies t'
  end.

(** [s.endswith(suffix)] *)
Fixpoint endswith (suffix s : string) : bool :=
  String.eqb s suffix ||
  match s with
  | EmptyString => false
  | String _ s' => endswith suffix s'
  end.

(** The copies that stage the bundle into a worktree: lines 214-217. *)
Definition staged (b : Bundle) (worktree : string) : list event :=
  EvCopy (joinpath (bundle_dir b) (dockerfile_src b))
         (joinpath worktree (dockerfile_src b))
    :: map (fun t => EvCopy (joinpath (bundle_dir b) t) (joinpath worktree t))
           (test_files b).

(** An exception raised by a process, other than the removal of a
    worktree, ends the computation at once. *)
Definition propagating {A} (w : World) (m : M A) : Prop :=
  forall cmd cwd t e,
    In (EvProc cmd cwd t) (trace m) ->
    subprocess_run w cmd cwd t = inl e ->
    begins ["git"; "worktree"; "remove"] cmd = false ->
    result m = inl (Uncaught e) /\
    exists pre, trace m = (pre ++ [EvProc cmd cwd t])%list.

(** The writing of the report file. *)
Definition is_report (ev : event) : Prop :=
  exists dir c, ev = EvWrite dir "f2p_report.json" c.

(** The record of one side agrees with the two exit statuses it holds. *)
Definition outcome_consistent (label image : string) (o : dict) : Prop :=
  keys o = ["label"; "image"; "build_ok"; "test_ok"; "build_exit"; "test_exit"] /\
  dict_get o "label" = JStr label /\ dict_get o "image" = JStr image /\
  exists bx,
    dict_get o "build_exit" = JInt bx /\
    dict_get o "build_ok" = JBool (bx =? 0)%Z /\
    if (bx =? 0)%Z
    then exists tx, dict_get o "test_exit" = JInt tx /\
                    dict_get o "test_ok" = JBool (tx =? 0)%Z
    else dict_get o "test_exit" = JNull /\ dict_get o "test_ok" = JBool false.

(** The line printed when a step that prepares the workspace exits with a
    non-zero status: lines 181, 187, 198, 205 and 211. *)
Definition failure_message (r : Run) (cmd : list string) : string :=
  match cmd with
  | "git" :: "clone" :: _ =>
      "git clone failed (see logs under " ++ run_root r ++ ")"
  | "git" :: "fetch" :: _ => "git fetch failed"
  | "git" :: "worktree" :: "add" :: "--detach" :: dir :: _ =>
      if String.eqb dir (base_dir r)
      then "git worktree add (base) failed"
      else "git worktree add (head) failed"
  | _ => "git apply patch failed (see git_apply_patch.stderr.txt)"
  end.

(** A workspace step that exits with a non-zero status is the last
    process: its output is written, its message printed, and the
    computation exits with status 2. *)
Definition blaming {A} (w : World) (r : Run) (m : M A) : Prop :=
  forall cmd cwd t p,
    In (EvProc cmd cwd t) (trace m) -> is_workspace_step cmd = true ->
    subprocess_run w cmd cwd t = inr p -> returncode p <> 0%Z ->
    result m = inl (SysExit 2) /\
    exists pre out err,
      trace m
      = (pre ++ [EvProc cmd cwd t;
                 EvWrite (run_root r) out (Text (cp_stdout p));
                 EvWrite (run_root r) err (Text (cp_stderr p));
                 EvStderr (failure_message r cmd)])%list.

(** [l] lists the maximal runs of non-whitespace characters of a string,
    from left to right: what [str.split()] returns. *)
Inductive words_of : string -> list string -> Prop :=
| words_blank (s : string) :
    all_chars isspace s = true -> words_of s []
| words_end (ws x : string) :
    all_chars isspace ws = true ->
    nonempty x = true -> all_chars (fun c => negb (isspace c)) x = true ->
    words_of (ws ++ x) [x]
| words_cons (ws x : string) (c : ascii) (rest : string) (l : list string) :
    all_chars isspace ws = true ->
    nonempty x = true -> all_chars (fun c => negb (isspace c)) x = true ->
    isspace c = true -> words_of rest l ->
    words_of (ws ++ x ++ String c rest) (x :: l).

(* ================================================================= *)
(** * Properties *)

Ltac in_list := repeat first [ left; reflexivity | right ].

(** ** The embedding on concrete inputs *)

Example fnmatch_examples :
  fnmatch "test*.py" "test_a.py" = true /\
  fnmatch "test*.py" "test.py" = true /\
  fnmatch "test*.py" "tes.py" = false /\
  fnmatch "*.dockerfile" "claude.dockerfile" = true /\
  fnmatch "*.dockerfile" "Dockerfile" = false /\
  fnmatch "issue_*.json" "issue_256.json" = true /\
  fnmatch "*.py" "issue_256.json" = false.
Proof. repeat split; reflexivity. Qed.

Example strings_examples :
  strftime (example_now 0) = "20260102T030405Z" /\
  lower "SWEGENT-f2p:Issue_7" = "swegent-f2p:issue_7" /\
  strip "  -q  -x " = "-q  -x" /\
  py_split "-q  -x" = ["-q"; "-x"] /\
  py_str (JList [JStr "a"; JInt (-3); JNull; JBool true]) = "['a', -3, None, True]" /\
  sorted ["test_b.py"; "test_a.py"; "test_B.py"] = ["test_B.py"; "test_a.py"; "test_b.py"].
Proof. repeat split; reflexivity. Qed.

Example url_examples :
  _parse_repo_from_issue_url (JStr "https://github.com/always-further/AgentUp/issues/256")
    = inr "always-further/AgentUp" /\
  _parse_repo_from_issue_url (JStr "github.com/a/b/issues/x github.com/c/d/pull/5")
    = inr "c/d" /\
  _parse_repo_from_issue_url (JStr "https://github.com/a/issues/5")
    = inl (ValueError "Cannot parse repo from url: 'https://github.com/a/issues/5'") /\
  _parse_repo_from_issue_url (JInt 5) = inl TypeError.
Proof. repeat split; reflexivity. Qed.

(** A run in which everything succeeds: the processes in order, the
    label, the exit status. *)
Example passing_run :
  map (fun p => firstn 3 (fst (fst p)))
      (processes (trace (main passing_world example_args)))
  = [ ["git"; "clone"; "--no-checkout"];
      ["git"; "fetch"; "--all"];
      ["git"; "worktree"; "add"];
      ["git"; "worktree"; "add"];
      ["git"; "apply"; "--whitespace=nowarn"];
      ["docker"; "build"; "-t"];
      ["docker"; "run"; "--rm"];
      ["docker"; "build"; "-t"];
      ["docker"; "run"; "--rm"];
      ["git"; "worktree"; "remove"];
      ["git"; "worktree"; "remove"] ] /\
  In (EvStdout "[F2P] pass2pass") (trace (main passing_world example_args)) /\
  exit_status (main passing_world example_args) = 0%Z.
Proof.
  split; [vm_compute; reflexivity|].
  split; [vm_compute; in_list | reflexivity].
Qed.

(** A timeout is an exception of [subprocess.run] that nothing catches: a
    run whose base side did not build and whose other build times out
    ends with status 1 and prints no label. *)
Example build_failure_then_timeout :
  result (main after_build_times_out example_args)
    = inl (Uncaught (LibraryError "subprocess.TimeoutExpired")) /\
  exit_status (main after_build_times_out example_args) = 1%Z /\
  processes (trace (classify_and_report after_build_times_out example_args
                      example_bundle
                      (new_run after_build_times_out example_args example_bundle)))
  = [ (["docker"; "build"; "-t"; "swegent-f2p:issue_256-20260102t030405z-before";
        "-f"; "base.dockerfile"; "."],
       "/work/issue_256-20260102T030405Z/base", 3600%Z);
      (["docker"; "build"; "-t"; "swegent-f2p:issue_256-20260102t030405z-after";
        "-f"; "base.dockerfile"; "."],
       "/work/issue_256-20260102T030405Z/head", 3600%Z) ].
Proof. repeat split; vm_compute; reflexivity. Qed.

(** ** The classifier *)

(** C1: [_classify] is total on its two booleans and follows the table:
    (false,true) gives fail2pass, (false,false) fail2fail, (true,true)
    pass2pass, (true,false) pass2fail; no other label, and never
    ["error"], comes out. *)
Theorem classify_table :
  _classify false true = "fail2pass" /\
  _classify false false = "fail2fail" /\
  _classify true true = "pass2pass" /\
  _classify true false = "pass2fail" /\
  forall before_ok after_ok,
    In (_classify before_ok after_ok)
       ["fail2pass"; "fail2fail"; "pass2pass"; "pass2fail"] /\
    _classify before_ok after_ok <> "error".
Proof.
  repeat split; try reflexivity.
  - destruct before_ok, after_ok; simpl; auto.
  - destruct before_ok, after_ok; discriminate.
Qed.

(* ================================================================= *)
(** ** Order on names and [sorted] *)

Section StringOrder.

Lemma ascii_compare_trans (a b c : ascii) :
  Ascii.compare a b = Lt -> Ascii.compare b c = Lt -> Ascii.compare a c = Lt.
Proof.
  unfold Ascii.compare. rewrite !N.compare_lt_iff. lia.
Qed.

Lemma string_compare_refl (s : string) : String.compare s s = Eq.
Proof.
  induction s as [|c s IH]; simpl; auto.
  unfold Ascii.compare. now rewrite N.compare_refl.
Qed.

Lemma string_compare_trans :
  forall s1 s2 s3,
    String.compare s1 s2 = Lt -> String.compare s2 s3 = Lt ->
    String.compare s1 s3 = Lt.
Proof.
  induction s1 as [|a s1 IH]; intros [|b s2] [|c s3]; simpl;
    try discriminate; auto.
  destruct (Ascii.compare a b) eqn:Hab; try discriminate;
    destruct (Ascii.compare b c) eqn:Hbc; try discriminate; intros H1 H2.
  - apply Ascii.compare_eq_iff in Hab, Hbc. subst.
    unfold Ascii.compare. rewrite N.compare_refl. eauto.
  - apply Ascii.compare_eq_iff in Hab. subst. now rewrite Hbc.
  - apply Ascii.compare_eq_iff in Hbc. subst. now rewrite Hab.
  - now rewrite (ascii_compare_trans _ _ _ Hab Hbc).
Qed.

Lemma string_leb_trans (s1 s2 s3 : string) :
  String.leb s1 s2 = true -> String.leb s2 s3 = true -> String.leb s1 s3 = true.
Proof.
  unfold String.leb.
  destruct (String.compare s1 s2) eqn:H12; try discriminate;
    destruct (String.compare s2 s3) eqn:H23; try discriminate; intros _ _.
  - apply String.compare_eq_iff in H12, H23. subst.
    now rewrite string_compare_refl.
  - apply String.compare_eq_iff in H12. subst. now rewrite H23.
  - apply String.compare_eq_iff in H23. subst. now rewrite H12.
  - now rewrite (string_compare_trans _ _ _ H12 H23).
Qed.

Lemma sorted_strongly (l : list string) : StronglySorted name_le (sorted l).
Proof.
  apply (StringSort.StronglySorted_sort l).
  intros a b c. apply string_leb_trans.
Qed.

Lemma sorted_perm (l : list string) : Permutation l (sorted l).
Proof. apply StringSort.Permuted_sort. Qed.

Lemma sorted_nil_iff (l : list string) : sorted l = [] <-> l = [].
Proof.
  split; intros H.
  - apply Permutation_nil. rewrite <- H. apply Permutation_sym, sorted_perm.
  - subst. reflexivity.
Qed.

(** The head of a sorted list is one of its elements and below all. *)
Lemma sorted_head_least (l : list string) (x : string) (rest : list string) :
  sorted l = x :: rest ->
  In x l /\ forall y, In y l -> name_le x y.
Proof.
  intros H. pose proof (sorted_strongly l) as HS. pose proof (sorted_perm l) as HP.
  rewrite H in HS, HP. split.
  - apply (Permutation_in _ (Permutation_sym HP)). now left.
  - intros y Hy. apply (Permutation_in _ HP) in Hy.
    apply StronglySorted_inv in HS. destruct HS as [_ Hall].
    destruct Hy as [->|Hy].
    + unfold name_le, String.leb. now rewrite string_compare_refl.
    + rewrite Forall_forall in Hall. now apply Hall.
Qed.

Lemma filter_perm {A} (f : A -> bool) (l l' : list A) :
  Permutation l l' -> Permutation (filter f l) (filter f l').
Proof.
  induction 1; simpl.
  - constructor.
  - destruct (f x); auto.
  - destruct (f x), (f y); auto using perm_swap.
  - eauto using perm_trans.
Qed.

Lemma filter_strongly {A} (R : A -> A -> Prop) (f : A -> bool) (l : list A) :
  StronglySorted R l -> StronglySorted R (filter f l).
Proof.
  induction 1 as [|a l HS IH Hall]; simpl; [constructor|].
  destruct (f a); auto. constructor; auto.
  rewrite Forall_forall in *. intros y Hy.
  apply filter_In in Hy. now apply Hall.
Qed.

End StringOrder.

(* ================================================================= *)
(** ** Run identifiers *)

Section RunId.

Lemma append_cancel_l (p a b : string) : p ++ a = p ++ b -> a = b.
Proof. induction p; simpl; intros H; [assumption|]. inversion H; auto. Qed.

Lemma length_app (a b : string) :
  String.length (a ++ b) = (String.length a + String.length b)%nat.
Proof. induction a; simpl; auto. Qed.

Lemma append_split_l :
  forall a a' b b',
    String.length a = String.length a' ->
    a ++ b = a' ++ b' -> a = a' /\ b = b'.
Proof.
  induction a as [|c a IH]; intros [|c' a'] b b' Hlen H; simpl in *;
    try discriminate; auto.
  inversion H; subst. destruct (IH a' b b') as [-> ->]; auto.
Qed.

Lemma append_split_r (a a' b b' : string) :
  String.length b = String.length b' ->
  a ++ b = a' ++ b' -> a = a' /\ b = b'.
Proof.
  intros Hlen H. apply append_split_l; auto.
  apply (f_equal String.length) in H. rewrite !length_app in H. lia.
Qed.

Lemma decode_zeros (j : nat) (s : string) : decode (zeros j ++ s) = decode s.
Proof.
  induction j as [|j IH]; simpl; auto.
  rewrite <- IH. unfold decode. simpl.
  destruct (NilEmpty.uint_of_string (zeros j ++ s)); reflexivity.
Qed.

Lemma decode_str_of_nat (n : nat) : decode (str_of_nat n) = n.
Proof.
  unfold decode, str_of_nat, NilZero.string_of_uint.
  pose proof (DecimalNat.Unsigned.of_to n) as Hn.
  destruct (Nat.to_uint n) eqn:E;
    [exact Hn | rewrite NilEmpty.usu; exact Hn ..].
Qed.

Lemma decode_pad (k n : nat) : decode (pad k n) = n.
Proof. unfold pad. now rewrite decode_zeros, decode_str_of_nat. Qed.

Lemma pad_inj (k a b : nat) : pad k a = pad k b -> a = b.
Proof.
  intros H. apply (f_equal decode) in H. now rewrite !decode_pad in H.
Qed.

Lemma pad2_length (n : nat) : (n < 100)%nat -> String.length (pad 2 n) = 2%nat.
Proof.
  intros H.
  do 100 (destruct n as [|n]; [reflexivity|]). lia.
Qed.

Lemma strftime_inj (d1 d2 : datetime) :
  calendar d1 -> calendar d2 ->
  strftime d1 = strftime d2 -> same_second d1 d2.
Proof.
  unfold calendar, same_second, strftime.
  intros (_ & Hm1 & Hd1 & Hh1 & Hmi1 & Hs1) (_ & Hm2 & Hd2 & Hh2 & Hmi2 & Hs2) H.
  assert (L : forall n n' t t', (n < 100)%nat -> (n' < 100)%nat ->
              pad 2 n ++ t = pad 2 n' ++ t' -> n = n' /\ t = t').
  { intros n n' t t' Hn Hn' E.
    apply append_split_l in E; [|now rewrite !pad2_length].
    destruct E as [E ->]. split; [now apply pad_inj in E | reflexivity]. }
  apply append_split_r in H.
  2:{ rewrite !length_app, !pad2_length by lia. reflexivity. }
  destruct H as [Hy H]. apply pad_inj in Hy.
  apply L in H; [|lia|lia]. destruct H as [Hmo H].
  apply L in H; [|lia|lia]. destruct H as [Hda H].
  simpl in H. inversion H as [H']. clear H.
  apply L in H'; [|lia|lia]. destruct H' as [Hho H].
  apply L in H; [|lia|lia]. destruct H as [Hmin H].
  apply L in H; [|lia|lia]. destruct H as [Hse _].
  repeat split; assumption.
Qed.

Lemma strftime_same_second (d1 d2 : datetime) :
  same_second d1 d2 -> strftime d1 = strftime d2.
Proof.
  unfold same_second, strftime. intros (-> & -> & -> & -> & -> & ->).
  reflexivity.
Qed.

Lemma make_run_id_inj (n : json) (ts1 ts2 : string) :
  make_run_id n ts1 = make_run_id n ts2 -> ts1 = ts2.
Proof.
  unfold make_run_id. destruct (truthy n); intros H.
  - change ("issue_" ++ py_str n ++ "-" ++ ts1)
      with ("issue_" ++ (py_str n ++ "-" ++ ts1)) in H.
    apply append_cancel_l in H. apply append_cancel_l in H.
    now apply append_cancel_l in H.
  - now apply append_cancel_l in H.
Qed.

End RunId.

(** C8, as stated, fails: two invocations on the same bundle whose clocks
    differ only below the second get the same run identifier and the same
    artifact directory, with or without an issue number; nothing random
    enters the identifier. *)
Lemma run_id_collision_counterexample :
  let issue := example_issue [example_pr] in
  let w1 := example_world example_names issue (example_now 0) all_pass in
  let w2 := example_world example_names issue (example_now 250) all_pass in
  let anonymous :=
    {| bundle_dir := "/bundle"; issue_number := JNull; issue_url := JStr "";
       repo := "o/r"; base_sha := JStr "abc123"; head_sha := JNull;
       patch_text := "diff"; dockerfile_src := "base.dockerfile";
       test_files := ["test_a.py"] |} in
  utcnow w1 <> utcnow w2 /\
  run_id (new_run w1 example_args example_bundle) = "issue_256-20260102T030405Z" /\
  run_id (new_run w2 example_args example_bundle) = "issue_256-20260102T030405Z" /\
  hd_error (trace (main w1 example_args)) = hd_error (trace (main w2 example_args)) /\
  hd_error (trace (main w1 example_args))
    = Some (EvMkdir "/work/issue_256-20260102T030405Z") /\
  run_id (new_run w1 example_args anonymous) = "bundle-20260102T030405Z" /\
  run_id (new_run w2 example_args anonymous) = "bundle-20260102T030405Z".
Proof.
  cbv zeta. split; [discriminate|].
  repeat split; vm_compute; reflexivity.
Qed.

(** C8, amended: the run identifier is [issue_<number>-<timestamp>] when
    the bundle has an issue number and [bundle-<timestamp>] otherwise,
    the timestamp being the UTC time to the second; two invocations on one
    bundle get the same identifier exactly when their clocks show the same
    second. *)
Theorem run_id_by_second (w1 w2 : World) (args1 args2 : Args) (b : Bundle) :
  calendar (utcnow w1) -> calendar (utcnow w2) ->
  run_id (new_run w1 args1 b)
    = (if truthy (issue_number b)
       then "issue_" ++ py_str (issue_number b) ++ "-" ++ strftime (utcnow w1)
       else "bundle-" ++ strftime (utcnow w1)) /\
  (run_id (new_run w1 args1 b) = run_id (new_run w2 args2 b)
   <-> same_second (utcnow w1) (utcnow w2)).
Proof.
  intros C1 C2. split; [reflexivity|]. simpl. split.
  - intros H. apply make_run_id_inj in H. now apply strftime_inj.
  - intros H. now rewrite (strftime_same_second _ _ H).
Qed.

Lemma run_id_by_second_witness :
  let issue := example_issue [example_pr] in
  let w1 := example_world example_names issue (example_now 0) all_pass in
  let w2 := example_world example_names issue (example_now 250) all_pass in
  run_id (new_run w1 example_args example_bundle)
    = "issue_" ++ "256" ++ "-" ++ strftime (utcnow w1) /\
  (run_id (new_run w1 example_args example_bundle)
     = run_id (new_run w2 example_args example_bundle)
   <-> same_second (utcnow w1) (utcnow w2)).
Proof.
  cbv zeta.
  apply (run_id_by_second
           (example_world example_names (example_issue [example_pr])
                          (example_now 0) all_pass)
           (example_world example_names (example_issue [example_pr])
                          (example_now 250) all_pass)
           example_args example_args example_bundle);
    unfold calendar; simpl; lia.
Defined.

(* ================================================================= *)
(** ** The repository reference in the issue URL *)

Section UrlPattern.

Lemma sapp_assoc (a b c : string) : (a ++ b) ++ c = a ++ (b ++ c).
Proof. induction a; simpl; congruence. Qed.

Lemma startswith_app (l t : string) : startswith l (l ++ t) = true.
Proof.
  induction l as [|c l IH]; simpl; [now destruct t|].
  now rewrite Ascii.eqb_refl.
Qed.

Lemma drop_app (l t : string) : drop (String.length l) (l ++ t) = t.
Proof. induction l; simpl; auto. Qed.

Lemma startswith_inv :
  forall l s, startswith l s = true -> s = l ++ drop (String.length l) s.
Proof.
  induction l as [|c l IH]; intros [|d s] H; simpl in *; try discriminate; auto.
  apply andb_true_iff in H. destruct H as [Hc Hs].
  apply Ascii.eqb_eq in Hc. subst. f_equal. auto.
Qed.

Lemma take_app (pre rest : string) :
  take (String.length (pre ++ rest) - String.length rest) (pre ++ rest) = pre.
Proof.
  rewrite length_app.
  replace (String.length pre + String.length rest - String.length rest)%nat
    with (String.length pre) by lia.
  induction pre; simpl; [now destruct rest | congruence].
Qed.

Lemma take_group (o r t : string) :
  take (String.length (o ++ "/" ++ r ++ t) - String.length t) (o ++ "/" ++ r ++ t)
  = o ++ "/" ++ r.
Proof.
  replace (o ++ "/" ++ r ++ t) with ((o ++ "/" ++ r) ++ t)
    by (now rewrite !sapp_assoc).
  apply take_app.
Qed.

Lemma In_star_splits cls :
  forall s rest,
    In rest (star_splits cls s) <->
    exists pre, s = pre ++ rest /\ all_chars cls pre = true.
Proof.
  induction s as [|c s IH]; intros rest; simpl.
  - split.
    + intros [<-|[]]. now exists "".
    + intros ([|d pre] & E & _); simpl in E; [now left | discriminate].
  - destruct (cls c) eqn:Hc.
    + rewrite in_app_iff, IH. simpl. split.
      * intros [(pre & -> & Hp)|[<-|[]]].
        -- exists (String c pre). simpl. now rewrite Hc.
        -- now exists "".
      * intros ([|d pre] & E & Hp); simpl in E.
        -- right. now left.
        -- inversion E; subst. left. exists pre. split; auto.
           simpl in Hp. now apply andb_true_iff in Hp.
    + simpl. split.
      * intros [<-|[]]. now exists "".
      * intros ([|d pre] & E & Hp); simpl in E; [now left|].
        inversion E; subst. simpl in Hp. rewrite Hc in Hp. discriminate.
Qed.

Lemma In_plus_splits cls (s rest : string) :
  In rest (plus_splits cls s) <->
  exists c pre, s = String c pre ++ rest /\ cls c = true /\ all_chars cls pre = true.
Proof.
  destruct s as [|c s]; simpl.
  - split; [intros [] | intros (? & ? & E & _); discriminate].
  - destruct (cls c) eqn:Hc.
    + rewrite In_star_splits. split.
      * intros (pre & -> & Hp). now exists c, pre.
      * intros (c' & pre & E & _ & Hp). inversion E; subst. now exists pre.
    + split; [intros [] |].
      intros (c' & pre & E & Hc' & _). inversion E; subst. congruence.
Qed.

Lemma In_rmatch_Lit l s caps rest caps' :
  In (rest, caps') (rmatch (Lit l) s caps) <-> s = l ++ rest /\ caps' = caps.
Proof.
  simpl. destruct (startswith l s) eqn:H.
  - apply startswith_inv in H. simpl. split.
    + intros [E|[]]. inversion E; subst. auto.
    + intros [E ->]. left. rewrite E at 1. now rewrite drop_app.
  - split; [intros []|]. intros [-> _]. now rewrite startswith_app in H.
Qed.

Lemma In_rmatch_Plus cls s caps rest caps' :
  In (rest, caps') (rmatch (Plus cls) s caps) <->
  (exists c pre, s = String c pre ++ rest /\ cls c = true /\
                 all_chars cls pre = true) /\ caps' = caps.
Proof.
  simpl. rewrite in_map_iff. split.
  - intros (x & E & Hin). inversion E; subst. split; auto.
    now apply In_plus_splits.
  - intros [H ->]. exists rest. split; auto. now apply In_plus_splits.
Qed.

Lemma In_rmatch_Seq r1 r2 s caps m :
  In m (rmatch (Seq r1 r2) s caps) <->
  exists mid capsm, In (mid, capsm) (rmatch r1 s caps) /\ In m (rmatch r2 mid capsm).
Proof.
  simpl. rewrite in_flat_map. split.
  - intros ([mid capsm] & H1 & H2). now exists mid, capsm.
  - intros (mid & capsm & H1 & H2). now exists (mid, capsm).
Qed.

Lemma In_rmatch_Alt r1 r2 s caps m :
  In m (rmatch (Alt r1 r2) s caps) <->
  In m (rmatch r1 s caps) \/ In m (rmatch r2 s caps).
Proof. simpl. apply in_app_iff. Qed.

Lemma In_rmatch_Group r s caps rest caps' :
  In (rest, caps') (rmatch (Group r) s caps) <->
  exists capsm, In (rest, capsm) (rmatch r s caps) /\
    caps' = (capsm ++ [take (String.length s - String.length rest) s])%list.
Proof.
  simpl. rewrite in_map_iff. split.
  - intros ([rest0 capsm] & E & Hin). simpl in E. inversion E; subst.
    now exists capsm.
  - intros (capsm & Hin & ->). now exists (rest, capsm).
Qed.

Ltac invert_match :=
  repeat match goal with
    | H : In _ (rmatch (Seq _ _) _ _) |- _ =>
        apply In_rmatch_Seq in H; destruct H as (? & ? & ? & H)
    | H : In _ (rmatch (Group _) _ _) |- _ =>
        apply In_rmatch_Group in H; destruct H as (? & H & ?)
    | H : In _ (rmatch (Alt _ _) _ _) |- _ =>
        apply In_rmatch_Alt in H; destruct H as [H|H]
    | H : In _ (rmatch (Lit _) _ _) |- _ =>
        apply In_rmatch_Lit in H; destruct H as [? ?]
    | H : In _ (rmatch (Plus _) _ _) |- _ =>
        apply In_rmatch_Plus in H; destruct H as [(? & ? & ? & ? & ?) ?]
    end.

Lemma rmatch_issue_url_sound s rest caps :
  In (rest, caps) (rmatch issue_url_re s []) ->
  exists owner repo, caps = [owner ++ "/" ++ repo] /\ matches_here s owner repo rest.
Proof.
  unfold issue_url_re. intros H. invert_match; subst.
  all: rewrite take_group; eexists _, _.
  all: split; [reflexivity|].
  all: match goal with
       | |- matches_here (_ ++ _ ++ _ ++ _ ++ _ ++ ?k ++ _ ++ String ?d ?ds ++ _) _ _ _ =>
           exists k, d, ds
       end.
  all: rewrite ?sapp_assoc.
  all: repeat split; auto; try discriminate; simpl;
       repeat match goal with H : _ = true |- _ => rewrite H end; auto.
Qed.

Lemma rmatch_issue_url_complete s owner repo rest :
  matches_here s owner repo rest ->
  In (rest, [owner ++ "/" ++ repo]) (rmatch issue_url_re s []).
Proof.
  intros (kind & d & ds & -> & Ho & Hr & Hao & Har & Hk & Hd & Hds).
  destruct owner as [|co owner]; [congruence|].
  destruct repo as [|cr repo]; [congruence|].
  simpl in Hao, Har. apply andb_true_iff in Hao, Har.
  destruct Hao as [Hco Hao], Har as [Hcr Har].
  unfold issue_url_re.
  apply In_rmatch_Seq. eexists _, _. split; [apply In_rmatch_Lit; split; reflexivity|].
  apply In_rmatch_Seq.
  exists ("/" ++ kind ++ "/" ++ String d ds ++ rest), [String co owner ++ "/" ++ String cr repo].
  split.
  - apply In_rmatch_Group. exists []. split.
    + apply In_rmatch_Seq. eexists _, _. split.
      * apply In_rmatch_Plus. split; [|reflexivity]. exists co, owner. eauto.
      * apply In_rmatch_Seq. eexists _, _. split.
        -- apply In_rmatch_Lit. split; reflexivity.
        -- apply In_rmatch_Plus. split; [|reflexivity]. exists cr, repo. eauto.
    + cbn [List.app].
      now rewrite take_group.
  - apply In_rmatch_Seq. eexists _, _. split; [apply In_rmatch_Lit; split; reflexivity|].
    apply In_rmatch_Seq. exists ("/" ++ String d ds ++ rest), [String co owner ++ "/" ++ String cr repo].
    split.
    + apply In_rmatch_Alt. destruct Hk as [->| ->]; [left|right];
        apply In_rmatch_Lit; split; reflexivity.
    + apply In_rmatch_Seq. eexists _, _. split; [apply In_rmatch_Lit; split; reflexivity|].
      apply In_rmatch_Plus. split; [|reflexivity]. exists d, ds. eauto.
Qed.

Lemma re_search_Some r :
  forall s caps,
    re_search r s = Some caps ->
    exists pre s' rest, s = pre ++ s' /\ In (rest, caps) (rmatch r s' []).
Proof.
  induction s as [|c s IH]; intros caps H; simpl in H.
  - destruct (rmatch r "" []) as [|[rest caps0] ms] eqn:E; [discriminate|].
    inversion H; subst. exists "", "", rest. rewrite E. simpl. auto.
  - destruct (rmatch r (String c s) []) as [|[rest caps0] ms] eqn:E.
    + destruct (IH _ H) as (pre & s' & rest & -> & Hin).
      now exists (String c pre), s', rest.
    + inversion H; subst. exists "", (String c s), rest. rewrite E. simpl. auto.
Qed.

Lemma re_search_None r :
  forall s, re_search r s = None ->
    forall pre s', s = pre ++ s' -> rmatch r s' [] = [].
Proof.
  induction s as [|c s IH]; intros H pre s' E; simpl in H.
  - destruct pre; [|discriminate]. simpl in E. subst s'.
    destruct (rmatch r "" []); [reflexivity | discriminate].
  - destruct (rmatch r (String c s) []) eqn:Em; [|discriminate].
    destruct pre as [|d pre]; simpl in E.
    + now subst s'.
    + inversion E; subst. eapply IH; eauto.
Qed.

Lemma matches_here_form pre s owner repo rest :
  matches_here s owner repo rest -> github_issue_form (pre ++ s) owner repo.
Proof.
  intros (kind & d & ds & -> & Ho & Hr & Hao & Har & Hk & Hd & _).
  exists pre, kind, d, (ds ++ rest). repeat split; auto.
Qed.

Lemma form_matches_here url owner repo :
  github_issue_form url owner repo ->
  exists pre s rest, url = pre ++ s /\ matches_here s owner repo rest.
Proof.
  intros (pre & kind & d & rest & -> & Ho & Hr & Hao & Har & Hk & Hd).
  exists pre, ("github.com/" ++ owner ++ "/" ++ repo ++ "/" ++ kind ++ "/"
                 ++ String d rest), rest.
  split; [reflexivity|]. exists kind, d, "". repeat split; auto.
Qed.

End UrlPattern.

Lemma py_or_str (url : string) : py_or (JStr url) (JStr "") = JStr url.
Proof. now destruct url. Qed.

(** C9, as stated, fails: a URL of the form
    [.../<owner>/<repo>/issues/<number>] on another host is refused. *)
Lemma repo_host_counterexample :
  spec_issue_form "https://gitlab.com/o/r/issues/1" "o" "r" /\
  _parse_repo_from_issue_url (JStr "https://gitlab.com/o/r/issues/1")
  = inl (ValueError "Cannot parse repo from url: 'https://gitlab.com/o/r/issues/1'").
Proof.
  split.
  - exists "https://gitlab.com", "issues", "1"%char, "".
    repeat split; auto; discriminate.
  - vm_compute. reflexivity.
Qed.

(** C9, amended: extraction succeeds exactly when the URL holds
    [github.com/<owner>/<repo>/(issues|pull)/<number>], owner and repo
    being non-empty and free of [/], and it then yields such an
    [<owner>/<repo>]; for any other URL, and for an absent one, it raises
    [ValueError] and yields no identifier. *)
Theorem parse_repo_github_form (url : string) :
  ((exists owner repo, github_issue_form url owner repo) <->
   (exists id, _parse_repo_from_issue_url (JStr url) = inr id)) /\
  (forall id, _parse_repo_from_issue_url (JStr url) = inr id ->
     exists owner repo, id = owner ++ "/" ++ repo /\ github_issue_form url owner repo) /\
  ((forall owner repo, ~ github_issue_form url owner repo) ->
     _parse_repo_from_issue_url (JStr url)
     = inl (ValueError ("Cannot parse repo from url: " ++ repr_str url))) /\
  _parse_repo_from_issue_url JNull
  = inl (ValueError "Cannot parse repo from url: None").
Proof.
  assert (Hsome : forall id, _parse_repo_from_issue_url (JStr url) = inr id ->
            exists owner repo, id = owner ++ "/" ++ repo /\
                               github_issue_form url owner repo).
  { unfold _parse_repo_from_issue_url. rewrite py_or_str.
    intros id H. destruct (re_search issue_url_re url) as [caps|] eqn:E;
      [|discriminate].
    inversion H; subst; clear H.
    apply re_search_Some in E. destruct E as (pre & s' & rest & -> & Hin).
    apply rmatch_issue_url_sound in Hin.
    destruct Hin as (owner & repo & -> & Hm).
    exists owner, repo. split; [reflexivity|].
    now apply matches_here_form with rest. }
  assert (Hnone : re_search issue_url_re url = None ->
            forall owner repo, ~ github_issue_form url owner repo).
  { intros E owner repo Hf.
    apply form_matches_here in Hf. destruct Hf as (pre & s & rest & -> & Hm).
    apply rmatch_issue_url_complete in Hm.
    rewrite (re_search_None _ _ E pre s eq_refl) in Hm. destruct Hm. }
  split; [split|split; [exact Hsome|split]].
  - intros (owner & repo & Hf).
    unfold _parse_repo_from_issue_url. rewrite py_or_str.
    destruct (re_search issue_url_re url) as [caps|] eqn:E; [eauto|].
    exfalso. exact (Hnone eq_refl owner repo Hf).
  - intros (id & H). destruct (Hsome id H) as (owner & repo & _ & Hf). eauto.
  - intros Hno. unfold _parse_repo_from_issue_url. rewrite py_or_str.
    destruct (re_search issue_url_re url) as [caps|] eqn:E; [|reflexivity].
    exfalso.
    destruct (Hsome (nth 0 caps "")) as (owner & repo & _ & Hf).
    + unfold _parse_repo_from_issue_url. rewrite py_or_str. now rewrite E.
    + exact (Hno owner repo Hf).
  - reflexivity.
Qed.

Lemma parse_repo_github_form_witness :
  _parse_repo_from_issue_url (JStr "https://github.com/always-further/AgentUp/issues/256")
    = inr "always-further/AgentUp" /\
  exists owner repo,
    "always-further/AgentUp" = owner ++ "/" ++ repo /\
    github_issue_form "https://github.com/always-further/AgentUp/issues/256" owner repo.
Proof.
  split; [reflexivity|].
  apply (parse_repo_github_form "https://github.com/always-further/AgentUp/issues/256").
  reflexivity.
Defined.

(* ================================================================= *)
(** ** Reasoning about traces and results *)

Section Effects.

Context {A B : Type}.

Lemma bind_result (m : M A) (f : A -> M B) :
  result (bind m f)
  = match result m with inl e => inl e | inr a => result (f a) end.
Proof.
  destruct m as [t [e|a]]; simpl; [reflexivity|]. now destruct (f a).
Qed.

Lemma bind_trace (m : M A) (f : A -> M B) :
  trace (bind m f)
  = match result m with
    | inl _ => trace m
    | inr a => (trace m ++ trace (f a))%list
    end.
Proof.
  destruct m as [t [e|a]]; simpl; [reflexivity|]. now destruct (f a).
Qed.

Lemma bind_returns (m : M A) (f : A -> M B) (b : B) :
  result (bind m f) = inr b ->
  exists a, result m = inr a /\ result (f a) = inr b.
Proof.
  rewrite bind_result. destruct (result m) as [e|a]; [discriminate|]. eauto.
Qed.

Lemma bind_aborts (m : M A) (f : A -> M B) (e : abort) :
  result m = inl e -> bind m f = (trace m, inl e).
Proof. destruct m as [t [e'|a]]; simpl; intros H; now inversion H. Qed.

Lemma bind_continues (m : M A) (f : A -> M B) (a : A) :
  result m = inr a ->
  bind m f = ((trace m ++ trace (f a))%list, result (f a)).
Proof.
  destruct m as [t [e'|a']]; simpl; intros H; inversion H; subst.
  now destruct (f a).
Qed.

Lemma In_bind (m : M A) (f : A -> M B) (ev : event) :
  In ev (trace (bind m f)) ->
  In ev (trace m) \/ exists a, result m = inr a /\ In ev (trace (f a)).
Proof.
  rewrite bind_trace. destruct (result m) as [e|a] eqn:E; [auto|].
  rewrite in_app_iff. intros [H|H]; eauto.
Qed.

Lemma In_bind_l (m : M A) (f : A -> M B) (ev : event) :
  In ev (trace m) -> In ev (trace (bind m f)).
Proof.
  rewrite bind_trace. destruct (result m); auto using in_or_app.
Qed.

Lemma In_bind_r (m : M A) (f : A -> M B) (ev : event) (a : A) :
  result m = inr a -> In ev (trace (f a)) -> In ev (trace (bind m f)).
Proof.
  intros H Hin. rewrite bind_trace, H. auto using in_or_app.
Qed.

Lemma all_bind (P : event -> Prop) (m : M A) (f : A -> M B) :
  all_events P m ->
  (forall a, result m = inr a -> all_events P (f a)) ->
  all_events P (bind m f).
Proof.
  intros Hm Hf ev Hin. apply In_bind in Hin.
  destruct Hin as [H|(a & Ha & H)]; [now apply Hm | now apply (Hf a)].
Qed.

Lemma quiet_bind (m : M A) (f : A -> M B) :
  quiet m -> (forall a, quiet (f a)) -> quiet (bind m f).
Proof.
  intros Hm Hf b Hb. apply bind_returns in Hb. destruct Hb as (a & Ha & Hb).
  rewrite bind_trace, Ha, (Hm a Ha), (Hf a b Hb). reflexivity.
Qed.

Lemma exits_bind (m : M A) (f : A -> M B) :
  exits_with_2 m -> (forall a, exits_with_2 (f a)) -> exits_with_2 (bind m f).
Proof.
  intros Hm Hf c. rewrite bind_result.
  destruct (result m) as [e|a] eqn:E; [|apply Hf].
  intros H. inversion H; subst. now apply Hm.
Qed.

End Effects.

Section Atoms.

Context {A : Type} (P : event -> Prop).

Lemma all_ret (a : A) : all_events P (ret a).
Proof. intros ev []. Qed.

Lemma all_lift (r : exn + A) : all_events P (lift r).
Proof. destruct r; intros ev []. Qed.

Lemma all_emit (e : event) : P e -> all_events P (emit e).
Proof. intros H ev [<-|[]]. exact H. Qed.

Lemma all_die (msg : string) : P (EvStderr msg) -> all_events P (@_die A msg).
Proof. intros H ev [<-|[]]. exact H. Qed.

Lemma all_unless (c : bool) (m : M unit) :
  (c = false -> all_events P m) -> all_events P (unless c m).
Proof. destruct c; simpl; intros H; [intros ev [] | now apply H]. Qed.

Lemma all_for_each {X} (l : list X) (body : X -> M unit) :
  (forall x, In x l -> all_events P (body x)) -> all_events P (for_each l body).
Proof.
  induction l as [|x l IH]; simpl; intros H; [intros ev []|].
  apply all_bind; [apply H; now left|]. intros _ _. apply IH. auto.
Qed.

Lemma _run_eq (w : World) (cmd : list string) (cwd : string) (t : Z) :
  _run w cmd cwd t
  = ([EvProc cmd cwd t],
     match subprocess_run w cmd cwd t with
     | inl e => inl (Uncaught e)
     | inr p => inr {| ok := (returncode p =? 0)%Z; exit_code := returncode p;
                       stdout := cp_stdout p; stderr := cp_stderr p |}
     end).
Proof. unfold _run. simpl. now destruct (subprocess_run w cmd cwd t). Qed.

Lemma all_run (w : World) (cmd : list string) (cwd : string) (t : Z) :
  P (EvProc cmd cwd t) -> all_events P (_run w cmd cwd t).
Proof. rewrite _run_eq. intros H ev [<-|[]]. exact H. Qed.

Lemma all_try_pass (m : M unit) : all_events P m -> all_events P (try_pass m).
Proof. destruct m as [t [[c|e]|[]]]; simpl; auto. Qed.

Lemma quiet_ret (a : A) : quiet (ret a).
Proof. intros x _. reflexivity. Qed.

Lemma quiet_lift (r : exn + A) : quiet (lift r).
Proof. intros x _. now destruct r. Qed.

Lemma quiet_unless_die (c : bool) (msg : string) : quiet (unless c (_die msg)).
Proof. destruct c; intros x H; [reflexivity | discriminate]. Qed.

Lemma exits_ret (a : A) : exits_with_2 (ret a).
Proof. intros c H. discriminate. Qed.

Lemma exits_lift (r : exn + A) : exits_with_2 (lift r).
Proof. intros c H. destruct r; discriminate. Qed.

Lemma exits_emit (e : event) : exits_with_2 (emit e).
Proof. intros c H. discriminate. Qed.

Lemma exits_die (msg : string) : exits_with_2 (@_die A msg).
Proof. intros c H. now inversion H. Qed.

Lemma exits_unless (c : bool) (m : M unit) :
  exits_with_2 m -> exits_with_2 (unless c m).
Proof. destruct c; simpl; auto. intros _ x H. discriminate. Qed.

Lemma exits_for_each {X} (l : list X) (body : X -> M unit) :
  (forall x, exits_with_2 (body x)) -> exits_with_2 (for_each l body).
Proof.
  intros H. induction l as [|x l IH]; simpl; [intros c Hc; discriminate|].
  apply exits_bind; auto.
Qed.

Lemma exits_run (w : World) (cmd : list string) (cwd : string) (t : Z) :
  exits_with_2 (_run w cmd cwd t).
Proof.
  rewrite _run_eq. intros c H. simpl in H.
  destruct (subprocess_run w cmd cwd t); discriminate.
Qed.

Lemma exits_try_pass (m : M unit) : exits_with_2 m -> exits_with_2 (try_pass m).
Proof. destruct m as [t [[c|e]|[]]]; simpl; auto. intros _ c H. discriminate. Qed.

End Atoms.

Ltac split_triple :=
  match goal with
  | |- context [match ?p with (_, _) => _ end] =>
      is_var p; destruct p as [[? ?] ?]
  end.

Ltac all_ev :=
  repeat first
    [ split_triple
    | apply all_run
    | apply all_ret
    | apply all_lift
    | apply all_die
    | apply all_emit
    | apply all_try_pass
    | apply all_unless; intros ?
    | apply all_for_each; intros ? ?
    | apply all_bind; [|intros ? ?] ].

Ltac exits :=
  repeat first
    [ split_triple
    | apply exits_run
    | apply exits_ret
    | apply exits_lift
    | apply exits_die
    | apply exits_emit
    | apply exits_try_pass
    | apply exits_unless
    | apply exits_for_each; intros ?
    | apply exits_bind; [|intros ?] ].

(* ================================================================= *)
(** ** Shape of a run *)

Section Shape.

Variables (w : World) (args : Args).

Lemma quiet_for_each_die {X} (l : list X) (c : X -> bool) (msg : X -> string) :
  quiet (for_each l (fun x => unless (c x) (_die (msg x)))).
Proof.
  induction l as [|x l IH]; simpl; [apply quiet_ret|].
  apply quiet_bind; [apply quiet_unless_die | intros _; apply IH].
Qed.

Lemma select_linked_pr_quiet (issue : json) : quiet (select_linked_pr issue).
Proof.
  unfold select_linked_pr.
  repeat first [ apply quiet_lift | apply quiet_unless_die | apply quiet_ret
               | apply quiet_bind; [|intros ?] ].
Qed.

Lemma load_bundle_quiet : quiet (load_bundle w args).
Proof.
  unfold load_bundle, _ensure_tools.
  repeat first [ split_triple
               | apply quiet_lift | apply quiet_unless_die | apply quiet_ret
               | apply quiet_for_each_die | apply select_linked_pr_quiet
               | apply quiet_bind; [|intros ?] ].
Qed.

Lemma load_bundle_stderr :
  all_events (fun ev => exists msg, ev = EvStderr msg) (load_bundle w args).
Proof.
  unfold load_bundle, _ensure_tools, select_linked_pr. all_ev; eauto.
Qed.

Lemma load_bundle_exits : exits_with_2 (load_bundle w args).
Proof.
  unfold load_bundle, _ensure_tools, select_linked_pr. exits.
Qed.

Lemma main_load_aborts (e : abort) :
  result (load_bundle w args) = inl e ->
  main w args = (trace (load_bundle w args), inl e).
Proof. intros H. unfold main. now apply bind_aborts. Qed.

Lemma main_after_load (b : Bundle) :
  result (load_bundle w args) = inr b ->
  let r := new_run w args b in
  main w args
  = (EvMkdir (run_root r)
       :: EvWrite (run_root r) "meta.json" (JsonText (JObj (meta r)))
       :: trace (pipeline w args b r),
     result (pipeline w args b r)).
Proof.
  intros H r.
  change (main w args)
    with (bind (load_bundle w args)
               (fun b => bind (start_run w args b) (fun r => pipeline w args b r))).
  rewrite (bind_continues _ _ b H), (load_bundle_quiet b H).
  rewrite (bind_continues (start_run w args b) _ r eq_refl).
  reflexivity.
Qed.

End Shape.

(* ================================================================= *)
(** ** The workspace steps *)

Section Workspace.

Variable w : World.

Lemma bind_assoc {A B C} (m : M A) (f : A -> M B) (g : B -> M C) :
  bind (bind m f) g = bind m (fun a => bind (f a) g).
Proof.
  destruct m as [t [e|a]]; simpl; [reflexivity|].
  destruct (f a) as [t1 [e|b]]; simpl; [reflexivity|].
  destruct (g b) as [t2 res]. now rewrite app_assoc.
Qed.

Lemma bind_ext {A B} (m : M A) (f g : A -> M B) :
  (forall a, f a = g a) -> bind m f = bind m g.
Proof. intros H. destruct m as [t [e|a]]; simpl; [reflexivity|]. now rewrite H. Qed.

Lemma provision_eq (b : Bundle) (r : Run) :
  provision w b r = (provision_setup w b r ;;; apply_step w r).
Proof.
  unfold provision, provision_setup, apply_step, checked_run.
  repeat (rewrite ?bind_assoc; try reflexivity; apply bind_ext; intros ?).
Qed.

Lemma checked_run_cases cmd cwd t dir o e msg :
  match subprocess_run w cmd cwd t with
  | inl x => checked_run w cmd cwd t dir o e msg
             = ([EvProc cmd cwd t], inl (Uncaught x))
  | inr p =>
      if (returncode p =? 0)%Z
      then checked_run w cmd cwd t dir o e msg
           = ([EvProc cmd cwd t; EvWrite dir o (Text (cp_stdout p));
               EvWrite dir e (Text (cp_stderr p))], inr tt)
      else checked_run w cmd cwd t dir o e msg
           = ([EvProc cmd cwd t; EvWrite dir o (Text (cp_stdout p));
               EvWrite dir e (Text (cp_stderr p)); EvStderr msg],
              inl (SysExit 2))
  end.
Proof.
  unfold checked_run. rewrite _run_eq.
  destruct (subprocess_run w cmd cwd t) as [x|p]; [reflexivity|].
  cbn. destruct (returncode p =? 0)%Z; reflexivity.
Qed.

Lemma strict_bind {A B} (m : M A) (f : A -> M B) :
  strict w m -> (forall a, strict w (f a)) -> strict w (bind m f).
Proof.
  intros Hm Hf cmd cwd t p Hin Hp Hrc. apply In_bind in Hin.
  rewrite bind_result. destruct Hin as [Hin|(a & Ha & Hin)].
  - now rewrite (Hm _ _ _ _ Hin Hp Hrc).
  - rewrite Ha. exact (Hf a _ _ _ _ Hin Hp Hrc).
Qed.

Lemma strict_checked_run cmd cwd t dir o e msg :
  strict w (checked_run w cmd cwd t dir o e msg).
Proof.
  intros cmd' cwd' t' p Hin Hp Hrc.
  pose proof (checked_run_cases cmd cwd t dir o e msg) as H.
  destruct (subprocess_run w cmd cwd t) as [x|q] eqn:E.
  - rewrite H in Hin. destruct Hin as [Hin|[]]. inversion Hin; subst. congruence.
  - destruct (returncode q =? 0)%Z eqn:Eq; rewrite H in *; [|reflexivity].
    destruct Hin as [Hin|[Hin|[Hin|[]]]]; try discriminate.
    inversion Hin; subst. rewrite E in Hp. inversion Hp; subst.
    apply Z.eqb_eq in Eq. contradiction.
Qed.

Lemma strict_write dir name text : strict w (write_text dir name text).
Proof. intros cmd cwd t p [H|[]]. discriminate. Qed.

Lemma strict_provision (b : Bundle) (r : Run) : strict w (provision w b r).
Proof.
  rewrite provision_eq. unfold provision_setup, apply_step.
  repeat first [ apply strict_checked_run | apply strict_write
               | apply strict_bind; [|intros ?] ].
Qed.

End Workspace.

Ltac all_ev_pipeline :=
  unfold pipeline, provision, stage_bundle_into, classify_and_report,
    build_and_test, cleanup;
  repeat first
    [ match goal with
      | |- all_events _ (if ?c then _ else _) => destruct c
      end
    | progress all_ev ].

Ltac event_case :=
  let E := fresh "E" in
  intros; try discriminate;
  try match goal with
    | E : EvProc _ _ _ = EvProc _ _ _ |- _ => inversion E; subst; clear E
    | E : EvWrite _ _ _ = EvWrite _ _ _ |- _ => inversion E; subst; clear E
    | E : EvStdout _ = EvStdout _ |- _ => inversion E; subst; clear E
    end;
  try discriminate.

(* ================================================================= *)
(** ** The two worktrees *)

Section Worktrees.

Variables (w : World) (args : Args).

Lemma worktree_events (b : Bundle) (r : Run) :
  all_events
    (fun ev => forall cmd cwd t,
       ev = EvProc cmd cwd t -> begins ["git"; "worktree"; "add"] cmd = true ->
       cwd = repo_dir r /\
       (cmd = ["git"; "worktree"; "add"; "--detach"; base_dir r; py_str (base_sha b)] \/
        cmd = ["git"; "worktree"; "add"; "--detach"; head_dir r; py_str (base_sha b)]))
    (pipeline w args b r).
Proof.
  all_ev_pipeline; event_case; auto.
Qed.

Lemma processes_app (t1 t2 : list event) :
  processes (t1 ++ t2) = (processes t1 ++ processes t2)%list.
Proof.
  induction t1 as [|[] t1 IH]; simpl; auto. now rewrite IH.
Qed.

Lemma processes_bind {A B} (m : M A) (f : A -> M B) :
  processes (trace (bind m f))
  = match result m with
    | inl _ => processes (trace m)
    | inr a => (processes (trace m) ++ processes (trace (f a)))%list
    end.
Proof.
  rewrite bind_trace. destruct (result m); [reflexivity | apply processes_app].
Qed.

Lemma checked_run_processes cmd cwd t dir o e msg :
  processes (trace (checked_run w cmd cwd t dir o e msg)) = [(cmd, cwd, t)].
Proof.
  pose proof (checked_run_cases w cmd cwd t dir o e msg) as H.
  destruct (subprocess_run w cmd cwd t) as [x|p]; [now rewrite H|].
  destruct (returncode p =? 0)%Z; now rewrite H.
Qed.

Lemma provision_processes (b : Bundle) (r : Run) :
  result (provision w b r) = inr tt ->
  processes (trace (provision w b r))
  = [ (["git"; "clone"; "--no-checkout";
        "https://github.com/" ++ repo b ++ ".git"; repo_dir r], run_root r, 3600%Z);
      (["git"; "fetch"; "--all"; "--tags"], repo_dir r, 3600%Z);
      (["git"; "worktree"; "add"; "--detach"; base_dir r; py_str (base_sha b)],
       repo_dir r, 600%Z);
      (["git"; "worktree"; "add"; "--detach"; head_dir r; py_str (base_sha b)],
       repo_dir r, 600%Z);
      (["git"; "apply"; "--whitespace=nowarn";
        joinpath (run_root r) "gold_patch.diff"], head_dir r, 300%Z) ].
Proof.
  rewrite provision_eq. unfold provision_setup, apply_step, apply_cmd.
  rewrite !bind_assoc. intros H.
  repeat (rewrite processes_bind;
          apply bind_returns in H; destruct H as (? & -> & H);
          rewrite ?checked_run_processes).
  rewrite ?checked_run_processes. reflexivity.
Qed.

Lemma provision_writes_patch (b : Bundle) (r : Run) :
  result (provision w b r) = inr tt ->
  In (EvWrite (run_root r) "gold_patch.diff" (Text (patch_text b)))
     (trace (provision w b r)).
Proof.
  rewrite provision_eq. unfold provision_setup. intros H.
  apply bind_returns in H. destruct H as (? & H & _).
  apply In_bind_l.
  apply bind_returns in H. destruct H as (x1 & H1 & H).
  apply (In_bind_r _ _ _ x1 H1).
  apply bind_returns in H. destruct H as (x2 & H2 & H).
  apply (In_bind_r _ _ _ x2 H2).
  apply In_bind_l. now left.
Qed.

Lemma classify_and_report_processes (b : Bundle) (r : Run) :
  processes (trace (classify_and_report w args b r))
  = match result (build_and_test w args b r "before" (base_dir r)) with
    | inl _ => processes (trace (build_and_test w args b r "before" (base_dir r)))
    | inr _ =>
        (processes (trace (build_and_test w args b r "before" (base_dir r)))
         ++ processes (trace (build_and_test w args b r "after" (head_dir r))))%list
    end.
Proof.
  unfold classify_and_report. rewrite processes_bind.
  destruct (result (build_and_test w args b r "before" (base_dir r))); [reflexivity|].
  rewrite processes_bind.
  destruct (result (build_and_test w args b r "after" (head_dir r)));
    [reflexivity|].
  cbn. now rewrite app_nil_r.
Qed.

Lemma classify_and_report_result (b : Bundle) (r : Run) :
  result (classify_and_report w args b r)
  = match result (build_and_test w args b r "before" (base_dir r)) with
    | inl e => inl e
    | inr _ =>
        match result (build_and_test w args b r "after" (head_dir r)) with
        | inl e => inl e
        | inr _ => inr tt
        end
    end.
Proof.
  unfold classify_and_report. rewrite bind_result.
  destruct (result (build_and_test w args b r "before" (base_dir r))); [reflexivity|].
  rewrite bind_result.
  destruct (result (build_and_test w args b r "after" (head_dir r))); reflexivity.
Qed.

Lemma pipeline_head_independent (b : Bundle) (h : json) :
  let b' := set_head_sha b h in
  processes (trace (pipeline w args b' (new_run w args b')))
  = processes (trace (pipeline w args b (new_run w args b))) /\
  result (pipeline w args b' (new_run w args b'))
  = result (pipeline w args b (new_run w args b)).
Proof.
  intros b'. unfold pipeline.
  rewrite !processes_bind, !bind_result.
  rewrite !classify_and_report_processes, !classify_and_report_result.
  split; reflexivity.
Qed.

End Worktrees.

Lemma main_events_after_load (w : World) (args : Args) (ev : event) :
  In ev (trace (main w args)) ->
  (forall msg, ev <> EvStderr msg) ->
  (forall dir c, ev <> EvWrite dir "meta.json" c) ->
  (forall path, ev <> EvMkdir path) ->
  exists b, result (load_bundle w args) = inr b /\
            In ev (trace (pipeline w args b (new_run w args b))).
Proof.
  intros Hin Hs Hw Hm.
  destruct (result (load_bundle w args)) as [e|b] eqn:E.
  - rewrite (main_load_aborts w args e E) in Hin.
    destruct (load_bundle_stderr w args ev Hin) as [msg ->].
    now destruct (Hs msg).
  - exists b. split; [reflexivity|].
    rewrite (main_after_load w args b E) in Hin.
    destruct Hin as [<-|[<-|Hin]];
      [exfalso; exact (Hm _ eq_refl) | exfalso; exact (Hw _ _ eq_refl) | exact Hin].
Qed.

(** C3: every [git worktree add] of a run checks out [str(base_sha)], in
    the base and in the head directory alike; when the workspace steps
    succeed the head worktree is added at that revision and [git apply]
    then runs inside it on the written patch; and the processes a run
    starts, and how it ends, do not depend on the recorded head
    revision. *)
Theorem head_worktree_from_base (w : World) (args : Args) :
  (forall cmd cwd t,
     In (EvProc cmd cwd t) (trace (main w args)) ->
     begins ["git"; "worktree"; "add"] cmd = true ->
     exists b, result (load_bundle w args) = inr b /\
       let r := new_run w args b in
       cwd = repo_dir r /\
       (cmd = ["git"; "worktree"; "add"; "--detach"; base_dir r; py_str (base_sha b)] \/
        cmd = ["git"; "worktree"; "add"; "--detach"; head_dir r; py_str (base_sha b)])) /\
  (forall b,
     result (load_bundle w args) = inr b ->
     let r := new_run w args b in
     result (provision w b r) = inr tt ->
     In (EvWrite (run_root r) "gold_patch.diff" (Text (patch_text b)))
        (trace (main w args)) /\
     exists later,
       processes (trace (main w args))
       = List.app
           [ (["git"; "clone"; "--no-checkout";
              "https://github.com/" ++ repo b ++ ".git"; repo_dir r],
             run_root r, 3600%Z);
            (["git"; "fetch"; "--all"; "--tags"], repo_dir r, 3600%Z);
            (["git"; "worktree"; "add"; "--detach"; base_dir r; py_str (base_sha b)],
             repo_dir r, 600%Z);
            (["git"; "worktree"; "add"; "--detach"; head_dir r; py_str (base_sha b)],
             repo_dir r, 600%Z);
            (["git"; "apply"; "--whitespace=nowarn";
              joinpath (run_root r) "gold_patch.diff"], head_dir r, 300%Z) ]
           later) /\
  (forall b h,
     let b' := set_head_sha b h in
     processes (trace (pipeline w args b' (new_run w args b')))
     = processes (trace (pipeline w args b (new_run w args b))) /\
     result (pipeline w args b' (new_run w args b'))
     = result (pipeline w args b (new_run w args b))).
Proof.
  split; [|split].
  - intros cmd cwd t Hin Hb.
    destruct (main_events_after_load w args _ Hin)
      as (b & Hload & Hp); try discriminate.
    exists b. split; [exact Hload|].
    exact (worktree_events w args b _ _ Hp cmd cwd t eq_refl Hb).
  - intros b Hload r Hprov. rewrite (main_after_load w args b Hload). fold r.
    split.
    + right. right. unfold pipeline. apply In_bind_l.
      now apply provision_writes_patch.
    + cbn [processes trace fst]. unfold pipeline at 1.
      rewrite processes_bind, Hprov, (provision_processes w b r Hprov).
      eexists. reflexivity.
  - intros b h. apply pipeline_head_independent.
Qed.

Lemma head_worktree_from_base_witness :
  (exists b, result (load_bundle passing_world example_args) = inr b /\
     let r := new_run passing_world example_args b in
     "/work/issue_256-20260102T030405Z/repo" = repo_dir r /\
     (["git"; "worktree"; "add"; "--detach";
       "/work/issue_256-20260102T030405Z/head"; "abc123"]
      = ["git"; "worktree"; "add"; "--detach"; base_dir r; py_str (base_sha b)] \/
      ["git"; "worktree"; "add"; "--detach";
       "/work/issue_256-20260102T030405Z/head"; "abc123"]
      = ["git"; "worktree"; "add"; "--detach"; head_dir r; py_str (base_sha b)])) /\
  In (EvWrite "/work/issue_256-20260102T030405Z" "gold_patch.diff"
              (Text "diff --git a/x b/x"))
     (trace (main passing_world example_args)).
Proof.
  destruct (head_worktree_from_base passing_world example_args) as (H1 & H2 & _).
  split.
  - apply (H1 _ "/work/issue_256-20260102T030405Z/repo" 600%Z).
    + vm_compute. in_list.
    + reflexivity.
  - apply (H2 example_bundle); vm_compute; reflexivity.
Defined.

(* ================================================================= *)
(** ** A patch that does not apply *)

Section PatchApply.

Variables (w : World) (args : Args).

Lemma all_checked_run (P : event -> Prop) cmd cwd t dir o e msg :
  P (EvProc cmd cwd t) ->
  (forall s, P (EvWrite dir o (Text s))) ->
  (forall s, P (EvWrite dir e (Text s))) ->
  P (EvStderr msg) ->
  all_events P (checked_run w cmd cwd t dir o e msg).
Proof.
  intros H1 H2 H3 H4. unfold checked_run, write_text. all_ev; auto.
Qed.

Lemma apply_events (b : Bundle) (r : Run) :
  all_events
    (fun ev => forall cmd cwd t,
       ev = EvProc cmd cwd t -> begins ["git"; "apply"] cmd = true ->
       cmd = apply_cmd r /\ cwd = head_dir r /\ t = 300%Z)
    (pipeline w args b r).
Proof. all_ev_pipeline; event_case; auto. Qed.

Lemma setup_events (b : Bundle) (r : Run) :
  all_events
    (fun ev => forall cmd cwd t,
       ev = EvProc cmd cwd t -> begins ["git"; "apply"] cmd = false)
    (provision_setup w b r).
Proof.
  unfold provision_setup, write_text.
  repeat first [ apply all_checked_run | progress all_ev ]; event_case; auto.
Qed.

Lemma provision_workspace_events (b : Bundle) (r : Run) :
  all_events workspace_event (provision w b r).
Proof.
  unfold provision, write_text. all_ev;
    (split; [|split]); event_case; auto.
Qed.

Lemma pipeline_apply_failure (b : Bundle) (r : Run) cmd cwd t p :
  In (EvProc cmd cwd t) (trace (pipeline w args b r)) ->
  begins ["git"; "apply"] cmd = true ->
  subprocess_run w cmd cwd t = inr p -> returncode p <> 0%Z ->
  result (provision w b r) = inl (SysExit 2) /\
  pipeline w args b r = (trace (provision w b r), inl (SysExit 2)) /\
  exists pre, trace (provision w b r) = (pre ++ [EvStderr apply_failed_msg])%list.
Proof.
  intros Hin Hb Hp Hrc.
  destruct (apply_events b r _ Hin cmd cwd t eq_refl Hb) as (-> & -> & ->).
  assert (Hsetup : exists u, result (provision_setup w b r) = inr u).
  { destruct (result (provision_setup w b r)) as [e|u] eqn:E; [|eauto].
    exfalso. unfold pipeline in Hin. rewrite provision_eq in Hin.
    rewrite (bind_aborts _ _ e) in Hin
      by (now rewrite (bind_aborts _ _ e E)).
    rewrite (bind_aborts _ _ e E) in Hin.
    pose proof (setup_events b r _ Hin _ _ _ eq_refl) as Hno.
    simpl in Hno. discriminate. }
  destruct Hsetup as [u Hu].
  pose proof (checked_run_cases w (apply_cmd r) (head_dir r) 300 (run_root r)
                "git_apply_patch.stdout.txt" "git_apply_patch.stderr.txt"
                apply_failed_msg) as Hcase.
  rewrite Hp in Hcase. apply Z.eqb_neq in Hrc. rewrite Hrc in Hcase.
  assert (Hprov : provision w b r
                  = ((trace (provision_setup w b r)
                      ++ [EvProc (apply_cmd r) (head_dir r) 300;
                          EvWrite (run_root r) "git_apply_patch.stdout.txt"
                                  (Text (cp_stdout p));
                          EvWrite (run_root r) "git_apply_patch.stderr.txt"
                                  (Text (cp_stderr p));
                          EvStderr apply_failed_msg])%list,
                     inl (SysExit 2))).
  { rewrite provision_eq, (bind_continues _ _ u Hu).
    unfold apply_step. now rewrite Hcase. }
  split; [now rewrite Hprov|]. split.
  - unfold pipeline. apply bind_aborts. now rewrite Hprov.
  - rewrite Hprov.
    exists (trace (provision_setup w b r)
              ++ [EvProc (apply_cmd r) (head_dir r) 300;
                  EvWrite (run_root r) "git_apply_patch.stdout.txt"
                          (Text (cp_stdout p));
                  EvWrite (run_root r) "git_apply_patch.stderr.txt"
                          (Text (cp_stderr p))])%list.
    cbn [trace fst]. now rewrite <- app_assoc.
Qed.

End PatchApply.

(** C5: when [git apply] exits with a non-zero status the run stops with
    the patch-apply message as its last output and exit status 2; no
    docker command has run, the report file has not been written and no
    label has been printed. *)
Theorem patch_apply_failure_aborts (w : World) (args : Args)
    (cmd : list string) (cwd : string) (t : Z) (p : CompletedProcess) :
  In (EvProc cmd cwd t) (trace (main w args)) ->
  begins ["git"; "apply"] cmd = true ->
  subprocess_run w cmd cwd t = inr p -> returncode p <> 0%Z ->
  result (main w args) = inl (SysExit 2) /\
  exit_status (main w args) = 2%Z /\
  (exists pre, trace (main w args) = (pre ++ [EvStderr apply_failed_msg])%list) /\
  (forall cmd' cwd' t',
     In (EvProc cmd' cwd' t') (trace (main w args)) -> begins ["docker"] cmd' = false) /\
  (forall dir c, ~ In (EvWrite dir "f2p_report.json" c) (trace (main w args))) /\
  (forall line, ~ In (EvStdout line) (trace (main w args))).
Proof.
  intros Hin Hb Hp Hrc.
  destruct (main_events_after_load w args _ Hin) as (b & Hload & Hpipe);
    try discriminate.
  destruct (pipeline_apply_failure w args b _ _ _ _ _ Hpipe Hb Hp Hrc)
    as (Hres & Heq & pre & Hpre).
  pose proof (main_after_load w args b Hload) as Hmain. cbv zeta in Hmain.
  rewrite Heq in Hmain. cbn [trace result fst snd] in Hmain.
  assert (Hev : forall ev, In ev (trace (main w args)) ->
                  workspace_event ev).
  { intros ev H. rewrite Hmain in H.
    destruct H as [<-|[<-|H]].
    - repeat split; discriminate.
    - repeat split; discriminate.
    - exact (provision_workspace_events w b _ ev H). }
  split; [now rewrite Hmain|]. split; [now rewrite Hmain|]. split.
  - rewrite Hmain. cbn [trace fst]. rewrite Hpre.
    eexists (_ :: _ :: pre). reflexivity.
  - repeat split.
    + intros cmd' cwd' t' H. exact (proj1 (Hev _ H) _ _ _ eq_refl).
    + intros dir c H. exact (proj1 (proj2 (Hev _ H)) dir c eq_refl).
    + intros line H. exact (proj2 (proj2 (Hev _ H)) line eq_refl).
Qed.

Lemma patch_apply_failure_aborts_witness :
  result (main unpatchable_world example_args) = inl (SysExit 2) /\
  exit_status (main unpatchable_world example_args) = 2%Z /\
  (forall dir c,
     ~ In (EvWrite dir "f2p_report.json" c) (trace (main unpatchable_world example_args))).
Proof.
  destruct (patch_apply_failure_aborts unpatchable_world example_args
              ["git"; "apply"; "--whitespace=nowarn";
               "/work/issue_256-20260102T030405Z/gold_patch.diff"]
              "/work/issue_256-20260102T030405Z/head" 300%Z
              {| returncode := 1; cp_stdout := "out"; cp_stderr := "err" |})
    as (H1 & H2 & _ & _ & H5 & _).
  - vm_compute. in_list.
  - reflexivity.
  - reflexivity.
  - simpl. lia.
  - auto.
Defined.

(* ================================================================= *)
(** ** Exit status *)

Section ExitStatus.

Variables (w : World) (args : Args).

Lemma stdout_after {A B} (m : M A) (f : A -> M B) (line : string) :
  silent m ->
  In (EvStdout line) (trace (bind m f)) ->
  exists a, result m = inr a /\ In (EvStdout line) (trace (f a)).
Proof.
  intros Hs Hin. apply In_bind in Hin. destruct Hin as [Hin|Hin]; [|exact Hin].
  now destruct (Hs _ Hin line).
Qed.

Lemma provision_silent (b : Bundle) (r : Run) : silent (provision w b r).
Proof. unfold silent, provision, write_text. all_ev; event_case. Qed.

Lemma stage_silent (b : Bundle) (dir : string) : silent (stage_bundle_into b dir).
Proof. unfold silent, stage_bundle_into. all_ev; event_case. Qed.

Lemma build_and_test_silent (b : Bundle) (r : Run) (label dir : string) :
  silent (build_and_test w args b r label dir).
Proof.
  unfold silent, build_and_test, write_text.
  repeat first
    [ match goal with
      | |- all_events _ (if ?c then _ else _) => destruct c
      end
    | progress all_ev ]; event_case.
Qed.

Lemma cleanup_returns (r : Run) : result (cleanup w args r) = inr tt.
Proof.
  unfold cleanup, unless. destruct (arg_keep_workdir args); [reflexivity|].
  rewrite !_run_eq.
  destruct (subprocess_run w _ (repo_dir r) 300) as [e1|p1]; [reflexivity|].
  cbn.
  destruct (subprocess_run w _ (repo_dir r) 300) as [e2|p2]; reflexivity.
Qed.

Lemma classify_in_labels (x y : bool) : In (_classify x y) labels.
Proof. destruct x, y; simpl; auto. Qed.

Lemma report_returns (b : Bundle) (r : Run) :
  result (classify_and_report w args b r) = inr tt ->
  exists before after,
    result (build_and_test w args b r "before" (base_dir r)) = inr before /\
    result (build_and_test w args b r "after" (head_dir r)) = inr after /\
    let status := _classify (truthy (dict_get before "test_ok"))
                            (truthy (dict_get after "test_ok")) in
    In (EvWrite (run_root r) "f2p_report.json"
                (JsonText (JObj (make_report r status before after))))
       (trace (classify_and_report w args b r)) /\
    In (EvStdout ("[F2P] " ++ status)) (trace (classify_and_report w args b r)).
Proof.
  unfold classify_and_report. intros H.
  apply bind_returns in H. destruct H as (before & Hb & H).
  apply bind_returns in H. destruct H as (after & Ha & H).
  exists before, after. split; [exact Hb|]. split; [exact Ha|].
  cbv zeta. split.
  - apply (In_bind_r _ _ _ before Hb). apply (In_bind_r _ _ _ after Ha).
    now left.
  - apply (In_bind_r _ _ _ before Hb). apply (In_bind_r _ _ _ after Ha).
    right. now left.
Qed.

Lemma report_printed (b : Bundle) (r : Run) (line : string) :
  In (EvStdout line) (trace (classify_and_report w args b r)) ->
  result (classify_and_report w args b r) = inr tt.
Proof.
  unfold classify_and_report. intros H.
  apply stdout_after in H; [|apply build_and_test_silent].
  destruct H as (before & Hb & H).
  apply stdout_after in H; [|apply build_and_test_silent].
  destruct H as (after & Ha & H).
  rewrite (bind_continues _ _ before Hb). cbn [result snd].
  rewrite (bind_continues _ _ after Ha). reflexivity.
Qed.

Lemma pipeline_returns_label (b : Bundle) (r : Run) :
  result (pipeline w args b r) = inr tt ->
  exists status,
    In status labels /\
    In (EvStdout ("[F2P] " ++ status)) (trace (pipeline w args b r)).
Proof.
  unfold pipeline. intros H.
  apply bind_returns in H. destruct H as (u1 & H1 & H).
  apply bind_returns in H. destruct H as (u2 & H2 & H).
  apply bind_returns in H. destruct H as (u3 & H3 & H).
  apply bind_returns in H. destruct H as ([] & H4 & H).
  destruct (report_returns b r H4) as (before & after & _ & _ & _ & Hlabel).
  eexists. split; [apply classify_in_labels|].
  apply (In_bind_r _ _ _ u1 H1). apply (In_bind_r _ _ _ u2 H2).
  apply (In_bind_r _ _ _ u3 H3). apply In_bind_l. exact Hlabel.
Qed.

Lemma cleanup_silent (r : Run) : silent (cleanup w args r).
Proof. unfold silent, cleanup. all_ev; event_case. Qed.

Lemma pipeline_label_returns (b : Bundle) (r : Run) (line : string) :
  In (EvStdout line) (trace (pipeline w args b r)) ->
  result (pipeline w args b r) = inr tt.
Proof.
  unfold pipeline. intros H.
  apply stdout_after in H; [|apply provision_silent].
  destruct H as (u1 & H1 & H).
  apply stdout_after in H; [|apply stage_silent].
  destruct H as (u2 & H2 & H).
  apply stdout_after in H; [|apply stage_silent].
  destruct H as (u3 & H3 & H).
  apply In_bind in H. destruct H as [H|(u4 & _ & H)].
  - apply report_printed in H.
    rewrite !bind_result, H1, H2, H3, H. apply cleanup_returns.
  - now destruct (cleanup_silent r _ H line).
Qed.

Lemma main_exits : exits_with_2 (main w args).
Proof.
  unfold main. apply exits_bind; [apply load_bundle_exits|]. intros b.
  unfold start_run, provision, stage_bundle_into, classify_and_report,
    build_and_test, cleanup, write_text.
  repeat first
    [ match goal with
      | |- exits_with_2 (if ?c then _ else _) => destruct c
      end
    | progress exits ].
Qed.

Lemma exit_zero_returns : exit_status (main w args) = 0%Z <-> result (main w args) = inr tt.
Proof.
  unfold exit_status. split.
  - destruct (result (main w args)) as [[c|e]|[]] eqn:E; try discriminate; auto.
    intros ->. now apply main_exits in E.
  - now intros ->.
Qed.

Lemma abort_nonzero (a : abort) :
  result (main w args) = inl a ->
  exit_status (main w args) = 1%Z \/ exit_status (main w args) = 2%Z.
Proof.
  intros H. unfold exit_status. rewrite H. destruct a as [c|e]; [|now left].
  right. now apply main_exits in H.
Qed.

Lemma later_steps_not_workspace (b : Bundle) (r : Run) :
  all_events
    (fun ev => forall cmd cwd t,
       ev = EvProc cmd cwd t -> is_workspace_step cmd = false)
    (stage_bundle_into b (base_dir r) ;;;
     stage_bundle_into b (head_dir r) ;;;
     classify_and_report w args b r ;;; cleanup w args r).
Proof. all_ev_pipeline; event_case; auto. Qed.

Lemma workspace_failure_exits (cmd : list string) (cwd : string) (t : Z)
    (p : CompletedProcess) :
  In (EvProc cmd cwd t) (trace (main w args)) ->
  is_workspace_step cmd = true ->
  subprocess_run w cmd cwd t = inr p -> returncode p <> 0%Z ->
  result (main w args) = inl (SysExit 2).
Proof.
  intros Hin Hws Hp Hrc.
  destruct (main_events_after_load w args _ Hin) as (b & Hload & Hpipe);
    try discriminate.
  rewrite (main_after_load w args b Hload). cbn [result snd].
  unfold pipeline in *. apply In_bind in Hpipe.
  destruct Hpipe as [H|(u & Hu & H)].
  - rewrite bind_result.
    now rewrite (strict_provision w b _ _ _ _ _ H Hp Hrc).
  - pose proof (later_steps_not_workspace b _ _ H _ _ _ eq_refl). congruence.
Qed.

End ExitStatus.

Section Preconditions.

Variables (w : World) (args : Args).

Lemma missing_tool_dies :
  which w "git" = false \/ which w "docker" = false ->
  result (load_bundle w args) = inl (SysExit 2).
Proof.
  intros H. unfold load_bundle. rewrite bind_result.
  destruct (path_exists w (resolve w (arg_bundle_dir args))); [|reflexivity].
  cbn [unless ret result snd]. rewrite bind_result.
  unfold _ensure_tools. cbn [for_each]. rewrite bind_result.
  destruct (which w "git"); [|reflexivity].
  cbn [unless ret result snd]. rewrite bind_result.
  destruct (which w "docker"); [|reflexivity].
  destruct H; discriminate.
Qed.

Lemma unreadable_issue_raises (e : exn) :
  path_exists w (resolve w (arg_bundle_dir args)) = true ->
  which w "git" = true -> which w "docker" = true ->
  _load_issue_json w (resolve w (arg_bundle_dir args)) = inl e ->
  result (load_bundle w args) = inl (Uncaught e).
Proof.
  intros Hp Hg Hd Hl. unfold load_bundle, _ensure_tools. cbn [for_each].
  rewrite Hp, Hg, Hd, Hl. reflexivity.
Qed.

Lemma unparsable_url_raises (d : dict) (e : exn) :
  path_exists w (resolve w (arg_bundle_dir args)) = true ->
  which w "git" = true -> which w "docker" = true ->
  _load_issue_json w (resolve w (arg_bundle_dir args)) = inr (JObj d) ->
  _parse_repo_from_issue_url (py_or (dict_get d "url") (JStr "")) = inl e ->
  result (load_bundle w args) = inl (Uncaught e).
Proof.
  intros Hp Hg Hd Hl Hu. unfold load_bundle, _ensure_tools. cbn [for_each].
  rewrite Hp, Hg, Hd, Hl. cbn [unless lift ret bind py_get List.app].
  rewrite Hu. reflexivity.
Qed.

End Preconditions.

(** C7: the exit status is 0 exactly when a label was printed, whichever
    of the four it is; every stop before that gives status 1 or 2: a
    missing tool gives 2, a bundle that cannot be loaded (unreadable issue
    file, URL without a repository, any other failed precondition) gives a
    non-zero status, and a clone, fetch, worktree or apply step that exits
    with a non-zero status gives 2. *)
Theorem exit_status_law (w : World) (args : Args) :
  (exit_status (main w args) = 0%Z <->
   exists status, In status labels /\
                  In (EvStdout ("[F2P] " ++ status)) (trace (main w args))) /\
  (forall a, result (main w args) = inl a ->
     exit_status (main w args) = 1%Z \/ exit_status (main w args) = 2%Z) /\
  (which w "git" = false \/ which w "docker" = false ->
     exit_status (main w args) = 2%Z) /\
  (forall e, result (load_bundle w args) = inl e ->
     result (main w args) = inl e /\ exit_status (main w args) <> 0%Z) /\
  (forall e d,
     path_exists w (resolve w (arg_bundle_dir args)) = true ->
     which w "git" = true -> which w "docker" = true ->
     _load_issue_json w (resolve w (arg_bundle_dir args)) = inl e \/
     (_load_issue_json w (resolve w (arg_bundle_dir args)) = inr (JObj d) /\
      _parse_repo_from_issue_url (py_or (dict_get d "url") (JStr "")) = inl e) ->
     exit_status (main w args) = 1%Z) /\
  (forall cmd cwd t p,
     In (EvProc cmd cwd t) (trace (main w args)) ->
     is_workspace_step cmd = true ->
     subprocess_run w cmd cwd t = inr p -> returncode p <> 0%Z ->
     exit_status (main w args) = 2%Z).
Proof.
  assert (Hload : forall e, result (load_bundle w args) = inl e ->
                    result (main w args) = inl e).
  { intros e H. now rewrite (main_load_aborts w args e H). }
  split; [split|split; [|split; [|split; [|split]]]].
  - intros H. apply exit_zero_returns in H.
    destruct (result (load_bundle w args)) as [e|b] eqn:E.
    + rewrite (Hload e eq_refl) in H. discriminate.
    + rewrite (main_after_load w args b E) in *. cbn [result snd] in H.
      destruct (pipeline_returns_label w args b _ H) as (status & Hl & Hin).
      exists status. split; [exact Hl|]. right. right. exact Hin.
  - intros (status & _ & Hin). apply exit_zero_returns.
    destruct (main_events_after_load w args _ Hin) as (b & E & Hp);
      try discriminate.
    rewrite (main_after_load w args b E). cbn [result snd].
    exact (pipeline_label_returns w args b _ _ Hp).
  - apply abort_nonzero.
  - intros H. unfold exit_status.
    now rewrite (Hload _ (missing_tool_dies w args H)).
  - intros e H. split; [now apply Hload|].
    destruct (abort_nonzero w args e (Hload e H)) as [-> | ->]; discriminate.
  - intros e d Hp Hg Hd [Hl|[Hl Hu]]; unfold exit_status.
    + now rewrite (Hload _ (unreadable_issue_raises w args e Hp Hg Hd Hl)).
    + now rewrite (Hload _ (unparsable_url_raises w args d e Hp Hg Hd Hl Hu)).
  - intros cmd cwd t p Hin Hws Hp Hrc. unfold exit_status.
    now rewrite (workspace_failure_exits w args cmd cwd t p Hin Hws Hp Hrc).
Qed.

Lemma exit_status_law_witness :
  exit_status (main unbuildable_world example_args) = 0%Z /\
  exit_status (main unpatchable_world example_args) = 2%Z.
Proof.
  split.
  - apply (exit_status_law unbuildable_world example_args).
    exists "pass2fail". split; [simpl; auto|]. vm_compute. in_list.
  - destruct (exit_status_law unpatchable_world example_args)
      as (_ & _ & _ & _ & _ & H).
    apply (H ["git"; "apply"; "--whitespace=nowarn";
              "/work/issue_256-20260102T030405Z/gold_patch.diff"]
             "/work/issue_256-20260102T030405Z/head" 300%Z
             {| returncode := 1; cp_stdout := "out"; cp_stderr := "err" |}).
    + vm_compute. in_list.
    + reflexivity.
    + reflexivity.
    + simpl. lia.
Defined.

(* ================================================================= *)
(** ** A side whose image does not build *)

Section BuildFailure.

Variables (w : World) (args : Args).

Lemma build_fails (b : Bundle) (r : Run) (label worktree : string)
    (p : CompletedProcess) :
  subprocess_run w (build_cmd b r label) worktree (arg_timeout_build args) = inr p ->
  returncode p <> 0%Z ->
  build_and_test w args b r label worktree
  = ([EvProc (build_cmd b r label) worktree (arg_timeout_build args);
      EvWrite (run_root r) ("docker_build_" ++ label ++ ".stdout.txt")
              (Text (cp_stdout p));
      EvWrite (run_root r) ("docker_build_" ++ label ++ ".stderr.txt")
              (Text (cp_stderr p))],
     inr [ ("label", JStr label); ("image", JStr (image_of r label));
           ("build_ok", JBool false); ("test_ok", JBool false);
           ("build_exit", JInt (returncode p)); ("test_exit", JNull) ]).
Proof.
  intros Hp Hrc. apply Z.eqb_neq in Hrc.
  unfold build_and_test. rewrite _run_eq.
  change (["docker"; "build"; "-t"; lower ("swegent-f2p:" ++ run_id r ++ "-" ++ label);
           "-f"; dockerfile_src b; "."]) with (build_cmd b r label).
  rewrite Hp. unfold write_text, emit, bind, ret.
  cbn [ok exit_code stdout stderr negb]. rewrite Hrc. reflexivity.
Qed.

Lemma stage_returns (b : Bundle) (dir : string) :
  result (stage_bundle_into b dir) = inr tt.
Proof.
  unfold stage_bundle_into. rewrite bind_result. cbn [emit result snd].
  induction (test_files b) as [|t l IH]; [reflexivity|].
  cbn [for_each]. rewrite bind_result. exact IH.
Qed.

Lemma pipeline_reports (b : Bundle) (r : Run) (before after : dict) :
  result (provision w b r) = inr tt ->
  result (build_and_test w args b r "before" (base_dir r)) = inr before ->
  result (build_and_test w args b r "after" (head_dir r)) = inr after ->
  let status := _classify (truthy (dict_get before "test_ok"))
                          (truthy (dict_get after "test_ok")) in
  result (pipeline w args b r) = inr tt /\
  In (EvWrite (run_root r) "f2p_report.json"
              (JsonText (JObj (make_report r status before after))))
     (trace (pipeline w args b r)) /\
  In (EvStdout ("[F2P] " ++ status)) (trace (pipeline w args b r)).
Proof.
  intros Hprov Hb Ha status.
  assert (Hcar : result (classify_and_report w args b r) = inr tt).
  { now rewrite classify_and_report_result, Hb, Ha. }
  destruct (report_returns w args b r Hcar)
    as (before' & after' & Hb' & Ha' & Hw & Hl).
  rewrite Hb in Hb'. rewrite Ha in Ha'. inversion Hb'. inversion Ha'. subst.
  split; [|split].
  - unfold pipeline. rewrite !bind_result, Hprov, !stage_returns, Hcar.
    apply cleanup_returns.
  - unfold pipeline. apply (In_bind_r _ _ _ tt Hprov).
    apply (In_bind_r _ _ _ tt (stage_returns b _)).
    apply (In_bind_r _ _ _ tt (stage_returns b _)).
    apply In_bind_l. exact Hw.
  - unfold pipeline. apply (In_bind_r _ _ _ tt Hprov).
    apply (In_bind_r _ _ _ tt (stage_returns b _)).
    apply (In_bind_r _ _ _ tt (stage_returns b _)).
    apply In_bind_l. exact Hl.
Qed.

End BuildFailure.

(** C2, as stated, fails: the record of a side whose build failed holds
    [test_ok = False], a boolean, not null; only [test_exit] is null.  The
    report of the run shows it. *)
Lemma build_failure_test_ok_counterexample :
  let r := new_run unbuildable_world example_args example_bundle in
  exists outcome report,
    result (build_and_test unbuildable_world example_args example_bundle r
                           "after" (head_dir r)) = inr outcome /\
    dict_find outcome "build_ok" = Some (JBool false) /\
    dict_find outcome "test_ok" = Some (JBool false) /\
    dict_find outcome "test_ok" <> None /\
    dict_find outcome "test_ok" <> Some JNull /\
    In (EvWrite (run_root r) "f2p_report.json" (JsonText (JObj report)))
       (trace (main unbuildable_world example_args)) /\
    dict_find report "after" = Some (JObj outcome).
Proof.
  cbv zeta. eexists. eexists.
  split; [vm_compute; reflexivity|].
  split; [reflexivity|]. split; [reflexivity|].
  split; [discriminate|]. split; [discriminate|].
  split; [vm_compute; in_list | reflexivity].
Qed.

(** C2, amended: when the build of a side exits with a non-zero status,
    [build_and_test] starts no other process for that side (the test
    command is not run) and returns a record with [build_ok = False],
    [test_ok = False], [build_exit] the status and [test_exit] null; if
    the workspace steps succeeded and the other side returns, the run
    completes with exit status 0, writes the report and prints a label
    computed with the failed side as not passing. *)
Theorem build_failure_recorded (w : World) (args : Args) (b : Bundle) :
  (forall r label worktree p,
     build_failed w args b r label worktree p ->
     build_and_test w args b r label worktree
     = ([EvProc (build_cmd b r label) worktree (arg_timeout_build args);
         EvWrite (run_root r) ("docker_build_" ++ label ++ ".stdout.txt")
                 (Text (cp_stdout p));
         EvWrite (run_root r) ("docker_build_" ++ label ++ ".stderr.txt")
                 (Text (cp_stderr p))],
        inr (failed_outcome r label (returncode p))) /\
     dict_find (failed_outcome r label (returncode p)) "build_ok" = Some (JBool false) /\
     dict_find (failed_outcome r label (returncode p)) "test_ok" = Some (JBool false) /\
     dict_find (failed_outcome r label (returncode p)) "build_exit"
       = Some (JInt (returncode p)) /\
     dict_find (failed_outcome r label (returncode p)) "test_exit" = Some JNull) /\
  (result (load_bundle w args) = inr b ->
   let r := new_run w args b in
   result (provision w b r) = inr tt ->
   (forall p after,
      build_failed w args b r "before" (base_dir r) p ->
      result (build_and_test w args b r "after" (head_dir r)) = inr after ->
      let before := failed_outcome r "before" (returncode p) in
      let status := _classify false (truthy (dict_get after "test_ok")) in
      exit_status (main w args) = 0%Z /\
      In status ["fail2pass"; "fail2fail"] /\
      In (EvStdout ("[F2P] " ++ status)) (trace (main w args)) /\
      In (EvWrite (run_root r) "f2p_report.json"
                  (JsonText (JObj (make_report r status before after))))
         (trace (main w args))) /\
   (forall p before,
      build_failed w args b r "after" (head_dir r) p ->
      result (build_and_test w args b r "before" (base_dir r)) = inr before ->
      let after := failed_outcome r "after" (returncode p) in
      let status := _classify (truthy (dict_get before "test_ok")) false in
      exit_status (main w args) = 0%Z /\
      In status ["fail2fail"; "pass2fail"] /\
      In (EvStdout ("[F2P] " ++ status)) (trace (main w args)) /\
      In (EvWrite (run_root r) "f2p_report.json"
                  (JsonText (JObj (make_report r status before after))))
         (trace (main w args)))).
Proof.
  split.
  - intros r label worktree p [Hp Hrc].
    split; [exact (build_fails w args b r label worktree p Hp Hrc)|].
    repeat split; reflexivity.
  - intros Hload r Hprov.
    pose proof (main_after_load w args b Hload) as Hmain. cbv zeta in Hmain.
    fold r in Hmain.
    assert (Hexit : result (pipeline w args b r) = inr tt ->
                    exit_status (main w args) = 0%Z).
    { intros H. unfold exit_status. rewrite Hmain. cbn [result snd].
      now rewrite H. }
    split.
    + intros p after [Hp Hrc] Ha before status.
      assert (Hb : result (build_and_test w args b r "before" (base_dir r))
                   = inr before).
      { now rewrite (build_fails w args b r _ _ p Hp Hrc). }
      destruct (pipeline_reports w args b r before after Hprov Hb Ha)
        as (Hres & Hw & Hl).
      split; [exact (Hexit Hres)|]. split.
      { subst status. destruct (truthy (dict_get after "test_ok")); simpl; auto. }
      rewrite Hmain. cbn [trace fst].
      split; right; right; assumption.
    + intros p before [Hp Hrc] Hb after status.
      assert (Ha : result (build_and_test w args b r "after" (head_dir r))
                   = inr after).
      { now rewrite (build_fails w args b r _ _ p Hp Hrc). }
      destruct (pipeline_reports w args b r before after Hprov Hb Ha)
        as (Hres & Hw & Hl).
      split; [exact (Hexit Hres)|]. split.
      { subst status. destruct (truthy (dict_get before "test_ok")); simpl; auto. }
      rewrite Hmain. cbn [trace fst].
      split; right; right; assumption.
Qed.

Lemma build_failure_recorded_witness :
  let r := new_run unbuildable_world example_args example_bundle in
  let p := {| returncode := 1; cp_stdout := "out"; cp_stderr := "err" |} in
  result (build_and_test unbuildable_world example_args example_bundle r
                         "after" (head_dir r))
    = inr (failed_outcome r "after" 1) /\
  exit_status (main unbuildable_world example_args) = 0%Z /\
  In (EvStdout "[F2P] pass2fail") (trace (main unbuildable_world example_args)).
Proof.
  cbv zeta.
  destruct (build_failure_recorded unbuildable_world example_args example_bundle)
    as (H1 & H2).
  assert (Hf : build_failed unbuildable_world example_args example_bundle
                 (new_run unbuildable_world example_args example_bundle) "after"
                 (head_dir (new_run unbuildable_world example_args example_bundle))
                 {| returncode := 1; cp_stdout := "out"; cp_stderr := "err" |}).
  { split; [reflexivity | simpl; lia]. }
  split.
  - destruct (H1 _ _ _ _ Hf) as (E & _). rewrite E. reflexivity.
  - destruct H2 as (_ & H2); [vm_compute; reflexivity | vm_compute; reflexivity|].
    destruct (H2 _ _ Hf eq_refl) as (He & _ & Hl & _).
    split; [exact He|].
    exact Hl.
Defined.

(* ================================================================= *)
(** ** The metadata inside the report *)

Section Report.

Variables (w : World) (args : Args).

Lemma make_report_frame (b : Bundle) (r : Run) (rid status : string)
    (before after : dict) :
  meta r = make_meta b rid ->
  keys (meta r) = meta_keys /\
  keys (make_report r status before after) = (meta_keys ++ report_keys)%list /\
  (forall k v, dict_find (meta r) k = Some v ->
               dict_find (make_report r status before after) k = Some v) /\
  dict_find (make_report r status before after) "status" = Some (JStr status) /\
  dict_find (make_report r status before after) "before" = Some (JObj before) /\
  dict_find (make_report r status before after) "after" = Some (JObj after).
Proof.
  intros E. unfold make_report. rewrite E. unfold make_meta.
  split; [reflexivity|]. split; [reflexivity|].
  split; [|repeat split; reflexivity].
  intros k v. simpl.
  repeat match goal with
    | |- (if String.eqb k ?x then _ else _) = _ -> _ =>
        destruct (String.eqb k x); [exact (fun H => H)|]
    end.
  discriminate.
Qed.

Lemma pipeline_writes (b : Bundle) (r : Run) :
  all_events
    (fun ev =>
       (forall dir c, ev <> EvWrite dir "meta.json" c) /\
       (forall dir c, ev = EvWrite dir "f2p_report.json" c ->
          exists status before after,
            c = JsonText (JObj (make_report r status before after))))
    (pipeline w args b r).
Proof.
  all_ev_pipeline; (split; [event_case | event_case; eauto]).
Qed.

End Report.

(** C10: in every run that writes the report, each key of [meta.json]
    (run_id, bundle_dir, repo, issue_url, issue_number, base_sha,
    head_sha, dockerfile, tests) is in the report with the same value, in
    the same order, and the report adds exactly the keys status, before,
    after and paths after them. *)
Theorem report_keeps_meta (w : World) (args : Args)
    (dir1 dir2 : string) (written report : dict) :
  In (EvWrite dir1 "meta.json" (JsonText (JObj written))) (trace (main w args)) ->
  In (EvWrite dir2 "f2p_report.json" (JsonText (JObj report))) (trace (main w args)) ->
  keys written = meta_keys /\
  keys report = (keys written ++ report_keys)%list /\
  (forall k v, dict_find written k = Some v -> dict_find report k = Some v) /\
  (forall k, In k (keys written) -> dict_get report k = dict_get written k).
Proof.
  intros Hm Hr.
  destruct (main_events_after_load w args _ Hr) as (b & Hload & Hrp);
    try discriminate.
  rewrite (main_after_load w args b Hload) in Hm. cbn [trace fst] in Hm.
  set (r := new_run w args b) in *.
  assert (Em : written = meta r).
  { destruct Hm as [Hm|[Hm|Hm]]; [discriminate | now inversion Hm |].
    now destruct (proj1 (pipeline_writes w args b r _ Hm) dir1 (JsonText (JObj written))). }
  destruct (proj2 (pipeline_writes w args b r _ Hrp) _ _ eq_refl)
    as (status & before & after & Er).
  inversion Er; subst; clear Er.
  destruct (make_report_frame b r (run_id r) status before after eq_refl)
    as (K1 & K2 & F & _).
  split; [exact K1|]. split; [now rewrite K1|]. split; [exact F|].
  intros k Hk. unfold dict_get.
  destruct (dict_find (meta r) k) as [v|] eqn:E.
  - now rewrite (F k v E).
  - exfalso. rewrite K1 in Hk. revert E. clear -Hk.
    unfold r. simpl in Hk.
    repeat (destruct Hk as [<-|Hk]; [discriminate|]). destruct Hk.
Qed.

Lemma report_keeps_meta_witness :
  exists meta report,
    dict_find meta "base_sha" = Some (JStr "abc123") /\
    dict_find report "base_sha" = Some (JStr "abc123") /\
    keys report = (keys meta ++ report_keys)%list.
Proof.
  eexists. eexists.
  assert (H := fun m r H1 H2 =>
            report_keeps_meta passing_world example_args
              "/work/issue_256-20260102T030405Z" "/work/issue_256-20260102T030405Z"
              m r H1 H2).
  split; [|split].
  3: { eapply H; vm_compute; in_list. }
  - reflexivity.
  - reflexivity.
Defined.

(* ================================================================= *)
(** ** The linked pull request *)

Section LinkedPr.

Lemma select_first_only (issue : dict) (x : json) (rest : list json) :
  dict_get issue "linked_prs" = JList (x :: rest) ->
  select_linked_pr (JObj issue)
  = select_linked_pr (JObj [("linked_prs", JList [x])]).
Proof.
  intros H. unfold select_linked_pr. cbn [py_get lift ret bind List.app].
  rewrite H. reflexivity.
Qed.

Lemma select_first_cases (issue : dict) (pr0 : dict) (rest : list json) :
  dict_get issue "linked_prs" = JList (JObj pr0 :: rest) ->
  let base := dict_get pr0 "base_sha" in
  let patch := py_or (dict_get pr0 "patch") (JStr "") in
  (truthy base = false ->
   select_linked_pr (JObj issue) = _die "linked_prs[0] missing base_sha.") /\
  (forall s, truthy base = true -> patch = JStr s ->
     nonempty (strip s) = false ->
     select_linked_pr (JObj issue)
     = _die "linked_prs[0] missing patch text; cannot apply fix on top of base_sha.") /\
  (forall s, truthy base = true -> patch = JStr s ->
     nonempty (strip s) = true ->
     select_linked_pr (JObj issue) = ret (base, dict_get pr0 "head_sha", s)).
Proof.
  intros H base patch.
  rewrite (select_first_only issue _ rest H).
  unfold select_linked_pr.
  cbn [py_get lift ret bind List.app dict_get dict_find String.eqb Ascii.eqb
       Bool.eqb py_or truthy unless py_index0].
  fold base. fold patch.
  split; [|split].
  - intros ->. reflexivity.
  - intros s -> -> Hs. cbn [unless ret bind py_str_method lift List.app].
    rewrite Hs. reflexivity.
  - intros s -> -> Hs. cbn [unless ret bind py_str_method lift List.app].
    rewrite Hs. reflexivity.
Qed.

End LinkedPr.

Section LoadedBundle.

Lemma lift_returns {A} (r : exn + A) (a : A) : result (lift r) = inr a -> r = inr a.
Proof. destruct r; simpl; intros H; now inversion H. Qed.

Lemma unless_returns (c : bool) (msg : string) (u : unit) :
  result (unless c (_die msg)) = inr u -> c = true.
Proof. destruct c; simpl; [reflexivity | discriminate]. Qed.

Lemma py_get_returns (v x : json) (k : string) :
  py_get v k = inr x -> exists d, v = JObj d /\ x = dict_get d k.
Proof. destruct v; simpl; intros H; inversion H. eauto. Qed.

Lemma select_returns (issue bs hs : json) (pt : string) :
  result (select_linked_pr issue) = inr (bs, hs, pt) ->
  exists d pr0 rest,
    issue = JObj d /\
    dict_get d "linked_prs" = JList (JObj pr0 :: rest) /\
    bs = dict_get pr0 "base_sha" /\ hs = dict_get pr0 "head_sha" /\
    dict_get pr0 "patch" = JStr pt /\
    truthy bs = true /\ nonempty (strip pt) = true.
Proof.
  unfold select_linked_pr. intros H.
  apply bind_returns in H. destruct H as (lp & Hlp & H).
  apply lift_returns, py_get_returns in Hlp. destruct Hlp as (d & -> & ->).
  apply bind_returns in H. destruct H as (u1 & Ht & H).
  apply unless_returns in Ht.
  apply bind_returns in H. destruct H as (pr0 & Hpr & H).
  apply lift_returns in Hpr.
  apply bind_returns in H. destruct H as (bs' & Hbs & H).
  apply lift_returns, py_get_returns in Hbs. destruct Hbs as (p0 & -> & ->).
  apply bind_returns in H. destruct H as (hs' & Hhs & H).
  apply lift_returns in Hhs. simpl in Hhs. inversion Hhs; subst hs'; clear Hhs.
  apply bind_returns in H. destruct H as (patch & Hpa & H).
  apply lift_returns in Hpa. simpl in Hpa. inversion Hpa; subst patch; clear Hpa.
  apply bind_returns in H. destruct H as (u2 & Hb & H).
  apply unless_returns in Hb.
  apply bind_returns in H. destruct H as (s & Hs & H).
  apply lift_returns in Hs.
  apply bind_returns in H. destruct H as (u3 & Hne & H).
  apply unless_returns in Hne.
  simpl in H. inversion H; subst; clear H.
  assert (Hpatch : dict_get p0 "patch" = JStr pt).
  { unfold py_or in Hs. destruct (truthy (dict_get p0 "patch")) eqn:E.
    - destruct (dict_get p0 "patch"); simpl in Hs; inversion Hs. reflexivity.
    - simpl in Hs. inversion Hs; subst. discriminate. }
  exists d, p0.
  unfold py_or in Ht, Hpr.
  destruct (dict_get d "linked_prs") as [| [] | z | [|c s] | [|x rest] | kv];
    simpl in Ht, Hpr; try discriminate.
  - destruct (negb (z =? 0)%Z); discriminate.
  - inversion Hpr; subst. exists rest. repeat split; auto.
  - destruct kv; discriminate.
Qed.

Lemma load_bundle_returns (w : World) (args : Args) (b : Bundle) :
  result (load_bundle w args) = inr b ->
  exists d pr0 rest,
    _load_issue_json w (resolve w (arg_bundle_dir args)) = inr (JObj d) /\
    dict_get d "linked_prs" = JList (JObj pr0 :: rest) /\
    base_sha b = dict_get pr0 "base_sha" /\
    head_sha b = dict_get pr0 "head_sha" /\
    dict_get pr0 "patch" = JStr (patch_text b) /\
    truthy (base_sha b) = true /\ nonempty (strip (patch_text b)) = true.
Proof.
  unfold load_bundle. intros H.
  apply bind_returns in H. destruct H as (u1 & _ & H).
  apply bind_returns in H. destruct H as (u2 & _ & H).
  apply bind_returns in H. destruct H as (issue & Hi & H).
  apply lift_returns in Hi.
  apply bind_returns in H. destruct H as (num & _ & H).
  apply bind_returns in H. destruct H as (url & _ & H).
  apply bind_returns in H. destruct H as (rp & _ & H).
  apply bind_returns in H. destruct H as ([[bs hs] pt] & Hsel & H).
  apply bind_returns in H. destruct H as (df & _ & H).
  apply bind_returns in H. destruct H as (u3 & _ & H).
  simpl in H. inversion H; subst; clear H. cbn [base_sha head_sha patch_text].
  destruct (select_returns _ _ _ _ Hsel) as (d & pr0 & rest & -> & Hl & Hrest).
  exists d, pr0, rest. split; [exact Hi|]. split; [exact Hl | exact Hrest].
Qed.

End LoadedBundle.

Section IssueStage.

Variables (w : World) (args : Args).

Hypothesis Hdir : path_exists w (resolve w (arg_bundle_dir args)) = true.
Hypothesis Hgit : which w "git" = true.
Hypothesis Hdocker : which w "docker" = true.

Lemma main_issue_not_object (issue : json) :
  _load_issue_json w (resolve w (arg_bundle_dir args)) = inr issue ->
  (forall d, issue <> JObj d) ->
  main w args = raise AttributeError.
Proof.
  intros Hi Hn. unfold main, load_bundle, _ensure_tools. cbn [for_each].
  rewrite Hdir, Hgit, Hdocker, Hi.
  destruct issue; try reflexivity. now destruct (Hn kv).
Qed.

Lemma main_linked_pr_aborts (d : dict) (repo : string) (a : abort) :
  _load_issue_json w (resolve w (arg_bundle_dir args)) = inr (JObj d) ->
  _parse_repo_from_issue_url (py_or (dict_get d "url") (JStr "")) = inr repo ->
  result (select_linked_pr (JObj d)) = inl a ->
  main w args = (trace (select_linked_pr (JObj d)), inl a).
Proof.
  intros Hi Hr Ha. unfold main, load_bundle, _ensure_tools. cbn [for_each].
  rewrite Hdir, Hgit, Hdocker, Hi.
  cbn [unless lift ret bind py_get List.app]. rewrite Hr.
  cbn [lift ret bind List.app].
  rewrite (bind_aborts _ _ _ Ha). cbn [bind]. reflexivity.
Qed.

End IssueStage.

Section FirstRecord.

Variables (w : World) (args : Args).

Lemma load_bundle_proceeds (d : dict) (repo : string) (base head : json)
    (s df : string) :
  path_exists w (resolve w (arg_bundle_dir args)) = true ->
  which w "git" = true -> which w "docker" = true ->
  _load_issue_json w (resolve w (arg_bundle_dir args)) = inr (JObj d) ->
  _parse_repo_from_issue_url (py_or (dict_get d "url") (JStr "")) = inr repo ->
  select_linked_pr (JObj d) = ret (base, head, s) ->
  _pick_dockerfile w (resolve w (arg_bundle_dir args)) = inr df ->
  _pick_tests w (resolve w (arg_bundle_dir args)) <> [] ->
  result (load_bundle w args)
  = inr {| bundle_dir := resolve w (arg_bundle_dir args);
           issue_number := dict_get d "number";
           issue_url := py_or (dict_get d "url") (JStr "");
           repo := repo; base_sha := base; head_sha := head; patch_text := s;
           dockerfile_src := df;
           test_files := _pick_tests w (resolve w (arg_bundle_dir args)) |}.
Proof.
  intros Hdir Hgit Hdocker Hi Hr Hsel Hdf Ht.
  unfold load_bundle, _ensure_tools. cbn [for_each].
  rewrite Hdir, Hgit, Hdocker, Hi.
  cbn [unless lift ret bind py_get List.app]. rewrite Hr.
  cbn [lift ret bind List.app]. rewrite Hsel.
  cbn [lift ret bind List.app]. rewrite Hdf.
  cbn [lift ret bind List.app].
  destruct (_pick_tests w (resolve w (arg_bundle_dir args))) as [|t ts];
    [now destruct Ht | reflexivity].
Qed.

End FirstRecord.

(** C4, as stated, fails: with an empty record before a usable one the
    run stops at the first record instead of taking the second. *)
Lemma first_record_only_counterexample :
  spec_authoritative_pr [empty_pr; example_pr] = Some example_pr /\
  main second_pr_world example_args
  = ([EvStderr "linked_prs[0] missing base_sha."], inl (SysExit 2)) /\
  exit_status (main second_pr_world example_args) = 2%Z.
Proof. repeat split; vm_compute; reflexivity. Qed.

(** C4, amended: only the first record of the linked-PR list is read.
    For a bundle that has passed the earlier checks (directory, tools,
    issue file, GitHub URL): when the first record has a non-empty base
    revision and a patch text that is not blank, loading proceeds with
    that base revision and that patch, whatever follows in the list, and
    yields the bundle as soon as a dockerfile and a test file are found;
    when its base revision is empty, or its patch text empty or blank,
    [main] prints the line naming the missing field and stops with exit
    status 2, even if a later record is usable. *)
Theorem first_linked_pr_only (w : World) (args : Args) :
  (forall issue x rest,
     dict_get issue "linked_prs" = JList (x :: rest) ->
     select_linked_pr (JObj issue)
     = select_linked_pr (JObj [("linked_prs", JList [x])])) /\
  (forall issue pr0 rest,
     dict_get issue "linked_prs" = JList (JObj pr0 :: rest) ->
     let base := dict_get pr0 "base_sha" in
     let patch := py_or (dict_get pr0 "patch") (JStr "") in
     (truthy base = false ->
      select_linked_pr (JObj issue) = _die "linked_prs[0] missing base_sha.") /\
     (forall s, truthy base = true -> patch = JStr s ->
        nonempty (strip s) = false ->
        select_linked_pr (JObj issue)
        = _die "linked_prs[0] missing patch text; cannot apply fix on top of base_sha.") /\
     (forall s, truthy base = true -> patch = JStr s ->
        nonempty (strip s) = true ->
        select_linked_pr (JObj issue) = ret (base, dict_get pr0 "head_sha", s))) /\
  (forall b,
     result (load_bundle w args) = inr b ->
     exists issue pr0 rest,
       _load_issue_json w (resolve w (arg_bundle_dir args)) = inr (JObj issue) /\
       dict_get issue "linked_prs" = JList (JObj pr0 :: rest) /\
       base_sha b = dict_get pr0 "base_sha" /\
       head_sha b = dict_get pr0 "head_sha" /\
       dict_get pr0 "patch" = JStr (patch_text b) /\
       truthy (base_sha b) = true /\ nonempty (strip (patch_text b)) = true) /\
  (forall issue repo pr0 rest,
     let dir := resolve w (arg_bundle_dir args) in
     path_exists w dir = true -> which w "git" = true -> which w "docker" = true ->
     _load_issue_json w dir = inr (JObj issue) ->
     _parse_repo_from_issue_url (py_or (dict_get issue "url") (JStr "")) = inr repo ->
     dict_get issue "linked_prs" = JList (JObj pr0 :: rest) ->
     let base := dict_get pr0 "base_sha" in
     let patch := py_or (dict_get pr0 "patch") (JStr "") in
     (truthy base = false ->
      main w args = _die "linked_prs[0] missing base_sha." /\
      exit_status (main w args) = 2%Z) /\
     (forall s, truthy base = true -> patch = JStr s ->
        nonempty (strip s) = false ->
        main w args
        = _die "linked_prs[0] missing patch text; cannot apply fix on top of base_sha." /\
        exit_status (main w args) = 2%Z) /\
     (forall s df, truthy base = true -> patch = JStr s ->
        nonempty (strip s) = true ->
        _pick_dockerfile w dir = inr df -> _pick_tests w dir <> [] ->
        result (load_bundle w args)
        = inr {| bundle_dir := dir; issue_number := dict_get issue "number";
                 issue_url := py_or (dict_get issue "url") (JStr "");
                 repo := repo; base_sha := base;
                 head_sha := dict_get pr0 "head_sha"; patch_text := s;
                 dockerfile_src := df; test_files := _pick_tests w dir |})).
Proof.
  split; [|split; [|split]].
  - intros issue x rest. apply select_first_only.
  - intros issue pr0 rest. apply select_first_cases.
  - intros b. apply load_bundle_returns.
  - intros issue repo pr0 rest dir Hdir Hgit Hdocker Hi Hr Hl base patch.
    destruct (select_first_cases issue pr0 rest Hl) as (C1 & C2 & C3).
    pose proof (main_linked_pr_aborts w args Hdir Hgit Hdocker issue repo) as Hmain.
    specialize (fun a => Hmain a Hi Hr).
    split; [|split].
    + intros Hb. assert (E : main w args = _die "linked_prs[0] missing base_sha.").
      { rewrite (Hmain (SysExit 2)); now rewrite (C1 Hb). }
      split; [exact E | now rewrite E].
    + intros s Hb Hp Hs.
      assert (E : main w args
                  = _die "linked_prs[0] missing patch text; cannot apply fix on top of base_sha.").
      { rewrite (Hmain (SysExit 2)); now rewrite (C2 s Hb Hp Hs). }
      split; [exact E | now rewrite E].
    + intros s df Hb Hp Hs Hdf Ht.
      exact (load_bundle_proceeds w args issue repo _ _ s df Hdir Hgit Hdocker
               Hi Hr (C3 s Hb Hp Hs) Hdf Ht).
Qed.

Lemma first_linked_pr_only_witness :
  select_linked_pr (example_issue [example_pr; empty_pr])
  = ret (JStr "abc123", JStr "def456", "diff --git a/x b/x") /\
  select_linked_pr (example_issue [empty_pr; example_pr])
  = _die "linked_prs[0] missing base_sha." /\
  exit_status (main second_pr_world example_args) = 2%Z.
Proof.
  destruct (first_linked_pr_only second_pr_world example_args)
    as (_ & H & _ & Hmain).
  split; [|split].
  - apply (H _ [ ("base_sha", JStr "abc123"); ("head_sha", JStr "def456");
                 ("patch", JStr "diff --git a/x b/x") ] [empty_pr]);
      reflexivity.
  - apply (H _ [ ("base_sha", JStr ""); ("head_sha", JNull); ("patch", JStr "") ]
             [example_pr]); reflexivity.
  - destruct (Hmain [ ("number", JInt 256);
                      ("url", JStr "https://github.com/always-further/AgentUp/issues/256");
                      ("linked_prs", JList [empty_pr; example_pr]) ]
                    "always-further/AgentUp"
                    [ ("base_sha", JStr ""); ("head_sha", JNull);
                      ("patch", JStr "") ]
                    [example_pr] eq_refl eq_refl eq_refl eq_refl eq_refl eq_refl)
      as (Hd & _).
    apply Hd. reflexivity.
Defined.

(* ================================================================= *)
(** * Further properties of the script *)

(** ** File patterns *)

Section Patterns.

Lemma fnmatch_literal :
  forall pat name, star_free pat = true ->
    (fnmatch pat name = true <-> name = pat).
Proof.
  induction pat as [|c pat IH]; intros name Hsf; simpl.
  - destruct name; simpl; split; intros H; auto; discriminate.
  - simpl in Hsf. apply andb_true_iff in Hsf. destruct Hsf as [Hc Hsf].
    apply negb_true_iff in Hc. rewrite Hc.
    destruct name as [|d name]; [split; intros H; discriminate|].
    rewrite andb_true_iff, (IH name Hsf), Ascii.eqb_eq.
    split; [intros [-> ->]; reflexivity | intros H; inversion H; auto].
Qed.

Lemma fnmatch_star (pat name : string) :
  fnmatch (String "*" pat) name = true <->
  exists pre s, name = pre ++ s /\ fnmatch pat s = true.
Proof.
  cbn [fnmatch]. rewrite Ascii.eqb_refl.
  induction name as [|c name IH].
  - rewrite orb_false_r. split.
    + intros H. now exists "", "".
    + intros ([|d pre] & s & E & H); simpl in E; [now subst | discriminate].
  - rewrite orb_true_iff, IH. split.
    + intros [H|(pre & s & -> & H)].
      * now exists "", (String c name).
      * now exists (String c pre), s.
    + intros ([|d pre] & s & E & H); simpl in E.
      * left. now subst.
      * inversion E; subst. right. now exists pre, s.
Qed.

Lemma fnmatch_char (c : ascii) (pat name : string) :
  Ascii.eqb c "*" = false ->
  (fnmatch (String c pat) name = true <->
   exists rest, name = String c rest /\ fnmatch pat rest = true).
Proof.
  intros Hc. cbn [fnmatch]. rewrite Hc. destruct name as [|d name].
  - split; [discriminate | intros (rest & E & _); discriminate].
  - rewrite andb_true_iff, Ascii.eqb_eq. split.
    + intros [-> H]. now exists name.
    + intros (rest & E & H). inversion E; subst. auto.
Qed.

Lemma fnmatch_suffix (lit name : string) :
  star_free lit = true ->
  (fnmatch (String "*" lit) name = true <-> has_suffix lit name).
Proof.
  intros Hsf. rewrite fnmatch_star. unfold has_suffix. split.
  - intros (pre & s & -> & H). apply (fnmatch_literal lit s Hsf) in H.
    subst. now exists pre.
  - intros (pre & ->). exists pre, lit. split; [reflexivity|].
    now apply fnmatch_literal.
Qed.

Lemma fnmatch_dockerfile (name : string) :
  fnmatch "*.dockerfile" name = true <-> has_suffix ".dockerfile" name.
Proof. now apply fnmatch_suffix. Qed.

Lemma fnmatch_py (name : string) :
  fnmatch "*.py" name = true <-> has_suffix ".py" name.
Proof. now apply fnmatch_suffix. Qed.

Lemma fnmatch_test_py (name : string) :
  fnmatch "test*.py" name = true <-> framed "test" ".py" name.
Proof.
  unfold framed.
  rewrite fnmatch_char by reflexivity.
  split.
  - intros (r1 & -> & H). apply fnmatch_char in H; [|reflexivity].
    destruct H as (r2 & -> & H). apply fnmatch_char in H; [|reflexivity].
    destruct H as (r3 & -> & H). apply fnmatch_char in H; [|reflexivity].
    destruct H as (r4 & -> & H). apply fnmatch_py in H.
    destruct H as (mid & ->). now exists mid.
  - intros (mid & ->). exists ("est" ++ mid ++ ".py"). split; [reflexivity|].
    apply fnmatch_char; [reflexivity|]. exists ("st" ++ mid ++ ".py").
    split; [reflexivity|].
    apply fnmatch_char; [reflexivity|]. exists ("t" ++ mid ++ ".py").
    split; [reflexivity|].
    apply fnmatch_char; [reflexivity|]. exists (mid ++ ".py").
    split; [reflexivity|].
    apply fnmatch_py. now exists mid.
Qed.

Lemma fnmatch_issue_json (name : string) :
  fnmatch "issue_*.json" name = true <-> framed "issue_" ".json" name.
Proof.
  unfold framed.
  rewrite fnmatch_char by reflexivity.
  split.
  - intros (r1 & -> & H).
    do 5 (apply fnmatch_char in H; [|reflexivity];
          destruct H as (? & -> & H)).
    apply fnmatch_suffix in H; [|reflexivity].
    destruct H as (mid & ->). now exists mid.
  - intros (mid & ->). eexists. split; [reflexivity|].
    do 5 (apply fnmatch_char; [reflexivity|]; eexists; split; [reflexivity|]).
    apply fnmatch_suffix; [reflexivity|]. now exists mid.
Qed.

Lemma glob_In (w : World) (dir pat name : string) :
  In name (glob w dir pat) <-> In name (listdir w dir) /\ fnmatch pat name = true.
Proof. unfold glob. apply filter_In. Qed.

Lemma sorted_In (l : list string) (x : string) : In x (sorted l) <-> In x l.
Proof.
  split; intros H.
  - exact (Permutation_in _ (Permutation_sym (sorted_perm l)) H).
  - exact (Permutation_in _ (sorted_perm l) H).
Qed.

End Patterns.

(** X1: [_load_issue_json] raises [FileNotFoundError] when the bundle has
    no [issue_*.json]; otherwise it opens exactly one file, the entry
    named [issue_<...>.json] that is least in code-point order, and
    returns or raises what loading that file does. *)
Theorem issue_file_choice (w : World) (dir : string) :
  (glob w dir "issue_*.json" = [] ->
   _load_issue_json w dir
   = inl (FileNotFoundError ("No issue_*.json found under " ++ dir))) /\
  (glob w dir "issue_*.json" <> [] ->
   exists name,
     _load_issue_json w dir = json_load w (joinpath dir name) /\
     In name (listdir w dir) /\ framed "issue_" ".json" name /\
     forall other, In other (listdir w dir) -> framed "issue_" ".json" other ->
                   name_le name other).
Proof.
  unfold _load_issue_json. split.
  - intros ->. reflexivity.
  - intros Hne.
    destruct (sorted (glob w dir "issue_*.json")) as [|name rest] eqn:E.
    + apply (proj1 (sorted_nil_iff _)) in E. contradiction.
    + destruct (sorted_head_least _ _ _ E) as [Hin Hleast].
      apply glob_In in Hin. destruct Hin as [Hin Hm].
      exists name. split; [reflexivity|]. split; [exact Hin|].
      split; [now apply fnmatch_issue_json|].
      intros other Ho Hf. apply Hleast. apply glob_In.
      split; [exact Ho | now apply fnmatch_issue_json].
Qed.

Lemma issue_file_choice_witness :
  exists name,
    _load_issue_json passing_world "/bundle"
    = json_load passing_world (joinpath "/bundle" name) /\
    In name (listdir passing_world "/bundle") /\
    framed "issue_" ".json" name /\
    forall other, In other (listdir passing_world "/bundle") ->
                  framed "issue_" ".json" other -> name_le name other.
Proof.
  apply (issue_file_choice passing_world "/bundle").
  vm_compute. discriminate.
Defined.

Lemma framed_test_not_issue (t : string) :
  framed "test" ".py" t -> has_suffix ".py" t /\ startswith "issue_" t = false.
Proof.
  intros (mid & ->). split; [now exists ("test" ++ mid) | reflexivity].
Qed.

(** X2: the dockerfile that [_pick_dockerfile] returns is an entry of the
    bundle ending in [.dockerfile]; every name [_pick_tests] returns is an
    entry ending in [.py] that is a [test*.py] or does not start with
    [issue_]; no [test*.py] entry is left out; and the result is empty
    exactly when every [.py] entry of the bundle starts with [issue_]. *)
Theorem selected_files_match (w : World) (dir : string) :
  (forall d, _pick_dockerfile w dir = inr d ->
     In d (listdir w dir) /\ has_suffix ".dockerfile" d) /\
  (forall t, In t (_pick_tests w dir) ->
     In t (listdir w dir) /\ has_suffix ".py" t /\
     (framed "test" ".py" t \/ startswith "issue_" t = false)) /\
  (forall t, In t (listdir w dir) -> framed "test" ".py" t ->
     In t (_pick_tests w dir)) /\
  (_pick_tests w dir = [] <->
   forall t, In t (listdir w dir) -> has_suffix ".py" t ->
             startswith "issue_" t = true).
Proof.
  split; [|split; [|split]].
  - unfold _pick_dockerfile. intros d H.
    destruct (sorted (glob w dir "*.dockerfile")) as [|c rest] eqn:E;
      [discriminate|].
    inversion H; subst. destruct (sorted_head_least _ _ _ E) as [Hin _].
    apply glob_In in Hin. destruct Hin as [Hin Hm].
    split; [exact Hin | now apply fnmatch_dockerfile].
  - unfold _pick_tests. intros t H.
    destruct (sorted (glob w dir "test*.py")) as [|c rest] eqn:E.
    + apply filter_In in H. destruct H as [H Hni].
      apply sorted_In, glob_In in H. destruct H as [Hin Hm].
      apply negb_true_iff in Hni.
      split; [exact Hin|]. split; [now apply fnmatch_py | now right].
    + rewrite <- E in H. apply sorted_In, glob_In in H. destruct H as [Hin Hm].
      apply fnmatch_test_py in Hm.
      split; [exact Hin|].
      split; [exact (proj1 (framed_test_not_issue t Hm)) | now left].
  - unfold _pick_tests. intros t Hin Hf.
    assert (Hs : In t (sorted (glob w dir "test*.py"))).
    { apply sorted_In, glob_In. split; [exact Hin | now apply fnmatch_test_py]. }
    destruct (sorted (glob w dir "test*.py")) as [|c rest]; [destruct Hs | exact Hs].
  - unfold _pick_tests. split.
    + intros H t Hin Hpy.
      destruct (sorted (glob w dir "test*.py")) as [|c rest] eqn:E;
        [|discriminate].
      destruct (startswith "issue_" t) eqn:Hi; [reflexivity|]. exfalso.
      assert (Hf : In t (filter (fun name => negb (startswith "issue_" name))
                                (sorted (glob w dir "*.py")))).
      { apply filter_In. split; [|now rewrite Hi].
        apply sorted_In, glob_In. split; [exact Hin | now apply fnmatch_py]. }
      rewrite H in Hf. destruct Hf.
    + intros H.
      destruct (sorted (glob w dir "test*.py")) as [|c rest] eqn:E.
      * destruct (filter _ _) as [|t l] eqn:Ef; [reflexivity|]. exfalso.
        assert (Hf : In t (filter (fun name => negb (startswith "issue_" name))
                                  (sorted (glob w dir "*.py"))))
          by (rewrite Ef; now left).
        apply filter_In in Hf. destruct Hf as [Hf Hni].
        apply sorted_In, glob_In in Hf. destruct Hf as [Hin Hm].
        apply fnmatch_py in Hm. rewrite (H t Hin Hm) in Hni. discriminate.
      * exfalso.
        assert (Hc : In c (sorted (glob w dir "test*.py"))) by (rewrite E; now left).
        apply sorted_In, glob_In in Hc. destruct Hc as [Hin Hm].
        apply fnmatch_test_py, framed_test_not_issue in Hm.
        destruct Hm as [Hpy Hni]. rewrite (H c Hin Hpy) in Hni. discriminate.
Qed.

Lemma selected_files_match_witness :
  In "base.dockerfile" (listdir passing_world "/bundle") /\
  has_suffix ".dockerfile" "base.dockerfile".
Proof.
  destruct (selected_files_match passing_world "/bundle") as (H & _).
  apply (H "base.dockerfile"). reflexivity.
Defined.

(* ================================================================= *)
(** ** Start of a run *)

(** X3: the checks at startup come in a fixed order and each stops the run
    with one line on stderr and status 2, before anything else happens:
    first the bundle directory, then git, then docker. *)
Theorem startup_checks (w : World) (args : Args) :
  let dir := resolve w (arg_bundle_dir args) in
  (path_exists w dir = false ->
   main w args = ([EvStderr ("Bundle dir not found: " ++ dir)], inl (SysExit 2))) /\
  (path_exists w dir = true -> which w "git" = false ->
   main w args
   = ([EvStderr "Missing required tool: git. Please install it first."],
      inl (SysExit 2))) /\
  (path_exists w dir = true -> which w "git" = true -> which w "docker" = false ->
   main w args
   = ([EvStderr "Missing required tool: docker. Please install it first."],
      inl (SysExit 2))).
Proof.
  cbv zeta. split; [|split].
  - intros H. unfold main, load_bundle. rewrite H. reflexivity.
  - intros H Hg. unfold main, load_bundle, _ensure_tools. cbn [for_each].
    rewrite H, Hg. reflexivity.
  - intros H Hg Hd. unfold main, load_bundle, _ensure_tools. cbn [for_each].
    rewrite H, Hg, Hd. reflexivity.
Qed.

Lemma startup_checks_witness :
  main {| resolve := fun p => p; path_exists := fun _ => true;
          which := fun tool => String.eqb tool "git";
          listdir := fun _ => example_names;
          json_load := fun _ => inr (example_issue [example_pr]);
          utcnow := example_now 0;
          subprocess_run := subprocess_run passing_world |} example_args
  = ([EvStderr "Missing required tool: docker. Please install it first."],
     inl (SysExit 2)).
Proof.
  apply (startup_checks
           {| resolve := fun p => p; path_exists := fun _ => true;
              which := fun tool => String.eqb tool "git";
              listdir := fun _ => example_names;
              json_load := fun _ => inr (example_issue [example_pr]);
              utcnow := example_now 0;
              subprocess_run := subprocess_run passing_world |} example_args);
    reflexivity.
Defined.

(** X4: nothing is created while the bundle is loaded and checked, and
    nothing is started before the run directory and [meta.json].  If
    loading stops, the whole run consists of lines on stderr, with no
    process, directory, file or copy.  Any other effect comes after a
    successful load: the first one is the creation of the run directory,
    the second the writing of [meta.json] there, and every process, copy
    or other file comes after both. *)
Theorem artifacts_start_after_load (w : World) (args : Args) :
  (forall e, result (load_bundle w args) = inl e ->
     result (main w args) = inl e /\
     processes (trace (main w args)) = [] /\ copies (trace (main w args)) = [] /\
     forall ev, In ev (trace (main w args)) -> exists msg, ev = EvStderr msg) /\
  (forall pre ev post,
     trace (main w args) = (pre ++ ev :: post)%list ->
     (forall msg, ev <> EvStderr msg) ->
     exists b, result (load_bundle w args) = inr b /\
       let r := new_run w args b in
       let made := EvMkdir (run_root r) in
       let written := EvWrite (run_root r) "meta.json"
                              (JsonText (JObj (make_meta b (run_id r)))) in
       (pre = [] /\ ev = made) \/ (pre = [made] /\ ev = written) \/
       (exists mid, pre = made :: written :: mid)).
Proof.
  assert (Hstop : forall e, result (load_bundle w args) = inl e ->
            result (main w args) = inl e /\
            processes (trace (main w args)) = [] /\
            copies (trace (main w args)) = [] /\
            forall ev, In ev (trace (main w args)) -> exists msg, ev = EvStderr msg).
  { intros e H. rewrite (main_load_aborts w args e H). cbn [result trace fst snd].
    pose proof (load_bundle_stderr w args) as Hs. unfold all_events in Hs.
    split; [reflexivity|].
    assert (Hall : forall t, (forall ev, In ev t -> exists msg, ev = EvStderr msg) ->
                     processes t = [] /\ copies t = []).
    { induction t as [|ev t IH]; intros Ht; [now split|].
      destruct (Ht ev (or_introl eq_refl)) as [msg ->]. simpl.
      apply IH. intros ev' Hin. apply Ht. now right. }
    destruct (Hall _ Hs) as [Hp Hc]. auto. }
  split; [exact Hstop|].
  intros pre ev post Ht Hev.
  destruct (result (load_bundle w args)) as [e|b] eqn:Hload.
  - destruct (Hstop e eq_refl) as (_ & _ & _ & Hall).
    destruct (Hall ev) as [msg ->]; [|now destruct (Hev msg)].
    rewrite Ht. apply in_or_app. right. now left.
  - exists b. split; [reflexivity|]. cbv zeta.
    rewrite (main_after_load w args b Hload) in Ht. cbn [trace fst] in Ht.
    change (meta (new_run w args b))
      with (make_meta b (run_id (new_run w args b))) in Ht.
    destruct pre as [|e1 [|e2 mid]]; cbn [List.app] in Ht.
    + left. inversion Ht. auto.
    + right. left. inversion Ht. auto.
    + right. right. inversion Ht. eauto.
Qed.

Lemma artifacts_start_after_load_witness :
  exists b,
    result (load_bundle passing_world example_args) = inr b /\
    exists mid,
      [ EvMkdir "/work/issue_256-20260102T030405Z";
        EvWrite "/work/issue_256-20260102T030405Z" "meta.json"
                (JsonText (JObj (make_meta example_bundle
                                           "issue_256-20260102T030405Z"))) ]
      = EvMkdir (run_root (new_run passing_world example_args b))
          :: EvWrite (run_root (new_run passing_world example_args b)) "meta.json"
               (JsonText (JObj (make_meta b
                  (run_id (new_run passing_world example_args b)))))
          :: mid.
Proof.
  destruct (artifacts_start_after_load passing_world example_args) as (_ & H).
  destruct (H [ EvMkdir "/work/issue_256-20260102T030405Z";
                EvWrite "/work/issue_256-20260102T030405Z" "meta.json"
                        (JsonText (JObj (make_meta example_bundle
                                           "issue_256-20260102T030405Z"))) ]
              (EvProc ["git"; "clone"; "--no-checkout";
                       "https://github.com/always-further/AgentUp.git";
                       "/work/issue_256-20260102T030405Z/repo"]
                      "/work/issue_256-20260102T030405Z" 3600)
              (skipn 3 (trace (main passing_world example_args))))
    as (b & Hload & [[E _]|[[E _]|Hmid]]); try discriminate.
  - vm_compute. reflexivity.
  - exists b. split; [exact Hload | exact Hmid].
Defined.

(* ================================================================= *)
(** ** Messages on stderr *)

Section Stderr.

Lemma announced_bind {A B} (m : M A) (f : A -> M B) :
  announced m -> (forall a, announced (f a)) -> announced (bind m f).
Proof.
  intros Hm Hf c. rewrite bind_result, bind_trace.
  destruct (result m) as [e|a] eqn:E.
  - intros H. inversion H; subst. exact (Hm c E).
  - intros H. destruct (Hf a c H) as (pre & msg & ->).
    exists (trace m ++ pre)%list, msg. now rewrite app_assoc.
Qed.

Lemma final_bind {A B} (m : M A) (f : A -> M B) :
  stderr_is_final m -> (forall a, stderr_is_final (f a)) ->
  stderr_is_final (bind m f).
Proof.
  intros Hm Hf msg Hin. apply In_bind in Hin.
  destruct Hin as [Hin|(a & Ha & Hin)].
  - destruct (Hm msg Hin) as (Hres & pre & Ht & Hno).
    rewrite (bind_aborts _ _ _ Hres). cbn [result trace fst snd]. eauto.
  - destruct (Hf a msg Hin) as (Hres & pre & Ht & Hno).
    rewrite (bind_continues _ _ a Ha). cbn [result trace fst snd].
    split; [exact Hres|]. exists (trace m ++ pre)%list. split.
    + now rewrite Ht, app_assoc.
    + intros msg' H'. apply in_app_or in H'. destruct H' as [H'|H'].
      * destruct (Hm msg' H') as (Hres' & _). congruence.
      * exact (Hno msg' H').
Qed.

Lemma announced_quiet_result {A} (m : M A) :
  (forall c, result m <> inl (SysExit c)) -> announced m.
Proof. intros H c Hc. now destruct (H c). Qed.

Lemma final_no_stderr {A} (m : M A) :
  (forall msg, ~ In (EvStderr msg) (trace m)) -> stderr_is_final m.
Proof. intros H msg Hin. now destruct (H msg). Qed.

Lemma announced_die {A} (msg : string) : announced (@_die A msg).
Proof. intros c _. now exists [], msg. Qed.

Lemma final_die {A} (msg : string) : stderr_is_final (@_die A msg).
Proof.
  intros msg' [H|[]]. inversion H; subst.
  split; [reflexivity|]. exists []. split; [reflexivity | intros ? []].
Qed.

Lemma announced_unless (c : bool) (msg : string) : announced (unless c (_die msg)).
Proof. destruct c; [apply announced_quiet_result; discriminate | apply announced_die]. Qed.

Lemma final_unless (c : bool) (msg : string) : stderr_is_final (unless c (_die msg)).
Proof. destruct c; [apply final_no_stderr; intros ? [] | apply final_die]. Qed.

Lemma announced_lift {A} (r : exn + A) : announced (lift r).
Proof. apply announced_quiet_result. destruct r; discriminate. Qed.

Lemma final_lift {A} (r : exn + A) : stderr_is_final (lift r).
Proof. apply final_no_stderr. destruct r; intros ? []. Qed.

Lemma announced_ret {A} (a : A) : announced (ret a).
Proof. apply announced_quiet_result. discriminate. Qed.

Lemma final_ret {A} (a : A) : stderr_is_final (ret a).
Proof. apply final_no_stderr. intros ? []. Qed.

Lemma announced_emit (e : event) : announced (emit e).
Proof. apply announced_quiet_result. discriminate. Qed.

Lemma final_emit (e : event) :
  (forall msg, e <> EvStderr msg) -> stderr_is_final (emit e).
Proof. intros H. apply final_no_stderr. intros msg [E|[]]. exact (H msg E). Qed.

Lemma announced_run (w : World) cmd cwd t : announced (_run w cmd cwd t).
Proof.
  apply announced_quiet_result. rewrite _run_eq. cbn.
  destruct (subprocess_run w cmd cwd t); discriminate.
Qed.

Lemma final_run (w : World) cmd cwd t : stderr_is_final (_run w cmd cwd t).
Proof.
  apply final_no_stderr. rewrite _run_eq. intros msg [E|[]]. discriminate.
Qed.

Lemma announced_for_each {X} (l : list X) (body : X -> M unit) :
  (forall x, announced (body x)) -> announced (for_each l body).
Proof.
  intros H. induction l as [|x l IH]; simpl; [apply announced_ret|].
  apply announced_bind; auto.
Qed.

Lemma final_for_each {X} (l : list X) (body : X -> M unit) :
  (forall x, stderr_is_final (body x)) -> stderr_is_final (for_each l body).
Proof.
  intros H. induction l as [|x l IH]; simpl; [apply final_ret|].
  apply final_bind; auto.
Qed.

End Stderr.

Ltac announce :=
  repeat first
    [ split_triple
    | match goal with
      | |- announced (if ?c then _ else _) => destruct c
      end
    | apply announced_run
    | apply announced_ret
    | apply announced_lift
    | apply announced_die
    | apply announced_unless
    | apply announced_emit
    | apply announced_for_each; intros ?
    | apply announced_bind; [|intros ?] ].

Ltac finalise :=
  repeat first
    [ split_triple
    | match goal with
      | |- stderr_is_final (if ?c then _ else _) => destruct c
      end
    | apply final_run
    | apply final_ret
    | apply final_lift
    | apply final_die
    | apply final_unless
    | apply final_emit; discriminate
    | apply final_for_each; intros ?
    | apply final_bind; [|intros ?] ].

Lemma cleanup_no_stderr (w : World) (args : Args) (r : Run) :
  all_events (fun ev => forall msg, ev <> EvStderr msg) (cleanup w args r).
Proof. unfold cleanup. all_ev; event_case. Qed.

Lemma main_announced (w : World) (args : Args) : announced (main w args).
Proof.
  unfold main. apply announced_bind.
  { unfold load_bundle, _ensure_tools, select_linked_pr. announce. }
  intros b. apply announced_bind.
  { unfold start_run. announce. }
  intros r.
  unfold provision, stage_bundle_into, classify_and_report, build_and_test,
    write_text.
  repeat first
    [ match goal with
      | |- announced (cleanup _ _ _) =>
          apply announced_quiet_result; intros c; rewrite cleanup_returns;
          discriminate
      end
    | progress announce ].
Qed.

Lemma main_stderr_final (w : World) (args : Args) : stderr_is_final (main w args).
Proof.
  unfold main. apply final_bind.
  { unfold load_bundle, _ensure_tools, select_linked_pr. finalise. }
  intros b. apply final_bind.
  { unfold start_run. finalise. }
  intros r.
  unfold provision, stage_bundle_into, classify_and_report, build_and_test,
    write_text.
  repeat first
    [ match goal with
      | |- stderr_is_final (cleanup _ _ _) =>
          apply final_no_stderr; intros msg H;
          exact (cleanup_no_stderr w args r _ H msg eq_refl)
      end
    | progress finalise ].
Qed.

(** X5: once the command line is parsed (from line 125 on) the run
    never exits through [sys.exit] silently, and never prints to stderr
    without exiting: whenever it ends by [sys.exit] the status is 2 and
    the last effect is the one and only line on stderr; and a line on
    stderr is always that last effect, followed by [sys.exit(2)].  What
    [parse_args] itself prints, and its own exits, come before. *)
Theorem sys_exit_announced (w : World) (args : Args) :
  (forall c, result (main w args) = inl (SysExit c) ->
     c = 2%Z /\
     exists pre msg,
       trace (main w args) = (pre ++ [EvStderr msg])%list /\
       forall msg', ~ In (EvStderr msg') pre) /\
  (forall msg, In (EvStderr msg) (trace (main w args)) ->
     result (main w args) = inl (SysExit 2) /\
     exists pre,
       trace (main w args) = (pre ++ [EvStderr msg])%list /\
       forall msg', ~ In (EvStderr msg') pre).
Proof.
  split.
  - intros c H. split; [exact (main_exits w args c H)|].
    destruct (main_announced w args c H) as (pre & msg & Ht).
    exists pre, msg. split; [exact Ht|].
    destruct (main_stderr_final w args msg) as (_ & pre' & Ht' & Hno).
    { rewrite Ht. apply in_or_app. right. now left. }
    rewrite Ht in Ht'. apply app_inj_tail in Ht'. destruct Ht' as [-> _].
    exact Hno.
  - apply main_stderr_final.
Qed.

Lemma sys_exit_announced_witness :
  exists pre msg,
    trace (main unpatchable_world example_args) = (pre ++ [EvStderr msg])%list /\
    forall msg', ~ In (EvStderr msg') pre.
Proof.
  destruct (sys_exit_announced unpatchable_world example_args) as (H & _).
  destruct (H 2%Z) as (_ & Hx); [vm_compute; reflexivity | exact Hx].
Defined.

(* ================================================================= *)
(** ** Logs of the processes *)

Section Logs.

Variable w : World.

Lemma logged_bind {A B} (m : M A) (f : A -> M B) :
  logged w m -> (forall a, logged w (f a)) -> logged w (bind m f).
Proof.
  intros Hm Hf cmd cwd t p Hin Hp Hb. apply In_bind in Hin.
  destruct Hin as [Hin|(a & Ha & Hin)].
  - destruct (Hm _ _ _ _ Hin Hp Hb) as (dir & out & err & H1 & H2 & H3 & H4).
    exists dir, out, err. repeat split; auto using In_bind_l.
  - destruct (Hf a _ _ _ _ Hin Hp Hb) as (dir & out & err & H1 & H2 & H3 & H4).
    exists dir, out, err. repeat split; eauto using In_bind_r.
Qed.

Lemma endswith_sound (suffix : string) :
  forall s, endswith suffix s = true -> has_suffix suffix s.
Proof.
  induction s as [|c s IH]; cbn [endswith]; intros H.
  - rewrite orb_false_r in H. apply String.eqb_eq in H. subst. now exists "".
  - apply orb_true_iff in H. destruct H as [H|H].
    + apply String.eqb_eq in H. subst. now exists "".
    + destruct (IH H) as [pre ->]. now exists (String c pre).
Qed.

Lemma logged_no_process {A} (m : M A) :
  all_events (fun ev => forall cmd cwd t, ev <> EvProc cmd cwd t) m -> logged w m.
Proof. intros H cmd cwd t p Hin. now destruct (H _ Hin cmd cwd t). Qed.

Lemma logged_checked_run cmd cwd t dir o e msg :
  has_suffix ".stdout.txt" o -> has_suffix ".stderr.txt" e ->
  logged w (checked_run w cmd cwd t dir o e msg).
Proof.
  intros Ho He cmd' cwd' t' p Hin Hp _.
  pose proof (checked_run_cases w cmd cwd t dir o e msg) as H.
  destruct (subprocess_run w cmd cwd t) as [x|q] eqn:E.
  - rewrite H in Hin. destruct Hin as [Hin|[]]. inversion Hin; subst. congruence.
  - exists dir, o, e. split; [exact Ho|]. split; [exact He|].
    assert (Hq : p = q).
    { destruct (returncode q =? 0)%Z; rewrite H in Hin;
        repeat (destruct Hin as [Hin|Hin]; try discriminate);
        try (inversion Hin; subst; congruence); destruct Hin. }
    subst q.
    destruct (returncode p =? 0)%Z; rewrite H; simpl; auto.
Qed.

Lemma docker_log_names (label : string) :
  has_suffix ".stdout.txt" ("docker_build_" ++ label ++ ".stdout.txt") /\
  has_suffix ".stderr.txt" ("docker_build_" ++ label ++ ".stderr.txt") /\
  has_suffix ".stdout.txt" ("pytest_" ++ label ++ ".stdout.txt") /\
  has_suffix ".stderr.txt" ("pytest_" ++ label ++ ".stderr.txt").
Proof.
  repeat split.
  - exists ("docker_build_" ++ label). now rewrite sapp_assoc.
  - exists ("docker_build_" ++ label). now rewrite sapp_assoc.
  - exists ("pytest_" ++ label). now rewrite sapp_assoc.
  - exists ("pytest_" ++ label). now rewrite sapp_assoc.
Qed.

Lemma build_and_test_cases (args : Args) (b : Bundle) (r : Run)
    (label worktree : string) :
  let root := run_root r in
  let bc := build_cmd b r label in
  let tc := test_cmd args b r label in
  let blog p := [EvWrite root ("docker_build_" ++ label ++ ".stdout.txt")
                         (Text (cp_stdout p));
                 EvWrite root ("docker_build_" ++ label ++ ".stderr.txt")
                         (Text (cp_stderr p))] in
  let tlog q := [EvWrite root ("pytest_" ++ label ++ ".stdout.txt")
                         (Text (cp_stdout q));
                 EvWrite root ("pytest_" ++ label ++ ".stderr.txt")
                         (Text (cp_stderr q))] in
  build_and_test w args b r label worktree
  = match subprocess_run w bc worktree (arg_timeout_build args) with
    | inl e => ([EvProc bc worktree (arg_timeout_build args)], inl (Uncaught e))
    | inr p =>
        if (returncode p =? 0)%Z
        then
          match subprocess_run w tc worktree (arg_timeout_test args) with
          | inl e =>
              (EvProc bc worktree (arg_timeout_build args) :: blog p
                 ++ [EvProc tc worktree (arg_timeout_test args)],
               inl (Uncaught e))
          | inr q =>
              (EvProc bc worktree (arg_timeout_build args) :: blog p
                 ++ EvProc tc worktree (arg_timeout_test args) :: tlog q,
               inr [ ("label", JStr label); ("image", JStr (image_of r label));
                     ("build_ok", JBool true);
                     ("test_ok", JBool (returncode q =? 0)%Z);
                     ("build_exit", JInt (returncode p));
                     ("test_exit", JInt (returncode q)) ])
          end
        else
          (EvProc bc worktree (arg_timeout_build args) :: blog p,
           inr (failed_outcome r label (returncode p)))
    end.
Proof.
  cbv zeta. unfold build_and_test. rewrite !_run_eq.
  change (["docker"; "build"; "-t"; lower ("swegent-f2p:" ++ run_id r ++ "-" ++ label);
           "-f"; dockerfile_src b; "."]) with (build_cmd b r label).
  change ((["docker"; "run"; "--rm";
            lower ("swegent-f2p:" ++ run_id r ++ "-" ++ label); "pytest"]
             ++ pytest_args args ++ test_files b)%list)
    with (test_cmd args b r label).
  destruct (subprocess_run w (build_cmd b r label) worktree (arg_timeout_build args))
    as [e|p]; [reflexivity|].
  unfold write_text, emit, bind, ret. cbn [ok exit_code stdout stderr].
  destruct (returncode p =? 0)%Z; cbn [negb]; [|reflexivity].
  destruct (subprocess_run w (test_cmd args b r label) worktree (arg_timeout_test args))
    as [e|q]; reflexivity.
Qed.

Lemma logged_build_and_test (args : Args) (b : Bundle) (r : Run)
    (label worktree : string) :
  logged w (build_and_test w args b r label worktree).
Proof.
  intros cmd cwd t p0 Hin Hp _.
  destruct (docker_log_names label) as (N1 & N2 & N3 & N4).
  rewrite build_and_test_cases in *. cbv zeta in *.
  destruct (subprocess_run w (build_cmd b r label) worktree (arg_timeout_build args))
    as [e|p] eqn:Eb.
  - destruct Hin as [Hin|[]]. inversion Hin; subst. congruence.
  - destruct (returncode p =? 0)%Z.
    + destruct (subprocess_run w (test_cmd args b r label) worktree
                               (arg_timeout_test args)) as [e|q] eqn:Et;
        cbn [trace fst List.app] in *.
      * destruct Hin as [Hin|[Hin|[Hin|[Hin|[]]]]]; try discriminate;
          inversion Hin; subst; [|congruence].
        rewrite Eb in Hp. inversion Hp; subst.
        eexists _, _, _. split; [exact N1|]. split; [exact N2|].
        split; [right; left; reflexivity | right; right; left; reflexivity].
      * destruct Hin as [Hin|[Hin|[Hin|[Hin|[Hin|[Hin|[]]]]]]]; try discriminate;
          inversion Hin; subst.
        -- rewrite Eb in Hp. inversion Hp; subst.
           eexists _, _, _. split; [exact N1|]. split; [exact N2|].
           split; [right; left; reflexivity | right; right; left; reflexivity].
        -- rewrite Et in Hp. inversion Hp; subst.
           eexists _, _, _. split; [exact N3|]. split; [exact N4|].
           split; [do 4 right; left; reflexivity | do 5 right; left; reflexivity].
    + cbn [trace fst] in *.
      destruct Hin as [Hin|[Hin|[Hin|[]]]]; try discriminate.
      inversion Hin; subst. rewrite Eb in Hp. inversion Hp; subst.
      eexists _, _, _. split; [exact N1|]. split; [exact N2|].
      split; [right; left; reflexivity | right; right; left; reflexivity].
Qed.

Lemma cleanup_only_removes (args : Args) (r : Run) :
  all_events
    (fun ev => forall cmd cwd t,
       ev = EvProc cmd cwd t -> begins ["git"; "worktree"; "remove"] cmd = true)
    (cleanup w args r).
Proof. unfold cleanup. all_ev; event_case; auto. Qed.

Lemma logged_main (args : Args) : logged w (main w args).
Proof.
  unfold main. apply logged_bind.
  { apply logged_no_process. intros ev Hin cmd cwd t ->.
    destruct (load_bundle_stderr w args _ Hin) as [msg H]. discriminate. }
  intros b. apply logged_bind.
  { apply logged_no_process. unfold start_run. all_ev; event_case. }
  intros r. rewrite provision_eq.
  unfold provision_setup, apply_step, classify_and_report.
  repeat first
    [ apply logged_checked_run; [now apply endswith_sound | now apply endswith_sound]
    | apply logged_build_and_test
    | match goal with
      | |- logged w (write_text _ _ _) =>
          apply logged_no_process; unfold write_text; all_ev; event_case
      | |- logged w (emit _) =>
          apply logged_no_process; all_ev; event_case
      | |- logged w (stage_bundle_into _ _) =>
          apply logged_no_process; unfold stage_bundle_into; all_ev; event_case
      | |- logged w (cleanup _ ?a ?r) =>
          intros cmd cwd t p Hin _ Hb;
          rewrite (cleanup_only_removes a r _ Hin cmd cwd t eq_refl) in Hb;
          discriminate
      end
    | apply logged_bind; [|intros ?] ].
Qed.

End Logs.

(** X6: the output of every process of a run that returned is kept: for
    each such process other than the final removal of the worktrees the
    run has written one [*.stdout.txt] file holding its standard output
    and one [*.stderr.txt] file holding its standard error, also when the
    process failed and the run stopped because of it. *)
Theorem step_logs_written (w : World) (args : Args) (cmd : list string)
    (cwd : string) (t : Z) (p : CompletedProcess) :
  In (EvProc cmd cwd t) (trace (main w args)) ->
  subprocess_run w cmd cwd t = inr p ->
  begins ["git"; "worktree"; "remove"] cmd = false ->
  exists dir out err,
    has_suffix ".stdout.txt" out /\ has_suffix ".stderr.txt" err /\
    In (EvWrite dir out (Text (cp_stdout p))) (trace (main w args)) /\
    In (EvWrite dir err (Text (cp_stderr p))) (trace (main w args)).
Proof. apply logged_main. Qed.

Lemma step_logs_written_witness :
  exists dir out err,
    has_suffix ".stdout.txt" out /\ has_suffix ".stderr.txt" err /\
    In (EvWrite dir out (Text "out")) (trace (main unpatchable_world example_args)) /\
    In (EvWrite dir err (Text "err")) (trace (main unpatchable_world example_args)).
Proof.
  apply (step_logs_written unpatchable_world example_args
           ["git"; "apply"; "--whitespace=nowarn";
            "/work/issue_256-20260102T030405Z/gold_patch.diff"]
           "/work/issue_256-20260102T030405Z/head" 300%Z
           {| returncode := 1; cp_stdout := "out"; cp_stderr := "err" |}).
  - vm_compute. in_list.
  - reflexivity.
  - reflexivity.
Defined.

(* ================================================================= *)
(** ** Order of the steps *)

Section Order.

Variables (w : World) (args : Args).

Lemma vetted_bind {A B} (m : M A) (f : A -> M B) :
  vetted w m -> (forall a, vetted w (f a)) -> vetted w (bind m f).
Proof.
  intros Hm Hf x Hx cmd cwd t Hin.
  apply bind_returns in Hx. destruct Hx as (a & Ha & Hx).
  apply In_bind in Hin. destruct Hin as [Hin|(a' & Ha' & Hin)].
  - exact (Hm a Ha _ _ _ Hin).
  - rewrite Ha in Ha'. inversion Ha'; subst. exact (Hf a' x Hx _ _ _ Hin).
Qed.

Lemma vetted_checked_run cmd cwd t dir o e msg :
  vetted w (checked_run w cmd cwd t dir o e msg).
Proof.
  intros x Hx cmd' cwd' t' Hin.
  pose proof (checked_run_cases w cmd cwd t dir o e msg) as H.
  destruct (subprocess_run w cmd cwd t) as [y|q] eqn:E.
  - rewrite H in Hx. discriminate.
  - destruct (returncode q =? 0)%Z eqn:Eq; rewrite H in *; [|discriminate].
    destruct Hin as [Hin|[Hin|[Hin|[]]]]; try discriminate.
    inversion Hin; subst. exists q. split; [exact E | now apply Z.eqb_eq].
Qed.

Lemma vetted_write dir name text : vetted w (write_text dir name text).
Proof. intros x _ cmd cwd t [H|[]]. discriminate. Qed.

Lemma vetted_provision (b : Bundle) (r : Run) : vetted w (provision w b r).
Proof.
  rewrite provision_eq. unfold provision_setup, apply_step.
  repeat first [ apply vetted_checked_run | apply vetted_write
               | apply vetted_bind; [|intros ?] ].
Qed.

Lemma processes_In (tr : list event) cmd cwd t :
  In (cmd, cwd, t) (processes tr) <-> In (EvProc cmd cwd t) tr.
Proof.
  induction tr as [|ev tr IH]; simpl; [tauto|].
  destruct ev; simpl; rewrite IH; split; intros H;
    try (destruct H as [H|H]; [discriminate | now auto]); auto.
  - destruct H as [H|H]; [inversion H; subst; auto | auto].
  - destruct H as [H|H]; [inversion H; subst; auto | auto].
Qed.

Lemma pipeline_docker_after_provision (b : Bundle) (r : Run) cmd cwd t :
  In (EvProc cmd cwd t) (trace (pipeline w args b r)) ->
  begins ["docker"] cmd = true ->
  result (provision w b r) = inr tt.
Proof.
  intros Hin Hd. unfold pipeline in Hin. apply In_bind in Hin.
  destruct Hin as [Hin|([] & Hu & _)]; [|exact Hu].
  pose proof (proj1 (provision_workspace_events w b r _ Hin) _ _ _ eq_refl).
  congruence.
Qed.

End Order.

(** X7: a container is built or run only after the whole workspace is in
    place: if any docker command is among the processes of a run, then
    clone, fetch, both worktree additions and the patch application have
    each run exactly once, in this order, before every other process,
    and each has exited with status 0. *)
Theorem builds_only_after_workspace (w : World) (args : Args)
    (cmd : list string) (cwd : string) (t : Z) :
  In (EvProc cmd cwd t) (trace (main w args)) ->
  begins ["docker"] cmd = true ->
  exists b, result (load_bundle w args) = inr b /\
    let r := new_run w args b in
    result (provision w b r) = inr tt /\
    (forall cmd' cwd' t',
       In (EvProc cmd' cwd' t') (trace (main w args)) ->
       is_workspace_step cmd' = true ->
       exists p, subprocess_run w cmd' cwd' t' = inr p /\ returncode p = 0%Z) /\
    exists later,
      processes (trace (main w args))
      = List.app
          [ (["git"; "clone"; "--no-checkout";
              "https://github.com/" ++ repo b ++ ".git"; repo_dir r],
             run_root r, 3600%Z);
            (["git"; "fetch"; "--all"; "--tags"], repo_dir r, 3600%Z);
            (["git"; "worktree"; "add"; "--detach"; base_dir r; py_str (base_sha b)],
             repo_dir r, 600%Z);
            (["git"; "worktree"; "add"; "--detach"; head_dir r; py_str (base_sha b)],
             repo_dir r, 600%Z);
            (apply_cmd r, head_dir r, 300%Z) ]
          later /\
      forall cmd' cwd' t', In (cmd', cwd', t') later ->
                           is_workspace_step cmd' = false.
Proof.
  intros Hin Hd.
  destruct (main_events_after_load w args _ Hin) as (b & Hload & Hpipe);
    try discriminate.
  exists b. split; [exact Hload|]. intros r.
  pose proof (pipeline_docker_after_provision w args b r _ _ _ Hpipe Hd) as Hprov.
  split; [exact Hprov|].
  pose proof (main_after_load w args b Hload) as Hmain. cbv zeta in Hmain.
  fold r in Hmain.
  split.
  - intros cmd' cwd' t' Hin' Hws. rewrite Hmain in Hin'.
    destruct Hin' as [Hin'|[Hin'|Hin']]; try discriminate.
    unfold pipeline in Hin'. apply In_bind in Hin'.
    destruct Hin' as [Hin'|(u & _ & Hin')].
    + exact (vetted_provision w b r tt Hprov _ _ _ Hin').
    + pose proof (later_steps_not_workspace w args b r _ Hin' _ _ _ eq_refl).
      congruence.
  - rewrite Hmain. cbn [processes trace fst]. unfold pipeline at 1.
    rewrite processes_bind, Hprov, (provision_processes w b r Hprov).
    eexists. split; [reflexivity|].
    intros cmd' cwd' t' Hl. apply processes_In in Hl.
    exact (later_steps_not_workspace w args b r _ Hl _ _ _ eq_refl).
Qed.

Lemma builds_only_after_workspace_witness :
  exists b, result (load_bundle unbuildable_world example_args) = inr b /\
    result (provision unbuildable_world b (new_run unbuildable_world example_args b))
    = inr tt.
Proof.
  destruct (builds_only_after_workspace unbuildable_world example_args
              ["docker"; "build"; "-t"; "swegent-f2p:issue_256-20260102t030405z-after";
               "-f"; "base.dockerfile"; "."]
              "/work/issue_256-20260102T030405Z/head" 3600%Z)
    as (b & Hl & Hp & _).
  - vm_compute. in_list.
  - reflexivity.
  - exists b. split; [exact Hl | exact Hp].
Defined.

(* ================================================================= *)
(** ** What the label means *)

Section Label.

Variables (w : World) (args : Args).

Lemma build_and_test_outcome (b : Bundle) (r : Run) (label worktree : string)
    (o : dict) :
  result (build_and_test w args b r label worktree) = inr o ->
  truthy (dict_get o "test_ok") = side_passes w args b r label worktree.
Proof.
  rewrite build_and_test_cases. cbv zeta. unfold side_passes.
  destruct (subprocess_run w (build_cmd b r label) worktree (arg_timeout_build args))
    as [e|p]; [discriminate|].
  destruct (returncode p =? 0)%Z.
  - destruct (subprocess_run w (test_cmd args b r label) worktree
                             (arg_timeout_test args)) as [e|q]; [discriminate|].
    intros H. inversion H; subst. reflexivity.
  - intros H. inversion H; subst. reflexivity.
Qed.

Lemma pipeline_label (b : Bundle) (r : Run) (s : string) :
  In (EvStdout ("[F2P] " ++ s)) (trace (pipeline w args b r)) ->
  s = _classify (side_passes w args b r "before" (base_dir r))
                (side_passes w args b r "after" (head_dir r)).
Proof.
  unfold pipeline. intros H.
  apply stdout_after in H; [|apply provision_silent].
  destruct H as (u1 & H1 & H).
  apply stdout_after in H; [|apply stage_silent].
  destruct H as (u2 & H2 & H).
  apply stdout_after in H; [|apply stage_silent].
  destruct H as (u3 & H3 & H).
  apply In_bind in H. destruct H as [H|(u4 & _ & H)].
  2:{ now destruct (cleanup_silent w args r _ H ("[F2P] " ++ s)). }
  unfold classify_and_report in H.
  apply stdout_after in H; [|apply build_and_test_silent].
  destruct H as (before & Hb & H).
  apply stdout_after in H; [|apply build_and_test_silent].
  destruct H as (after & Ha & H).
  rewrite <- (build_and_test_outcome _ _ _ _ _ Hb).
  rewrite <- (build_and_test_outcome _ _ _ _ _ Ha).
  destruct H as [H|[H|[H|[]]]]; try discriminate.
  inversion H as [E]. now rewrite E.
Qed.

End Label.

(** X8: the label a run prints is decided by exit statuses alone.  A side
    passes when its image build exits with 0 and its pytest command exits
    with 0; the printed label is [_classify] of the two sides, so
    [fail2pass] is printed exactly when the base side does not pass and
    the patched side does, and likewise for the other three labels. *)
Theorem label_by_exit_codes (w : World) (args : Args) (s : string) :
  In (EvStdout ("[F2P] " ++ s)) (trace (main w args)) ->
  exists b, result (load_bundle w args) = inr b /\
    let r := new_run w args b in
    let before := side_passes w args b r "before" (base_dir r) in
    let after := side_passes w args b r "after" (head_dir r) in
    s = _classify before after /\
    (s = "fail2pass" <-> before = false /\ after = true) /\
    (s = "fail2fail" <-> before = false /\ after = false) /\
    (s = "pass2pass" <-> before = true /\ after = true) /\
    (s = "pass2fail" <-> before = true /\ after = false).
Proof.
  intros Hin.
  destruct (main_events_after_load w args _ Hin) as (b & Hload & Hpipe);
    try discriminate.
  exists b. split; [exact Hload|]. cbv zeta.
  pose proof (pipeline_label w args b _ s Hpipe) as Hs.
  split; [exact Hs|]. rewrite Hs.
  destruct (side_passes w args b (new_run w args b) "before" _),
           (side_passes w args b (new_run w args b) "after" _);
    cbn;
    repeat match goal with
      | |- _ /\ _ => split
      | |- _ <-> _ =>
          split;
          [ let H := fresh in
            intros H; try discriminate H; split; reflexivity
          | let H1 := fresh in
            let H2 := fresh in
            intros [H1 H2]; try discriminate H1; try discriminate H2; reflexivity ]
      end.
Qed.

Lemma label_by_exit_codes_witness :
  exists b, result (load_bundle unbuildable_world example_args) = inr b /\
    "pass2fail"
    = _classify
        (side_passes unbuildable_world example_args b
           (new_run unbuildable_world example_args b) "before"
           (base_dir (new_run unbuildable_world example_args b)))
        (side_passes unbuildable_world example_args b
           (new_run unbuildable_world example_args b) "after"
           (head_dir (new_run unbuildable_world example_args b))).
Proof.
  destruct (label_by_exit_codes unbuildable_world example_args "pass2fail")
    as (b & Hl & Hs & _).
  - vm_compute. in_list.
  - exists b. split; [exact Hl | exact Hs].
Defined.

(* ================================================================= *)
(** ** Image tags *)

Section Images.

Lemma lower_length (s : string) : String.length (lower s) = String.length s.
Proof. induction s; simpl; congruence. Qed.

Lemma lower_app (a b : string) : lower (a ++ b) = lower a ++ lower b.
Proof. induction a; simpl; congruence. Qed.

Lemma lower_char_not_upper (c : ascii) : is_upper (lower_char c) = false.
Proof.
  destruct c as [[] [] [] [] [] [] [] []]; vm_compute; reflexivity.
Qed.

Lemma lower_char_fixed (c : ascii) : is_upper c = false -> lower_char c = c.
Proof. unfold lower_char, is_upper. now intros ->. Qed.

Lemma lower_no_upper (s : string) :
  all_chars (fun c => negb (is_upper c)) (lower s) = true.
Proof.
  induction s as [|c s IH]; simpl; [reflexivity|].
  now rewrite lower_char_not_upper, IH.
Qed.

Lemma lower_idempotent (s : string) : lower (lower s) = lower s.
Proof.
  induction s as [|c s IH]; simpl; [reflexivity|].
  now rewrite (lower_char_fixed _ (lower_char_not_upper c)), IH.
Qed.

End Images.

Section Docker.

Variables (w : World) (args : Args).

Lemma build_and_test_processes (b : Bundle) (r : Run) (label worktree : string)
    (cmd : list string) (cwd : string) (t : Z) :
  In (EvProc cmd cwd t) (trace (build_and_test w args b r label worktree)) ->
  cwd = worktree /\
  In (EvProc (build_cmd b r label) worktree (arg_timeout_build args))
     (trace (build_and_test w args b r label worktree)) /\
  (cmd = build_cmd b r label \/
   cmd = test_cmd args b r label /\
   exists p,
     subprocess_run w (build_cmd b r label) worktree (arg_timeout_build args)
     = inr p /\ returncode p = 0%Z).
Proof.
  rewrite build_and_test_cases. cbv zeta.
  destruct (subprocess_run w (build_cmd b r label) worktree (arg_timeout_build args))
    as [e|p] eqn:Eb.
  - intros [H|[]]. inversion H; subst. repeat split; auto. now left.
  - destruct (returncode p =? 0)%Z eqn:Ep.
    + apply Z.eqb_eq in Ep.
      destruct (subprocess_run w (test_cmd args b r label) worktree
                               (arg_timeout_test args)) as [e|q];
        cbn [trace fst List.app]; intros H;
        repeat (destruct H as [H|H]; try discriminate);
        try (inversion H; subst; split; [reflexivity|];
             split; [now left|]; eauto);
        destruct H.
    + cbn [trace fst]. intros H.
      repeat (destruct H as [H|H]; try discriminate);
        try (inversion H; subst; split; [reflexivity|];
             split; [now left|]; auto);
        destruct H.
Qed.

Lemma stage_no_process (b : Bundle) (dir : string) :
  all_events (fun ev => forall cmd cwd t, ev <> EvProc cmd cwd t)
             (stage_bundle_into b dir).
Proof. unfold stage_bundle_into. all_ev; event_case. Qed.

Lemma pipeline_docker (b : Bundle) (r : Run) (cmd : list string) (cwd : string)
    (t : Z) :
  In (EvProc cmd cwd t) (trace (pipeline w args b r)) ->
  begins ["docker"] cmd = true ->
  exists label,
    (label = "before" /\ cwd = base_dir r \/ label = "after" /\ cwd = head_dir r) /\
    In (EvProc (build_cmd b r label) cwd (arg_timeout_build args))
       (trace (pipeline w args b r)) /\
    (cmd = build_cmd b r label \/
     cmd = test_cmd args b r label /\
     exists p,
       subprocess_run w (build_cmd b r label) cwd (arg_timeout_build args)
       = inr p /\ returncode p = 0%Z).
Proof.
  intros Hin Hd. unfold pipeline in *.
  apply In_bind in Hin. destruct Hin as [Hin|(u1 & H1 & Hin)].
  { pose proof (proj1 (provision_workspace_events w b r _ Hin) _ _ _ eq_refl).
    congruence. }
  apply In_bind in Hin. destruct Hin as [Hin|(u2 & H2 & Hin)].
  { now destruct (stage_no_process b _ _ Hin cmd cwd t). }
  apply In_bind in Hin. destruct Hin as [Hin|(u3 & H3 & Hin)].
  { now destruct (stage_no_process b _ _ Hin cmd cwd t). }
  apply In_bind in Hin. destruct Hin as [Hin|(u4 & _ & Hin)].
  - unfold classify_and_report in *.
    apply In_bind in Hin. destruct Hin as [Hin|(before & Hb & Hin)].
    { destruct (build_and_test_processes b r _ _ _ _ _ Hin) as (-> & Hbuild & H).
      exists "before". split; [now left|]. split; [|exact H].
      apply (In_bind_r _ _ _ u1 H1). apply (In_bind_r _ _ _ u2 H2).
      apply (In_bind_r _ _ _ u3 H3). apply In_bind_l. now apply In_bind_l. }
    apply In_bind in Hin. destruct Hin as [Hin|(after & _ & Hin)].
    { destruct (build_and_test_processes b r _ _ _ _ _ Hin) as (-> & Hbuild & H).
      exists "after". split; [now right|]. split; [|exact H].
      apply (In_bind_r _ _ _ u1 H1). apply (In_bind_r _ _ _ u2 H2).
      apply (In_bind_r _ _ _ u3 H3). apply In_bind_l.
      apply (In_bind_r _ _ _ before Hb). now apply In_bind_l. }
    cbn in Hin. destruct Hin as [Hin|[Hin|[Hin|[]]]]; discriminate.
  - pose proof (cleanup_only_removes w args r _ Hin cmd cwd t eq_refl) as Hr.
    destruct cmd as [|x cmd]; [discriminate|]. cbn [begins] in Hd, Hr.
    destruct (String.eqb_spec "git" x) as [<-|]; discriminate.
Qed.

Lemma image_of_side (r : Run) (label : string) :
  label = "before" \/ label = "after" ->
  image_of r label = "swegent-f2p:" ++ lower (run_id r) ++ "-" ++ label.
Proof.
  unfold image_of. intros [->| ->]; now rewrite !lower_app.
Qed.

Lemma main_docker (cmd : list string) (cwd : string) (t : Z) :
  In (EvProc cmd cwd t) (trace (main w args)) ->
  begins ["docker"] cmd = true ->
  exists b label,
    result (load_bundle w args) = inr b /\
    let r := new_run w args b in
    let tag := "swegent-f2p:" ++ lower (run_id r) ++ "-" ++ label in
    let build := ["docker"; "build"; "-t"; tag; "-f"; dockerfile_src b; "."] in
    (label = "before" /\ cwd = base_dir r \/ label = "after" /\ cwd = head_dir r) /\
    In (EvProc build cwd (arg_timeout_build args)) (trace (main w args)) /\
    (cmd = build \/
     cmd = (["docker"; "run"; "--rm"; tag; "pytest"]
              ++ pytest_args args ++ test_files b)%list /\
     exists p,
       subprocess_run w build cwd (arg_timeout_build args) = inr p /\
       returncode p = 0%Z).
Proof.
  intros Hin Hd.
  destruct (main_events_after_load w args _ Hin) as (b & Hload & Hpipe);
    try discriminate.
  destruct (pipeline_docker b _ _ _ _ Hpipe Hd) as (label & Hl & Hbuild & H).
  exists b, label. split; [exact Hload|]. cbv zeta.
  assert (Himg : image_of (new_run w args b) label
                 = "swegent-f2p:" ++ lower (run_id (new_run w args b)) ++ "-" ++ label).
  { apply image_of_side. destruct Hl as [[-> _]|[-> _]]; auto. }
  unfold test_cmd, build_cmd in *. rewrite Himg in *.
  split; [exact Hl|]. split; [|exact H].
  rewrite (main_after_load w args b Hload). cbn [trace fst].
  right. right. exact Hbuild.
Qed.

End Docker.

(** X9: every docker command of a run names the image of its side.  A
    docker process of [main] is started in the base worktree with the tag
    [swegent-f2p:<run id in lower case>-before], or in the head worktree
    with the same tag ending in [-after]; the tag holds no upper-case
    letter and the two tags differ; the process is either
    [docker build -t <tag> -f <dockerfile> .] or the pytest container
    [docker run --rm <tag> pytest ...], and a container is started only
    from a tag whose build, in the same worktree and in the same run, has
    exited with status 0. *)
Theorem image_tags (w : World) (args : Args) (cmd : list string) (cwd : string)
    (t : Z) :
  In (EvProc cmd cwd t) (trace (main w args)) ->
  begins ["docker"] cmd = true ->
  exists b label,
    result (load_bundle w args) = inr b /\
    let r := new_run w args b in
    let tag := "swegent-f2p:" ++ lower (run_id r) ++ "-" ++ label in
    let build := ["docker"; "build"; "-t"; tag; "-f"; dockerfile_src b; "."] in
    (label = "before" /\ cwd = base_dir r \/ label = "after" /\ cwd = head_dir r) /\
    all_chars (fun c => negb (is_upper c)) tag = true /\
    "swegent-f2p:" ++ lower (run_id r) ++ "-before"
      <> "swegent-f2p:" ++ lower (run_id r) ++ "-after" /\
    In (EvProc build cwd (arg_timeout_build args)) (trace (main w args)) /\
    (cmd = build \/
     cmd = (["docker"; "run"; "--rm"; tag; "pytest"]
              ++ pytest_args args ++ test_files b)%list /\
     exists p,
       subprocess_run w build cwd (arg_timeout_build args) = inr p /\
       returncode p = 0%Z).
Proof.
  intros Hin Hd.
  destruct (main_docker w args cmd cwd t Hin Hd)
    as (b & label & Hload & Hl & Hbuild & H).
  exists b, label. split; [exact Hload|]. cbv zeta in *.
  split; [exact Hl|]. split; [|split; [|split; [exact Hbuild | exact H]]].
  - rewrite <- (image_of_side (new_run w args b) label)
      by (destruct Hl as [[-> _]|[-> _]]; auto).
    apply lower_no_upper.
  - intros E. apply append_cancel_l in E. apply append_cancel_l in E.
    discriminate.
Qed.

Lemma image_tags_witness :
  In (EvProc ["docker"; "run"; "--rm";
              "swegent-f2p:issue_256-20260102t030405z-before"; "pytest"; "-q";
              "test_a.py"; "test_b.py"]
             "/work/issue_256-20260102T030405Z/base" 1800)
     (trace (main passing_world example_args)) /\
  exists b label,
    result (load_bundle passing_world example_args) = inr b /\
    (label = "before" /\
     "/work/issue_256-20260102T030405Z/base"
     = base_dir (new_run passing_world example_args b) \/
     label = "after" /\
     "/work/issue_256-20260102T030405Z/base"
     = head_dir (new_run passing_world example_args b)).
Proof.
  assert (Hin : In (EvProc ["docker"; "run"; "--rm";
                            "swegent-f2p:issue_256-20260102t030405z-before";
                            "pytest"; "-q"; "test_a.py"; "test_b.py"]
                           "/work/issue_256-20260102T030405Z/base" 1800)
                   (trace (main passing_world example_args))).
  { vm_compute. in_list. }
  split; [exact Hin|].
  destruct (image_tags passing_world example_args _ _ _ Hin eq_refl)
    as (b & label & Hload & Hl & _).
  exists b, label. split; [exact Hload | exact Hl].
Defined.

(* ================================================================= *)
(** ** Cleanup *)

Section Cleanup.

Variables (w : World) (args : Args).

Lemma cleanup_cases (r : Run) :
  cleanup w args r
  = if arg_keep_workdir args then ([], inr tt)
    else
      match subprocess_run w (remove_cmd (base_dir r)) (repo_dir r) 300 with
      | inl _ => ([EvProc (remove_cmd (base_dir r)) (repo_dir r) 300], inr tt)
      | inr _ =>
          ([EvProc (remove_cmd (base_dir r)) (repo_dir r) 300;
            EvProc (remove_cmd (head_dir r)) (repo_dir r) 300], inr tt)
      end.
Proof.
  unfold cleanup, unless, remove_cmd. destruct (arg_keep_workdir args); [reflexivity|].
  rewrite !_run_eq.
  destruct (subprocess_run w _ (repo_dir r) 300) as [e1|p1]; [reflexivity|].
  cbn.
  destruct (subprocess_run w _ (repo_dir r) 300) as [e2|p2]; reflexivity.
Qed.

Lemma pipeline_keeps_worktrees (b : Bundle) (r : Run) :
  arg_keep_workdir args = true ->
  all_events
    (fun ev => forall cmd cwd t,
       ev = EvProc cmd cwd t -> begins ["git"; "worktree"; "remove"] cmd = false)
    (pipeline w args b r).
Proof.
  intros Hkeep. all_ev_pipeline; event_case; auto; congruence.
Qed.

Lemma pipeline_starts_cleanup (b : Bundle) (r : Run) :
  arg_keep_workdir args = false ->
  result (pipeline w args b r) = inr tt ->
  In (EvProc (remove_cmd (base_dir r)) (repo_dir r) 300)
     (trace (pipeline w args b r)).
Proof.
  intros Hkeep H. unfold pipeline in *.
  apply bind_returns in H. destruct H as (u1 & H1 & H).
  apply bind_returns in H. destruct H as (u2 & H2 & H).
  apply bind_returns in H. destruct H as (u3 & H3 & H).
  apply bind_returns in H. destruct H as (u4 & H4 & H).
  apply (In_bind_r _ _ _ u1 H1). apply (In_bind_r _ _ _ u2 H2).
  apply (In_bind_r _ _ _ u3 H3). apply (In_bind_r _ _ _ u4 H4).
  rewrite cleanup_cases, Hkeep.
  destruct (subprocess_run w _ (repo_dir r) 300); now left.
Qed.

End Cleanup.

(** X10: removing the worktrees is best effort and never changes how a
    run ends.  The cleanup always returns; with [--keep-workdir] it starts
    no process and no [git worktree remove] occurs in the whole run;
    without it, it removes the base worktree and then the head worktree,
    skipping the second removal when the first one raises, and a run that
    ends with status 0 has attempted the first removal. *)
Theorem cleanup_best_effort (w : World) (args : Args) :
  (forall r,
     cleanup w args r
     = if arg_keep_workdir args then ([], inr tt)
       else
         match subprocess_run w (remove_cmd (base_dir r)) (repo_dir r) 300 with
         | inl _ => ([EvProc (remove_cmd (base_dir r)) (repo_dir r) 300], inr tt)
         | inr _ =>
             ([EvProc (remove_cmd (base_dir r)) (repo_dir r) 300;
               EvProc (remove_cmd (head_dir r)) (repo_dir r) 300], inr tt)
         end) /\
  (arg_keep_workdir args = true ->
   forall cmd cwd t,
     In (EvProc cmd cwd t) (trace (main w args)) ->
     begins ["git"; "worktree"; "remove"] cmd = false) /\
  (arg_keep_workdir args = false -> exit_status (main w args) = 0%Z ->
   exists b, result (load_bundle w args) = inr b /\
     let r := new_run w args b in
     In (EvProc (remove_cmd (base_dir r)) (repo_dir r) 300) (trace (main w args))).
Proof.
  split; [|split].
  - apply cleanup_cases.
  - intros Hkeep cmd cwd t Hin.
    destruct (main_events_after_load w args _ Hin) as (b & Hload & Hpipe);
      try discriminate.
    exact (pipeline_keeps_worktrees w args b _ Hkeep _ Hpipe _ _ _ eq_refl).
  - intros Hkeep Hexit. apply exit_zero_returns in Hexit.
    destruct (result (load_bundle w args)) as [e|b] eqn:E.
    + rewrite (main_load_aborts w args e E) in Hexit. discriminate.
    + exists b. split; [reflexivity|]. intros r.
      rewrite (main_after_load w args b E) in *. fold r in Hexit |- *.
      cbn [result snd] in Hexit. right. right.
      now apply pipeline_starts_cleanup.
Qed.

Lemma cleanup_best_effort_witness :
  exists b, result (load_bundle passing_world example_args) = inr b /\
    In (EvProc (remove_cmd (base_dir (new_run passing_world example_args b)))
               (repo_dir (new_run passing_world example_args b)) 300)
       (trace (main passing_world example_args)).
Proof.
  destruct (cleanup_best_effort passing_world example_args) as (_ & _ & H).
  apply H; reflexivity.
Defined.

(* ================================================================= *)
(** ** Staging the bundle *)

Section Staging.

Variables (w : World) (args : Args).

Lemma stage_bundle_into_eq (b : Bundle) (worktree : string) :
  stage_bundle_into b worktree = (staged b worktree, inr tt).
Proof.
  unfold stage_bundle_into, staged.
  assert (H : for_each (test_files b)
                (fun t => emit (EvCopy (joinpath (bundle_dir b) t)
                                       (joinpath worktree t)))
              = (map (fun t => EvCopy (joinpath (bundle_dir b) t)
                                      (joinpath worktree t)) (test_files b),
                 inr tt)).
  { induction (test_files b) as [|t l IH]; [reflexivity|].
    cbn [for_each map]. rewrite IH. reflexivity. }
  rewrite H. reflexivity.
Qed.

Lemma copies_none (tr : list event) :
  (forall ev, In ev tr -> forall src dst, ev <> EvCopy src dst) -> copies tr = [].
Proof.
  induction tr as [|ev tr IH]; intros H; [reflexivity|].
  destruct ev; simpl;
    try (apply IH; intros ev' Hin; apply H; now right).
  exfalso. exact (H _ (or_introl eq_refl) _ _ eq_refl).
Qed.

Lemma provision_no_copy (b : Bundle) (r : Run) :
  all_events (fun ev => forall src dst, ev <> EvCopy src dst) (provision w b r).
Proof. unfold provision, write_text. all_ev; event_case. Qed.

Lemma report_cleanup_no_copy (b : Bundle) (r : Run) :
  all_events (fun ev => forall src dst, ev <> EvCopy src dst)
    (classify_and_report w args b r ;;; cleanup w args r).
Proof.
  unfold classify_and_report, build_and_test, cleanup, write_text.
  repeat first
    [ match goal with
      | |- all_events _ (if ?c then _ else _) => destruct c
      end
    | progress all_ev ]; event_case.
Qed.

Lemma pipeline_trace_after_provision (b : Bundle) (r : Run) :
  result (provision w b r) = inr tt ->
  trace (pipeline w args b r)
  = (trace (provision w b r) ++ staged b (base_dir r) ++ staged b (head_dir r)
       ++ trace (classify_and_report w args b r ;;; cleanup w args r))%list.
Proof.
  intros H. unfold pipeline.
  rewrite (bind_continues _ _ tt H). cbn [trace fst].
  rewrite !stage_bundle_into_eq.
  rewrite (bind_continues (staged b (base_dir r), inr tt) _ tt eq_refl).
  cbn [trace fst].
  rewrite (bind_continues (staged b (head_dir r), inr tt) _ tt eq_refl).
  reflexivity.
Qed.

End Staging.

(** X11: the bundle is staged only once the workspace is ready, and before
    any container is built.  If a workspace step stops the run nothing is
    copied.  Otherwise the run copies the dockerfile and then every
    selected test file from the bundle into the base worktree, then the
    same into the head worktree, under their own names; no docker command
    comes before these copies and no copy comes after them. *)
Theorem tests_staged_before_run (w : World) (args : Args) (b : Bundle) :
  result (load_bundle w args) = inr b ->
  let r := new_run w args b in
  (result (provision w b r) <> inr tt -> copies (trace (main w args)) = []) /\
  (result (provision w b r) = inr tt ->
   exists pre post,
     trace (main w args)
     = (pre ++ staged b (base_dir r) ++ staged b (head_dir r) ++ post)%list /\
     copies pre = [] /\ copies post = [] /\
     (forall cmd cwd t, In (EvProc cmd cwd t) pre -> begins ["docker"] cmd = false) /\
     (forall t, In t (test_files b) ->
        In (EvCopy (joinpath (bundle_dir b) t) (joinpath (base_dir r) t))
           (staged b (base_dir r)) /\
        In (EvCopy (joinpath (bundle_dir b) t) (joinpath (head_dir r) t))
           (staged b (head_dir r)))).
Proof.
  intros Hload r.
  pose proof (main_after_load w args b Hload) as Hmain. cbv zeta in Hmain.
  fold r in Hmain. split.
  - intros Hprov. rewrite Hmain. cbn [trace fst copies].
    destruct (result (provision w b r)) as [e|[]] eqn:E; [|now destruct Hprov].
    unfold pipeline. rewrite (bind_aborts _ _ e E). cbn [trace fst].
    apply copies_none. intros ev Hin. exact (provision_no_copy w b r ev Hin).
  - intros Hprov.
    exists (EvMkdir (run_root r)
              :: EvWrite (run_root r) "meta.json" (JsonText (JObj (meta r)))
              :: trace (provision w b r)),
           (trace (classify_and_report w args b r ;;; cleanup w args r)).
    split; [|split; [|split; [|split]]].
    + rewrite Hmain. cbn [trace fst].
      now rewrite (pipeline_trace_after_provision w args b r Hprov).
    + cbn [copies]. apply copies_none. intros ev Hin.
      exact (provision_no_copy w b r ev Hin).
    + apply copies_none. intros ev Hin.
      exact (report_cleanup_no_copy w args b r ev Hin).
    + intros cmd cwd t [Hin|[Hin|Hin]]; try discriminate.
      exact (proj1 (provision_workspace_events w b r _ Hin) _ _ _ eq_refl).
    + intros t Ht. unfold staged. split; right.
      * exact (in_map (fun t0 => EvCopy (joinpath (bundle_dir b) t0)
                                        (joinpath (base_dir r) t0)) _ t Ht).
      * exact (in_map (fun t0 => EvCopy (joinpath (bundle_dir b) t0)
                                        (joinpath (head_dir r) t0)) _ t Ht).
Qed.

Lemma tests_staged_before_run_witness :
  copies (trace (main unpatchable_world example_args)) = [] /\
  exists pre post,
    trace (main passing_world example_args)
    = (pre ++ staged example_bundle "/work/issue_256-20260102T030405Z/base"
           ++ staged example_bundle "/work/issue_256-20260102T030405Z/head"
           ++ post)%list /\
    copies pre = [] /\ copies post = [].
Proof.
  split.
  - apply (tests_staged_before_run unpatchable_world example_args example_bundle);
      [vm_compute; reflexivity | vm_compute; discriminate].
  - destruct (tests_staged_before_run passing_world example_args example_bundle)
      as (_ & H); [vm_compute; reflexivity|].
    destruct H as (pre & post & H1 & H2 & H3 & _); [vm_compute; reflexivity|].
    exists pre, post. split; [exact H1|]. split; [exact H2 | exact H3].
Defined.

(* ================================================================= *)
(** ** Where and how long *)

Section Places.

Variables (w : World) (args : Args).

Lemma pipeline_located (b : Bundle) (r : Run) :
  all_events (located b r) (pipeline w args b r).
Proof.
  all_ev_pipeline; unfold write_text; all_ev; simpl; auto 6; eauto.
Qed.

Lemma pipeline_timeouts (b : Bundle) (r : Run) :
  all_events
    (fun ev => forall cmd cwd t, ev = EvProc cmd cwd t -> t = timeout_of args cmd)
    (pipeline w args b r).
Proof. all_ev_pipeline; event_case; reflexivity. Qed.

End Places.

(** X12: a run keeps to its own directories.  Apart from lines on stderr
    and stdout, every effect of [main] is the creation of the run
    directory, a file written directly in the run directory, a copy of a
    bundle file into the base or head worktree under the same name, or a
    process started in the run directory, the clone, or one of the two
    worktrees; nothing is written into the bundle. *)
Theorem effects_located (w : World) (args : Args) (ev : event) :
  In ev (trace (main w args)) ->
  (exists msg, ev = EvStderr msg) \/
  exists b, result (load_bundle w args) = inr b /\
            located b (new_run w args b) ev.
Proof.
  intros Hin. destruct (result (load_bundle w args)) as [e|b] eqn:E.
  - left. rewrite (main_load_aborts w args e E) in Hin.
    exact (load_bundle_stderr w args ev Hin).
  - right. exists b. split; [reflexivity|].
    rewrite (main_after_load w args b E) in Hin.
    destruct Hin as [<-|[<-|Hin]]; [reflexivity | reflexivity |].
    exact (pipeline_located w args b _ ev Hin).
Qed.

Lemma effects_located_witness :
  (exists msg, EvCopy "/bundle/test_a.py"
                      "/work/issue_256-20260102T030405Z/head/test_a.py"
               = EvStderr msg) \/
  exists b, result (load_bundle passing_world example_args) = inr b /\
            located b (new_run passing_world example_args b)
              (EvCopy "/bundle/test_a.py"
                      "/work/issue_256-20260102T030405Z/head/test_a.py").
Proof.
  apply (effects_located passing_world example_args). vm_compute. in_list.
Defined.

(** X13: every process of a run is started with a timeout, and the
    command-line options are honoured: [docker build] gets
    [--timeout-build], [docker run] gets [--timeout-test], clone and
    fetch get 3600 seconds, a worktree addition 600, and the patch
    application and the worktree removals 300. *)
Theorem process_timeouts (w : World) (args : Args) (cmd : list string)
    (cwd : string) (t : Z) :
  In (EvProc cmd cwd t) (trace (main w args)) -> t = timeout_of args cmd.
Proof.
  intros Hin.
  destruct (main_events_after_load w args _ Hin) as (b & Hload & Hpipe);
    try discriminate.
  exact (pipeline_timeouts w args b _ _ Hpipe _ _ _ eq_refl).
Qed.

Lemma process_timeouts_witness :
  1800%Z
  = timeout_of example_args
      ["docker"; "run"; "--rm"; "swegent-f2p:issue_256-20260102t030405z-before";
       "pytest"; "-q"; "test_a.py"; "test_b.py"].
Proof.
  apply (process_timeouts passing_world example_args _
           "/work/issue_256-20260102T030405Z/base").
  vm_compute. in_list.
Defined.

(* ================================================================= *)
(** ** Report and label *)

Section ReportOrder.

Variables (w : World) (args : Args).

Lemma classify_and_report_eq (b : Bundle) (r : Run) (before after : dict) :
  result (build_and_test w args b r "before" (base_dir r)) = inr before ->
  result (build_and_test w args b r "after" (head_dir r)) = inr after ->
  let status := _classify (truthy (dict_get before "test_ok"))
                          (truthy (dict_get after "test_ok")) in
  classify_and_report w args b r
  = ((trace (build_and_test w args b r "before" (base_dir r))
      ++ trace (build_and_test w args b r "after" (head_dir r))
      ++ [EvWrite (run_root r) "f2p_report.json"
                  (JsonText (JObj (make_report r status before after)));
          EvStdout ("[F2P] " ++ status);
          EvStdout ("Report: " ++ joinpath (run_root r) "f2p_report.json")])%list,
     inr tt).
Proof.
  intros Hb Ha status. unfold classify_and_report.
  rewrite (bind_continues _ _ before Hb).
  rewrite (bind_continues _ _ after Ha). reflexivity.
Qed.

Lemma no_stdout_app (t1 t2 : list event) :
  (forall l, ~ In (EvStdout l) t1) -> (forall l, ~ In (EvStdout l) t2) ->
  forall l, ~ In (EvStdout l) (t1 ++ t2).
Proof.
  intros H1 H2 l Hin. apply in_app_or in Hin.
  destruct Hin as [Hin|Hin]; [exact (H1 l Hin) | exact (H2 l Hin)].
Qed.

Lemma silent_no_stdout {A} (m : M A) :
  silent m -> forall l, ~ In (EvStdout l) (trace m).
Proof. intros H l Hin. exact (H _ Hin l eq_refl). Qed.

Lemma staged_no_stdout (b : Bundle) (dir : string) :
  forall l, ~ In (EvStdout l) (staged b dir).
Proof.
  intros l Hin.
  pose proof (stage_silent b dir) as H. rewrite stage_bundle_into_eq in H.
  exact (H _ Hin l eq_refl).
Qed.

Lemma pipeline_report_shape (b : Bundle) (r : Run) (line : string) :
  In (EvStdout line) (trace (pipeline w args b r)) ->
  exists before after pre,
    result (build_and_test w args b r "before" (base_dir r)) = inr before /\
    result (build_and_test w args b r "after" (head_dir r)) = inr after /\
    let status := _classify (truthy (dict_get before "test_ok"))
                            (truthy (dict_get after "test_ok")) in
    trace (pipeline w args b r)
    = (pre
       ++ [EvWrite (run_root r) "f2p_report.json"
                   (JsonText (JObj (make_report r status before after)));
           EvStdout ("[F2P] " ++ status);
           EvStdout ("Report: " ++ joinpath (run_root r) "f2p_report.json")]
       ++ trace (cleanup w args r))%list /\
    forall l, ~ In (EvStdout l) pre.
Proof.
  intros Hin.
  pose proof (pipeline_label_returns w args b r line Hin) as Hres.
  unfold pipeline in Hres.
  apply bind_returns in Hres. destruct Hres as ([] & H1 & Hres).
  apply bind_returns in Hres. destruct Hres as (u2 & _ & Hres).
  apply bind_returns in Hres. destruct Hres as (u3 & _ & Hres).
  apply bind_returns in Hres. destruct Hres as ([] & H4 & _).
  destruct (report_returns w args b r H4) as (before & after & Hb & Ha & _).
  exists before, after,
    (trace (provision w b r) ++ staged b (base_dir r) ++ staged b (head_dir r)
       ++ trace (build_and_test w args b r "before" (base_dir r))
       ++ trace (build_and_test w args b r "after" (head_dir r)))%list.
  split; [exact Hb|]. split; [exact Ha|]. cbv zeta. split.
  - rewrite (pipeline_trace_after_provision w args b r H1).
    rewrite (bind_continues _ _ tt H4).
    rewrite (classify_and_report_eq b r before after Hb Ha).
    cbn [trace fst]. now rewrite <- !app_assoc.
  - repeat apply no_stdout_app.
    + apply silent_no_stdout, provision_silent.
    + apply staged_no_stdout.
    + apply staged_no_stdout.
    + apply silent_no_stdout, build_and_test_silent.
    + apply silent_no_stdout, build_and_test_silent.
Qed.

End ReportOrder.

(** X14: a label is printed only after the report holding it is on disk.
    Whenever a run prints a label, its trace ends with the writing of
    [f2p_report.json], the label line, the line naming the report file,
    and then the cleanup; nothing was printed to stdout before; and the
    [status] of the written report is the printed label. *)
Theorem report_then_label (w : World) (args : Args) (s : string) :
  In (EvStdout ("[F2P] " ++ s)) (trace (main w args)) ->
  exists b before after pre,
    result (load_bundle w args) = inr b /\
    let r := new_run w args b in
    trace (main w args)
    = (pre
       ++ [EvWrite (run_root r) "f2p_report.json"
                   (JsonText (JObj (make_report r s before after)));
           EvStdout ("[F2P] " ++ s);
           EvStdout ("Report: " ++ joinpath (run_root r) "f2p_report.json")]
       ++ trace (cleanup w args r))%list /\
    (forall l, ~ In (EvStdout l) pre) /\
    dict_find (make_report r s before after) "status" = Some (JStr s) /\
    dict_find (make_report r s before after) "before" = Some (JObj before) /\
    dict_find (make_report r s before after) "after" = Some (JObj after).
Proof.
  intros Hin.
  destruct (main_events_after_load w args _ Hin) as (b & Hload & Hpipe);
    try discriminate.
  destruct (pipeline_report_shape w args b _ _ Hpipe)
    as (before & after & pre & Hb & Ha & Ht & Hno).
  cbv zeta in Ht.
  assert (Hs : s = _classify (truthy (dict_get before "test_ok"))
                             (truthy (dict_get after "test_ok"))).
  { rewrite (pipeline_label w args b _ s Hpipe).
    now rewrite (build_and_test_outcome w args _ _ _ _ _ Hb),
                (build_and_test_outcome w args _ _ _ _ _ Ha). }
  rewrite <- Hs in Ht.
  exists b, before, after,
    (EvMkdir (run_root (new_run w args b))
       :: EvWrite (run_root (new_run w args b)) "meta.json"
            (JsonText (JObj (meta (new_run w args b)))) :: pre).
  split; [exact Hload|]. cbv zeta.
  split; [|split].
  - rewrite (main_after_load w args b Hload). cbn [trace fst].
    rewrite Ht. reflexivity.
  - intros l [H|[H|H]]; try discriminate. exact (Hno l H).
  - destruct (make_report_frame b (new_run w args b)
                (run_id (new_run w args b)) s before after eq_refl)
      as (_ & _ & _ & H1 & H2 & H3).
    auto.
Qed.

Lemma report_then_label_witness :
  exists b before after pre,
    result (load_bundle passing_world example_args) = inr b /\
    trace (main passing_world example_args)
    = (pre
       ++ [EvWrite (run_root (new_run passing_world example_args b)) "f2p_report.json"
                   (JsonText (JObj (make_report (new_run passing_world example_args b)
                                                "pass2pass" before after)));
           EvStdout "[F2P] pass2pass";
           EvStdout ("Report: " ++ joinpath (run_root (new_run passing_world example_args b))
                                            "f2p_report.json")]
       ++ trace (cleanup passing_world example_args
                         (new_run passing_world example_args b)))%list.
Proof.
  destruct (report_then_label passing_world example_args "pass2pass")
    as (b & before & after & pre & Hl & Ht & _).
  - vm_compute. in_list.
  - exists b, before, after, pre. split; [exact Hl | exact Ht].
Defined.

(* ================================================================= *)
(** ** The base worktree stays unpatched *)

Section BaseUntouched.

Variables (w : World) (args : Args).

Lemma not_own_child (root name : string) : root <> joinpath root name.
Proof.
  unfold joinpath. intros H. apply (f_equal String.length) in H.
  rewrite length_app in H. simpl in H. lia.
Qed.

Lemma dirs_distinct (r : Run) :
  run_root r <> base_dir r /\ repo_dir r <> base_dir r /\
  head_dir r <> base_dir r /\ run_root r <> head_dir r /\
  repo_dir r <> head_dir r.
Proof.
  unfold base_dir, head_dir, repo_dir.
  repeat split; try apply not_own_child;
    unfold joinpath; intros H; apply append_cancel_l in H; discriminate.
Qed.

Lemma base_dir_processes (b : Bundle) (r : Run) :
  all_events
    (fun ev => forall cmd cwd t,
       ev = EvProc cmd cwd t -> cwd = base_dir r ->
       cmd = build_cmd b r "before" \/ cmd = test_cmd args b r "before")
    (pipeline w args b r).
Proof.
  destruct (dirs_distinct r) as (D1 & D2 & D3 & _).
  all_ev_pipeline; event_case;
    first [ left; reflexivity | right; reflexivity | contradiction
          | exfalso; auto ].
Qed.

End BaseUntouched.

(** X15: the patch never reaches the base worktree.  The base and head
    worktrees are different directories; [git apply] runs in the head
    worktree only, on the patch file of the run; and the only processes
    ever started inside the base worktree are the image build and the
    pytest container of the "before" side. *)
Theorem patch_only_in_head (w : World) (args : Args) (cmd : list string)
    (cwd : string) (t : Z) :
  In (EvProc cmd cwd t) (trace (main w args)) ->
  exists b, result (load_bundle w args) = inr b /\
    let r := new_run w args b in
    base_dir r <> head_dir r /\
    (begins ["git"; "apply"] cmd = true -> cmd = apply_cmd r /\ cwd = head_dir r) /\
    (cwd = base_dir r ->
     cmd = build_cmd b r "before" \/ cmd = test_cmd args b r "before").
Proof.
  intros Hin.
  destruct (main_events_after_load w args _ Hin) as (b & Hload & Hpipe);
    try discriminate.
  exists b. split; [exact Hload|]. cbv zeta.
  destruct (dirs_distinct (new_run w args b)) as (_ & _ & D & _).
  split; [congruence|]. split.
  - intros Hb.
    destruct (apply_events w args b _ _ Hpipe _ _ _ eq_refl Hb) as (-> & -> & _).
    now split.
  - exact (base_dir_processes w args b _ _ Hpipe _ _ _ eq_refl).
Qed.

Lemma patch_only_in_head_witness :
  exists b, result (load_bundle passing_world example_args) = inr b /\
    "/work/issue_256-20260102T030405Z/head"
    = head_dir (new_run passing_world example_args b).
Proof.
  destruct (patch_only_in_head passing_world example_args
              ["git"; "apply"; "--whitespace=nowarn";
               "/work/issue_256-20260102T030405Z/gold_patch.diff"]
              "/work/issue_256-20260102T030405Z/head" 300%Z)
    as (b & Hl & _ & H & _).
  - vm_compute. in_list.
  - exists b. split; [exact Hl|]. now apply H.
Defined.

(* ================================================================= *)
(** ** Where the clone comes from *)

Section CloneUrl.

Variables (w : World) (args : Args).

Lemma parse_repo_sound (v : json) (id : string) :
  _parse_repo_from_issue_url v = inr id ->
  exists url owner repo,
    py_or v (JStr "") = JStr url /\ id = owner ++ "/" ++ repo /\
    github_issue_form url owner repo.
Proof.
  unfold _parse_repo_from_issue_url.
  destruct (py_or v (JStr "")) as [| | |url| |]; try discriminate.
  destruct (re_search issue_url_re url) as [caps|] eqn:E; [|discriminate].
  intros H. inversion H; subst; clear H.
  apply re_search_Some in E. destruct E as (pre & s' & rest & -> & Hin).
  apply rmatch_issue_url_sound in Hin. destruct Hin as (owner & repo & -> & Hm).
  exists (pre ++ s'), owner, repo. split; [reflexivity|]. split; [reflexivity|].
  now apply matches_here_form with rest.
Qed.

Lemma form_not_empty (owner repo : string) : ~ github_issue_form "" owner repo.
Proof. intros (pre & k & c & rest & E & _). destruct pre; discriminate. Qed.

Lemma py_or_twice (v : json) (url : string) :
  py_or (py_or v (JStr "")) (JStr "") = JStr url -> url <> "" -> v = JStr url.
Proof.
  unfold py_or.
  destruct v as [| [] | [|z|z] | [|c s] | [|x l] | [|kv l]]; cbn;
    intros H Hne; inversion H; congruence.
Qed.

Lemma load_bundle_fields (b : Bundle) :
  result (load_bundle w args) = inr b ->
  let dir := resolve w (arg_bundle_dir args) in
  exists d,
    path_exists w dir = true /\ which w "git" = true /\ which w "docker" = true /\
    _load_issue_json w dir = inr (JObj d) /\
    bundle_dir b = dir /\
    issue_number b = dict_get d "number" /\
    issue_url b = py_or (dict_get d "url") (JStr "") /\
    _parse_repo_from_issue_url (issue_url b) = inr (repo b) /\
    _pick_dockerfile w dir = inr (dockerfile_src b) /\
    test_files b = _pick_tests w dir /\ test_files b <> [].
Proof.
  unfold load_bundle. intros H. cbv zeta.
  apply bind_returns in H. destruct H as (u1 & Hp & H).
  apply unless_returns in Hp.
  apply bind_returns in H. destruct H as (u2 & Ht & H).
  unfold _ensure_tools in Ht. cbn [for_each] in Ht.
  apply bind_returns in Ht. destruct Ht as (u3 & Hg & Ht).
  apply unless_returns in Hg.
  apply bind_returns in Ht. destruct Ht as (u4 & Hd & _).
  apply unless_returns in Hd.
  apply bind_returns in H. destruct H as (issue & Hi & H).
  apply lift_returns in Hi.
  apply bind_returns in H. destruct H as (num & Hn & H).
  apply lift_returns, py_get_returns in Hn. destruct Hn as (d & -> & ->).
  apply bind_returns in H. destruct H as (url & Hu & H).
  apply lift_returns in Hu. simpl in Hu. inversion Hu; subst url; clear Hu.
  apply bind_returns in H. destruct H as (rp & Hr & H).
  apply lift_returns in Hr.
  apply bind_returns in H. destruct H as ([[bs hs] pt] & _ & H).
  apply bind_returns in H. destruct H as (df & Hdf & H).
  apply lift_returns in Hdf.
  apply bind_returns in H. destruct H as (u5 & Hne & H).
  simpl in H. inversion H; subst; clear H.
  cbn [bundle_dir issue_number issue_url repo dockerfile_src test_files].
  exists d. repeat split; auto.
  intros E. rewrite E in Hne. discriminate.
Qed.

Lemma clone_events (b : Bundle) (r : Run) :
  all_events
    (fun ev => forall cmd cwd t,
       ev = EvProc cmd cwd t -> begins ["git"; "clone"] cmd = true ->
       cmd = ["git"; "clone"; "--no-checkout";
              "https://github.com/" ++ repo b ++ ".git"; repo_dir r] /\
       cwd = run_root r)
    (pipeline w args b r).
Proof. all_ev_pipeline; event_case; auto. Qed.

End CloneUrl.

(** X16: the repository a run clones is the one named in the issue URL.
    Every [git clone] of a run is
    [git clone --no-checkout https://github.com/<owner>/<repo>.git <run>/repo],
    started in the run directory, where the [url] of the issue file holds
    [github.com/<owner>/<repo>/(issues|pull)/<number>] with that owner and
    repo, both non-empty and free of [/]. *)
Theorem clone_url_from_issue (w : World) (args : Args) (cmd : list string)
    (cwd : string) (t : Z) :
  In (EvProc cmd cwd t) (trace (main w args)) ->
  begins ["git"; "clone"] cmd = true ->
  exists b d url owner repo,
    result (load_bundle w args) = inr b /\
    _load_issue_json w (resolve w (arg_bundle_dir args)) = inr (JObj d) /\
    dict_get d "url" = JStr url /\
    github_issue_form url owner repo /\
    let r := new_run w args b in
    cmd = ["git"; "clone"; "--no-checkout";
           "https://github.com/" ++ owner ++ "/" ++ repo ++ ".git"; repo_dir r] /\
    cwd = run_root r.
Proof.
  intros Hin Hb.
  destruct (main_events_after_load w args _ Hin) as (b & Hload & Hpipe);
    try discriminate.
  destruct (load_bundle_fields w args b Hload)
    as (d & _ & _ & _ & Hi & _ & _ & Hu & Hr & _).
  destruct (parse_repo_sound _ _ Hr) as (url & owner & repo & Hor & Hid & Hf).
  destruct (clone_events w args b _ _ Hpipe _ _ _ eq_refl Hb) as (-> & ->).
  exists b, d, url, owner, repo.
  split; [exact Hload|]. split; [exact Hi|]. split.
  - rewrite Hu in Hor. apply py_or_twice in Hor; [exact Hor|].
    intros ->. exact (form_not_empty _ _ Hf).
  - split; [exact Hf|]. cbv zeta. rewrite Hid.
    replace ((owner ++ "/" ++ repo) ++ ".git") with (owner ++ "/" ++ repo ++ ".git")
      by (now rewrite !sapp_assoc).
    now split.
Qed.

Lemma clone_url_from_issue_witness :
  exists b d url owner repo,
    result (load_bundle passing_world example_args) = inr b /\
    _load_issue_json passing_world (resolve passing_world (arg_bundle_dir example_args))
    = inr (JObj d) /\
    dict_get d "url" = JStr url /\
    github_issue_form url owner repo /\
    ["git"; "clone"; "--no-checkout";
     "https://github.com/always-further/AgentUp.git";
     "/work/issue_256-20260102T030405Z/repo"]
    = ["git"; "clone"; "--no-checkout";
       "https://github.com/" ++ owner ++ "/" ++ repo ++ ".git";
       repo_dir (new_run passing_world example_args b)] /\
    "/work/issue_256-20260102T030405Z" = run_root (new_run passing_world example_args b).
Proof.
  apply (clone_url_from_issue passing_world example_args
           ["git"; "clone"; "--no-checkout";
            "https://github.com/always-further/AgentUp.git";
            "/work/issue_256-20260102T030405Z/repo"]
           "/work/issue_256-20260102T030405Z" 3600%Z).
  - vm_compute. in_list.
  - reflexivity.
Defined.

(** X17: a run creates its directory only when every precondition holds.
    If the run directory has been created then the bundle directory
    exists, git and docker are installed, the issue file decodes to an
    object whose URL names a GitHub repository, the first linked pull
    request has a non-empty base revision and a patch text that is not
    blank, a dockerfile was found and at least one test file was
    selected. *)
Theorem run_starts_only_when_valid (w : World) (args : Args) (path : string) :
  In (EvMkdir path) (trace (main w args)) ->
  let dir := resolve w (arg_bundle_dir args) in
  exists b d pr0 rest url owner repo,
    result (load_bundle w args) = inr b /\
    path = run_root (new_run w args b) /\
    path_exists w dir = true /\ which w "git" = true /\ which w "docker" = true /\
    _load_issue_json w dir = inr (JObj d) /\
    dict_get d "url" = JStr url /\ github_issue_form url owner repo /\
    dict_get d "linked_prs" = JList (JObj pr0 :: rest) /\
    truthy (dict_get pr0 "base_sha") = true /\
    dict_get pr0 "patch" = JStr (patch_text b) /\
    nonempty (strip (patch_text b)) = true /\
    _pick_dockerfile w dir = inr (dockerfile_src b) /\
    test_files b = _pick_tests w dir /\ test_files b <> [].
Proof.
  intros Hin. cbv zeta.
  destruct (result (load_bundle w args)) as [e|b] eqn:E.
  { rewrite (main_load_aborts w args e E) in Hin.
    destruct (load_bundle_stderr w args _ Hin) as [msg H]. discriminate. }
  assert (Hp : path = run_root (new_run w args b)).
  { rewrite (main_after_load w args b E) in Hin.
    destruct Hin as [H|[H|H]]; [now inversion H | discriminate |].
    exact (pipeline_located w args b _ _ H). }
  destruct (load_bundle_fields w args b E)
    as (d & H1 & H2 & H3 & Hi & _ & _ & Hu & Hr & Hdf & Ht & Hne).
  destruct (load_bundle_returns w args b E)
    as (d' & pr0 & rest & Hi' & Hl & Hbs & _ & Hpa & Htb & Hnb).
  cbv zeta in Hi. rewrite Hi in Hi'. inversion Hi'; subst d'; clear Hi'.
  destruct (parse_repo_sound _ _ Hr) as (url & owner & repo & Hor & _ & Hf).
  rewrite Hu in Hor. apply py_or_twice in Hor.
  2:{ intros ->. exact (form_not_empty _ _ Hf). }
  exists b, d, pr0, rest, url, owner, repo.
  rewrite Hbs in Htb. repeat split; auto.
Qed.

Lemma run_starts_only_when_valid_witness :
  exists b d pr0 rest url owner repo,
    result (load_bundle passing_world example_args) = inr b /\
    "/work/issue_256-20260102T030405Z" = run_root (new_run passing_world example_args b) /\
    path_exists passing_world (resolve passing_world (arg_bundle_dir example_args)) = true /\
    which passing_world "git" = true /\ which passing_world "docker" = true /\
    _load_issue_json passing_world (resolve passing_world (arg_bundle_dir example_args))
    = inr (JObj d) /\
    dict_get d "url" = JStr url /\ github_issue_form url owner repo /\
    dict_get d "linked_prs" = JList (JObj pr0 :: rest) /\
    truthy (dict_get pr0 "base_sha") = true /\
    dict_get pr0 "patch" = JStr (patch_text b) /\
    nonempty (strip (patch_text b)) = true /\
    _pick_dockerfile passing_world (resolve passing_world (arg_bundle_dir example_args))
    = inr (dockerfile_src b) /\
    test_files b
    = _pick_tests passing_world (resolve passing_world (arg_bundle_dir example_args)) /\
    test_files b <> [].
Proof.
  apply (run_starts_only_when_valid passing_world example_args
           "/work/issue_256-20260102T030405Z").
  vm_compute. in_list.
Defined.

(* ================================================================= *)
(** ** Extra arguments for pytest *)

Section PytestArgs.

Lemma all_chars_snoc cls (s : string) (c : ascii) :
  all_chars cls s = true -> cls c = true -> all_chars cls (s ++ String c "") = true.
Proof.
  induction s as [|d s IH]; simpl; intros Hs Hc.
  - now rewrite Hc.
  - apply andb_true_iff in Hs. destruct Hs as [Hd Hs]. now rewrite Hd, IH.
Qed.

Lemma nonempty_snoc (s : string) (c : ascii) : nonempty (s ++ String c "") = true.
Proof. now destruct s. Qed.

Lemma split_ws_words :
  forall s cur x,
    all_chars (fun c => negb (isspace c)) cur = true ->
    In x (split_ws s cur) ->
    nonempty x = true /\ all_chars (fun c => negb (isspace c)) x = true.
Proof.
  induction s as [|c s IH]; intros cur x Hcur Hin; simpl in Hin.
  - destruct (nonempty cur) eqn:E; [|destruct Hin].
    destruct Hin as [<-|[]]. auto.
  - destruct (isspace c) eqn:Ec.
    + destruct (nonempty cur) eqn:E.
      * destruct Hin as [<-|Hin]; [auto|]. now apply (IH "" x).
      * now apply (IH "" x).
    + apply (IH (cur ++ String c "") x); [|exact Hin].
      apply all_chars_snoc; [exact Hcur | now rewrite Ec].
Qed.

Lemma split_ws_nil :
  forall s cur, split_ws s cur = [] -> cur = "" /\ all_chars isspace s = true.
Proof.
  induction s as [|c s IH]; intros cur H; simpl in H.
  - destruct cur; [auto | discriminate].
  - destruct (isspace c) eqn:Ec.
    + destruct (nonempty cur) eqn:E; [discriminate|].
      destruct (IH "" H) as [_ Hs]. destruct cur; [|discriminate].
      simpl. now rewrite Ec.
    + destruct (IH _ H) as [Hc _]. destruct cur; discriminate.
Qed.

Lemma lstrip_blank (s : string) : all_chars isspace s = true -> lstrip s = "".
Proof.
  induction s as [|c s IH]; simpl; [reflexivity|].
  intros H. apply andb_true_iff in H. destruct H as [-> H]. auto.
Qed.

Lemma lstrip_empty (s : string) : lstrip s = "" -> all_chars isspace s = true.
Proof.
  induction s as [|c s IH]; simpl; [reflexivity|].
  destruct (isspace c); [auto | discriminate].
Qed.

Lemma rstrip_empty (s : string) : rstrip s = "" -> all_chars isspace s = true.
Proof.
  induction s as [|c s IH]; simpl; [reflexivity|].
  destruct (rstrip s) eqn:E; [|discriminate].
  destruct (isspace c); [auto | discriminate].
Qed.

Lemma lstrip_head (s : string) :
  match lstrip s with
  | EmptyString => True
  | String c _ => isspace c = false
  end.
Proof.
  induction s as [|c s IH]; simpl; [exact I|].
  destruct (isspace c) eqn:E; [exact IH | exact E].
Qed.

Lemma rstrip_head (s : string) (c : ascii) :
  isspace c = false -> exists t, rstrip (String c s) = String c t.
Proof.
  intros Hc. simpl. destruct (rstrip s); [rewrite Hc|]; eauto.
Qed.

Lemma strip_empty_iff (s : string) :
  nonempty (strip s) = false <-> all_chars isspace s = true.
Proof.
  unfold strip. split.
  - intros H. apply lstrip_empty.
    pose proof (lstrip_head s) as Hh.
    destruct (lstrip s) as [|c t] eqn:E; [reflexivity|].
    destruct (rstrip_head t c Hh) as [t' Ht]. rewrite Ht in H. discriminate.
  - intros H. now rewrite (lstrip_blank s H).
Qed.

Lemma strip_head (s : string) :
  match strip s with
  | EmptyString => True
  | String c _ => isspace c = false
  end.
Proof.
  unfold strip. pose proof (lstrip_head s) as Hh.
  destruct (lstrip s) as [|c t]; [exact I|].
  destruct (rstrip_head t c Hh) as [t' ->]. exact Hh.
Qed.

End PytestArgs.

Section Words.

Lemma append_empty_r (s : string) : s ++ "" = s.
Proof. induction s; simpl; congruence. Qed.

Lemma split_ws_skip (ws s : string) :
  all_chars isspace ws = true -> split_ws (ws ++ s) "" = split_ws s "".
Proof.
  induction ws as [|c ws IH]; simpl; [reflexivity|].
  intros H. apply andb_true_iff in H. destruct H as [-> H]. auto.
Qed.

Lemma split_ws_run (x s : string) :
  all_chars (fun c => negb (isspace c)) x = true ->
  forall cur, split_ws (x ++ s) cur = split_ws s (cur ++ x).
Proof.
  induction x as [|c x IH]; simpl; intros H cur.
  - now rewrite append_empty_r.
  - apply andb_true_iff in H. destruct H as [Hc H].
    apply negb_true_iff in Hc. rewrite Hc, (IH H).
    now rewrite sapp_assoc.
Qed.

Lemma split_ws_lstrip (s : string) : split_ws (lstrip s) "" = split_ws s "".
Proof.
  induction s as [|c s IH]; simpl; [reflexivity|].
  destruct (isspace c) eqn:E; [exact IH|]. simpl. now rewrite E.
Qed.

Lemma split_ws_rstrip (s : string) :
  forall cur, split_ws (rstrip s) cur = split_ws s cur.
Proof.
  induction s as [|c s IH]; intros cur; [reflexivity|].
  cbn [rstrip]. destruct (rstrip s) as [|d r] eqn:E.
  - destruct (isspace c) eqn:Ec; cbn [split_ws]; rewrite Ec.
    + rewrite <- (IH ""). cbn [split_ws nonempty]. now destruct (nonempty cur).
    + now rewrite <- IH.
  - change (split_ws (String c (String d r)) cur)
      with (if isspace c
            then (if nonempty cur then cur :: split_ws (String d r) ""
                  else split_ws (String d r) "")
            else split_ws (String d r) (cur ++ String c "")).
    now rewrite !IH.
Qed.

Lemma pytest_args_split (args : Args) :
  pytest_args args = py_split (arg_pytest_args args).
Proof.
  unfold pytest_args, py_split.
  destruct (nonempty (strip (arg_pytest_args args))) eqn:E.
  - unfold strip. now rewrite split_ws_rstrip, split_ws_lstrip.
  - apply strip_empty_iff in E.
    rewrite <- (append_empty_r (arg_pytest_args args)).
    now rewrite (split_ws_skip _ "" E).
Qed.

Lemma words_split (s : string) (l : list string) :
  words_of s l -> py_split s = l.
Proof.
  unfold py_split. induction 1 as [s Hs|ws x Hws Hx Hnx|ws x c rest l Hws Hx Hnx Hc _ IH].
  - rewrite <- (append_empty_r s). now rewrite (split_ws_skip _ "" Hs).
  - rewrite (split_ws_skip _ _ Hws).
    rewrite <- (append_empty_r x) at 1. rewrite (split_ws_run _ _ Hnx).
    cbn [split_ws append]. now rewrite Hx.
  - rewrite (split_ws_skip _ _ Hws), (split_ws_run _ _ Hnx).
    cbn [split_ws append]. now rewrite Hc, Hx, IH.
Qed.

Lemma split_words (s : string) :
  (forall ws, all_chars isspace ws = true -> words_of (ws ++ s) (split_ws s "")) /\
  (forall ws cur,
     all_chars isspace ws = true -> nonempty cur = true ->
     all_chars (fun c => negb (isspace c)) cur = true ->
     words_of (ws ++ cur ++ s) (split_ws s cur)).
Proof.
  induction s as [|c s [IH1 IH2]]; split.
  - intros ws Hws. rewrite append_empty_r. now apply words_blank.
  - intros ws cur Hws Hc Hn. cbn [split_ws]. rewrite Hc, append_empty_r.
    now apply words_end.
  - intros ws Hws. cbn [split_ws]. destruct (isspace c) eqn:Ec.
    + cbn [nonempty].
      replace (ws ++ String c s) with ((ws ++ String c "") ++ s)
        by now rewrite sapp_assoc.
      apply IH1. now apply all_chars_snoc.
    + apply (IH2 ws (String c "")); [exact Hws | reflexivity|].
      simpl. now rewrite Ec.
  - intros ws cur Hws Hc Hn. cbn [split_ws]. destruct (isspace c) eqn:Ec.
    + rewrite Hc. apply words_cons; auto. exact (IH1 "" eq_refl).
    + replace (ws ++ cur ++ String c s) with (ws ++ (cur ++ String c "") ++ s)
        by now rewrite sapp_assoc.
      apply IH2; [exact Hws | apply nonempty_snoc|].
      apply all_chars_snoc; [exact Hn | now rewrite Ec].
Qed.

End Words.

(** X18: the [--pytest-args] string is cut at whitespace, with no
    quoting.  The extra arguments are the maximal runs of non-whitespace
    characters of the string, from left to right, and no other list is;
    so each of them is non-empty and free of whitespace, and there is
    none exactly when the string is empty or blank.  Every pytest
    container of a run is given them, in this order, between [pytest]
    and the test files. *)
Theorem pytest_args_words (w : World) (args : Args) :
  words_of (arg_pytest_args args) (pytest_args args) /\
  (forall l, words_of (arg_pytest_args args) l -> l = pytest_args args) /\
  (forall x, In x (pytest_args args) ->
     nonempty x = true /\ all_chars (fun c => negb (isspace c)) x = true) /\
  (pytest_args args = [] <-> all_chars isspace (arg_pytest_args args) = true) /\
  (forall cmd cwd t,
     In (EvProc cmd cwd t) (trace (main w args)) ->
     begins ["docker"; "run"] cmd = true ->
     exists b image,
       result (load_bundle w args) = inr b /\
       cmd = (["docker"; "run"; "--rm"; image; "pytest"]
                ++ pytest_args args ++ test_files b)%list).
Proof.
  split; [|split; [|split; [|split]]].
  - rewrite pytest_args_split. unfold py_split.
    exact (proj1 (split_words (arg_pytest_args args)) "" eq_refl).
  - intros l Hl. rewrite pytest_args_split. symmetry. now apply words_split.
  - unfold pytest_args, py_split. intros x Hin.
    destruct (nonempty (strip (arg_pytest_args args))); [|destruct Hin].
    now apply (split_ws_words (strip (arg_pytest_args args)) "" x).
  - unfold pytest_args, py_split.
    destruct (nonempty (strip (arg_pytest_args args))) eqn:E.
    + split.
      * intros H. apply split_ws_nil in H. destruct H as [_ H].
        pose proof (strip_head (arg_pytest_args args)) as Hh.
        destruct (strip (arg_pytest_args args)) as [|c t]; [discriminate|].
        simpl in H. rewrite Hh in H. discriminate.
      * intros H. apply strip_empty_iff in H. congruence.
    + split; [|reflexivity]. intros _. now apply strip_empty_iff.
  - intros cmd cwd t Hin Hrun.
    assert (Hd : begins ["docker"] cmd = true).
    { destruct cmd as [|x cmd]; [discriminate|]. cbn [begins] in *.
      destruct (String.eqb "docker" x); [reflexivity | discriminate]. }
    destruct (main_docker w args cmd cwd t Hin Hd)
      as (b & label & Hload & _ & _ & [->|[-> _]]).
    + discriminate.
    + eauto.
Qed.

Lemma pytest_args_words_witness :
  pytest_args {| arg_bundle_dir := "/bundle"; arg_work_dir := "/work";
                 arg_keep_workdir := false;
                 arg_pytest_args := " -q  -x --maxfail=1 ";
                 arg_timeout_build := 3600; arg_timeout_test := 1800 |}
  = ["-q"; "-x"; "--maxfail=1"].
Proof.
  destruct (pytest_args_words passing_world
              {| arg_bundle_dir := "/bundle"; arg_work_dir := "/work";
                 arg_keep_workdir := false;
                 arg_pytest_args := " -q  -x --maxfail=1 ";
                 arg_timeout_build := 3600; arg_timeout_test := 1800 |})
    as (_ & H & _).
  symmetry. apply H. cbn [arg_pytest_args].
  apply (words_cons " " "-q" " " " -x --maxfail=1 "); try reflexivity.
  apply (words_cons " " "-x" " " "--maxfail=1 "); try reflexivity.
  apply (words_cons "" "--maxfail=1" " " ""); try reflexivity.
  now apply words_blank.
Defined.

(* ================================================================= *)
(** ** Choice of the dockerfile and of the test files *)

Section Selected.

Variables (w : World) (args : Args).

Lemma staged_copies (b : Bundle) (wt : string) :
  In (EvCopy (joinpath (bundle_dir b) (dockerfile_src b))
             (joinpath wt (dockerfile_src b))) (staged b wt) /\
  forall t, In t (test_files b) ->
    In (EvCopy (joinpath (bundle_dir b) t) (joinpath wt t)) (staged b wt).
Proof.
  unfold staged. split; [now left|]. intros t Ht. right.
  exact (in_map (fun t => EvCopy (joinpath (bundle_dir b) t) (joinpath wt t)) _ _ Ht).
Qed.

Lemma main_stages (b : Bundle) (ev : event) :
  result (load_bundle w args) = inr b ->
  let r := new_run w args b in
  result (provision w b r) = inr tt ->
  In ev (staged b (base_dir r)) \/ In ev (staged b (head_dir r)) ->
  In ev (trace (main w args)).
Proof.
  intros Hload r Hprov Hin.
  rewrite (main_after_load w args b Hload). cbn [trace fst]. fold r.
  right. right. rewrite (pipeline_trace_after_provision w args b r Hprov).
  apply in_or_app. right. apply in_or_app.
  destruct Hin as [Hin|Hin]; [now left|].
  right. apply in_or_app. now left.
Qed.

End Selected.

(** C6, as stated, fails: with two test files in the bundle both are
    selected, staged and handed to pytest, not only the least one. *)
Lemma pick_tests_all_counterexample :
  let w := example_world example_names (example_issue [example_pr])
                         (example_now 0) all_pass in
  _pick_tests w "/bundle" = ["test_a.py"; "test_b.py"] /\
  _pick_tests w "/bundle" <> spec_pick_tests w "/bundle" /\
  length (_pick_tests w "/bundle") <> 1 /\
  In (EvProc ["docker"; "run"; "--rm";
              "swegent-f2p:issue_256-20260102t030405z-before"; "pytest"; "-q";
              "test_a.py"; "test_b.py"]
             "/work/issue_256-20260102T030405Z/base" 1800)
     (trace (main w example_args)).
Proof.
  cbv zeta. split; [reflexivity|]. split; [vm_compute; discriminate|].
  split; [vm_compute; discriminate|].
  vm_compute. do 27 right. left. reflexivity.
Qed.

(** C6, amended: among several candidates the dockerfile is the one whose
    name is least in code-point order, and it is a single file; the test
    files are all the [test*.py] names in ascending order, or, when there
    is none, all the [*.py] names not starting with [issue_], ascending.
    The loaded bundle holds exactly this dockerfile and these test files;
    a run whose workspace steps succeed copies the dockerfile and every
    one of the test files into both worktrees, every image of the run is
    built from that dockerfile, and every pytest container of the run is
    given all the test files, in that order. *)
Theorem pick_selection (w : World) (dir : string) :
  (glob w dir "*.dockerfile" <> [] ->
   exists d, _pick_dockerfile w dir = inr d /\
             In d (glob w dir "*.dockerfile") /\
             forall d', In d' (glob w dir "*.dockerfile") -> name_le d d') /\
  (glob w dir "*.dockerfile" = [] ->
   exists msg, _pick_dockerfile w dir = inl (FileNotFoundError msg)) /\
  (glob w dir "test*.py" <> [] ->
   Permutation (glob w dir "test*.py") (_pick_tests w dir) /\
   StronglySorted name_le (_pick_tests w dir)) /\
  (glob w dir "test*.py" = [] ->
   Permutation
     (filter (fun name => negb (startswith "issue_" name)) (glob w dir "*.py"))
     (_pick_tests w dir) /\
   StronglySorted name_le (_pick_tests w dir)) /\
  (forall args b,
     resolve w (arg_bundle_dir args) = dir ->
     result (load_bundle w args) = inr b ->
     let r := new_run w args b in
     _pick_dockerfile w dir = inr (dockerfile_src b) /\
     test_files b = _pick_tests w dir /\
     (result (provision w b r) = inr tt ->
      forall wt, wt = base_dir r \/ wt = head_dir r ->
        In (EvCopy (joinpath dir (dockerfile_src b))
                   (joinpath wt (dockerfile_src b))) (trace (main w args)) /\
        forall t, In t (_pick_tests w dir) ->
          In (EvCopy (joinpath dir t) (joinpath wt t)) (trace (main w args))) /\
     (forall cmd cwd t,
        In (EvProc cmd cwd t) (trace (main w args)) ->
        begins ["docker"] cmd = true ->
        exists image,
          cmd = ["docker"; "build"; "-t"; image; "-f"; dockerfile_src b; "."] \/
          cmd = (["docker"; "run"; "--rm"; image; "pytest"]
                   ++ pytest_args args ++ _pick_tests w dir)%list)).
Proof.
  split; [|split; [|split; [|split]]].
  - unfold _pick_dockerfile.
    intros Hne. destruct (sorted (glob w dir "*.dockerfile")) as [|d rest] eqn:E.
    + apply (proj1 (sorted_nil_iff _)) in E. contradiction.
    + exists d. split; [reflexivity|]. now apply sorted_head_least with rest.
  - unfold _pick_dockerfile. intros ->. eexists. reflexivity.
  - unfold _pick_tests.
    intros Hne. destruct (sorted (glob w dir "test*.py")) as [|t rest] eqn:E.
    + apply (proj1 (sorted_nil_iff _)) in E. contradiction.
    + rewrite <- E. split; [apply sorted_perm | apply sorted_strongly].
  - unfold _pick_tests. intros ->. simpl. split.
    + apply filter_perm, sorted_perm.
    + apply filter_strongly, sorted_strongly.
  - intros args b Hdir Hload r.
    destruct (load_bundle_fields w args b Hload)
      as (d & _ & _ & _ & _ & Hbd & _ & _ & _ & Hdf & Ht & _).
    cbv zeta in Hbd, Hdf, Ht. rewrite Hdir in Hbd, Hdf, Ht.
    split; [exact Hdf|]. split; [exact Ht|]. split.
    + intros Hprov wt Hwt.
      destruct (staged_copies b wt) as (Sd & St). rewrite Hbd in Sd, St.
      split.
      * apply (main_stages w args b _ Hload Hprov).
        destruct Hwt as [->| ->]; [now left | now right].
      * intros t Hin. rewrite <- Ht in Hin.
        apply (main_stages w args b _ Hload Hprov).
        destruct Hwt as [->| ->]; [left | right]; now apply St.
    + intros cmd cwd t Hin Hd.
      destruct (main_docker w args cmd cwd t Hin Hd)
        as (b' & label & Hload' & _ & _ & H).
      rewrite Hload in Hload'. inversion Hload'; subst b'. cbv zeta in H.
      rewrite <- Ht. destruct H as [->|[-> _]]; eauto.
Qed.

Lemma pick_selection_witness :
  let w := example_world example_names (example_issue [example_pr])
                         (example_now 0) all_pass in
  (exists d, _pick_dockerfile w "/bundle" = inr d /\
             In d (glob w "/bundle" "*.dockerfile") /\
             forall d', In d' (glob w "/bundle" "*.dockerfile") -> name_le d d') /\
  Permutation (glob w "/bundle" "test*.py") (_pick_tests w "/bundle") /\
  In (EvCopy "/bundle/test_b.py" "/work/issue_256-20260102T030405Z/head/test_b.py")
     (trace (main w example_args)).
Proof.
  cbv zeta.
  destruct (pick_selection
              (example_world example_names (example_issue [example_pr])
                             (example_now 0) all_pass) "/bundle")
    as (Hd & _ & Ht & _ & Hmain).
  split; [|split].
  - apply Hd. vm_compute. discriminate.
  - apply Ht. vm_compute. discriminate.
  - destruct (Hmain example_args example_bundle eq_refl) as (_ & _ & Hs & _).
    { vm_compute. reflexivity. }
    destruct (Hs eq_refl "/work/issue_256-20260102T030405Z/head") as (_ & Hc).
    { right. reflexivity. }
    apply (Hc "test_b.py"). vm_compute. in_list.
Defined.

(* ================================================================= *)
(** ** An issue file without a usable pull request *)

Lemma select_linked_pr_cases (d : dict) :
  (truthy (dict_get d "linked_prs") = false ->
     select_linked_pr (JObj d)
     = _die "issue_*.json has no linked_prs; cannot get base/head sha.") /\
  (truthy (dict_get d "linked_prs") = true ->
     (forall l, dict_get d "linked_prs" <> JList l) ->
     exists e, select_linked_pr (JObj d) = raise e /\
               In e [TypeError; AttributeError; KeyError]) /\
  (forall x rest, dict_get d "linked_prs" = JList (x :: rest) ->
     (forall p, x <> JObj p) ->
     select_linked_pr (JObj d) = raise AttributeError) /\
  (forall pr0 rest, dict_get d "linked_prs" = JList (JObj pr0 :: rest) ->
     truthy (dict_get pr0 "base_sha") = false ->
     select_linked_pr (JObj d) = _die "linked_prs[0] missing base_sha.") /\
  (forall pr0 rest, dict_get d "linked_prs" = JList (JObj pr0 :: rest) ->
     truthy (dict_get pr0 "base_sha") = true ->
     truthy (dict_get pr0 "patch") = true ->
     (forall s, dict_get pr0 "patch" <> JStr s) ->
     select_linked_pr (JObj d) = raise AttributeError) /\
  (forall pr0 rest s, dict_get d "linked_prs" = JList (JObj pr0 :: rest) ->
     truthy (dict_get pr0 "base_sha") = true ->
     py_or (dict_get pr0 "patch") (JStr "") = JStr s ->
     all_chars isspace s = true ->
     select_linked_pr (JObj d)
     = _die "linked_prs[0] missing patch text; cannot apply fix on top of base_sha.").
Proof.
  repeat apply conj.
  - intros Ht. unfold select_linked_pr.
    cbn [py_get lift ret bind List.app]. unfold py_or. rewrite Ht.
    reflexivity.
  - intros Ht Hl. unfold select_linked_pr.
    cbn [py_get lift ret bind List.app]. unfold py_or. rewrite !Ht.
    cbn [unless ret bind List.app].
    destruct (dict_get d "linked_prs") as [| [] | z | [|c s] | l | [|kv l]];
      try discriminate; try (now destruct (Hl l)); cbn;
      eexists; (split; [reflexivity | simpl; auto]).
  - intros x rest Hv Hx. unfold select_linked_pr.
    cbn [py_get lift ret bind List.app]. rewrite Hv.
    destruct x; try reflexivity. now destruct (Hx kv).
  - intros pr0 rest Hl Hb. unfold select_linked_pr.
    cbn [py_get lift ret bind List.app]. rewrite Hl.
    cbn [py_or truthy unless py_index0 lift ret bind List.app py_get].
    rewrite Hb. reflexivity.
  - intros pr0 rest Hl Hb Ht Hs. unfold select_linked_pr.
    cbn [py_get lift ret bind List.app]. rewrite Hl.
    cbn [py_or truthy unless py_index0 lift ret bind List.app py_get].
    rewrite Hb. unfold py_or. rewrite Ht.
    destruct (dict_get pr0 "patch"); try reflexivity. now destruct (Hs s).
  - intros pr0 rest s Hl Hb Hp Hs. unfold select_linked_pr.
    cbn [py_get lift ret bind List.app]. rewrite Hl.
    cbn [py_or truthy unless py_index0 lift ret bind List.app py_get].
    rewrite Hb. fold (py_or (dict_get pr0 "patch") (JStr "")). rewrite Hp.
    cbn [py_str_method lift ret bind unless List.app].
    rewrite (proj2 (strip_empty_iff s) Hs). reflexivity.
Qed.

(** X19: how [main] ends on a malformed issue file, once the bundle
    directory and both tools were found.  An issue that is not an object
    raises [AttributeError].  For an object with a GitHub URL: a
    [linked_prs] that is missing, null or empty stops the run with status
    2 and the "no linked_prs" line; one that is not a list, a first record
    that is not an object, or a patch that is neither text nor empty,
    raises an exception with nothing printed; a missing [base_sha] is
    reported before the patch is looked at; and a missing or blank patch
    is reported as missing patch text. *)
Theorem linked_prs_edge_cases (w : World) (args : Args) (issue : json) :
  let dir := resolve w (arg_bundle_dir args) in
  path_exists w dir = true -> which w "git" = true -> which w "docker" = true ->
  _load_issue_json w dir = inr issue ->
  ((forall d, issue <> JObj d) -> main w args = raise AttributeError) /\
  (forall d repo, issue = JObj d ->
     _parse_repo_from_issue_url (py_or (dict_get d "url") (JStr "")) = inr repo ->
     (truthy (dict_get d "linked_prs") = false ->
        main w args
        = _die "issue_*.json has no linked_prs; cannot get base/head sha.") /\
     (truthy (dict_get d "linked_prs") = true ->
        (forall l, dict_get d "linked_prs" <> JList l) ->
        exists e, main w args = raise e /\
                  In e [TypeError; AttributeError; KeyError]) /\
     (forall x rest, dict_get d "linked_prs" = JList (x :: rest) ->
        (forall p, x <> JObj p) ->
        main w args = raise AttributeError) /\
     (forall pr0 rest, dict_get d "linked_prs" = JList (JObj pr0 :: rest) ->
        (truthy (dict_get pr0 "base_sha") = false ->
           main w args = _die "linked_prs[0] missing base_sha.") /\
        (truthy (dict_get pr0 "base_sha") = true ->
           truthy (dict_get pr0 "patch") = true ->
           (forall s, dict_get pr0 "patch" <> JStr s) ->
           main w args = raise AttributeError) /\
        (forall s, truthy (dict_get pr0 "base_sha") = true ->
           py_or (dict_get pr0 "patch") (JStr "") = JStr s ->
           all_chars isspace s = true ->
           main w args
           = _die "linked_prs[0] missing patch text; cannot apply fix on top of base_sha."))).
Proof.
  cbv zeta. intros Hdir Hgit Hdocker Hi. split.
  - now apply main_issue_not_object.
  - intros d repo -> Hr.
    pose proof (main_linked_pr_aborts w args Hdir Hgit Hdocker d repo) as Hmain.
    specialize (fun a => Hmain a Hi Hr).
    destruct (select_linked_pr_cases d) as (C1 & C2 & C3 & C4 & C5 & C6).
    split; [|split; [|split]].
    + intros Ht. rewrite (Hmain (SysExit 2)); now rewrite (C1 Ht).
    + intros Ht Hl. destruct (C2 Ht Hl) as (e & He & Hin).
      exists e. split; [|exact Hin].
      rewrite (Hmain (Uncaught e)); now rewrite He.
    + intros x rest Hl Hx.
      rewrite (Hmain (Uncaught AttributeError)); now rewrite (C3 x rest Hl Hx).
    + intros pr0 rest Hl. split; [|split].
      * intros Hb. rewrite (Hmain (SysExit 2)); now rewrite (C4 pr0 rest Hl Hb).
      * intros Hb Ht Hs.
        rewrite (Hmain (Uncaught AttributeError));
          now rewrite (C5 pr0 rest Hl Hb Ht Hs).
      * intros s Hb Hp Hs.
        rewrite (Hmain (SysExit 2)); now rewrite (C6 pr0 rest s Hl Hb Hp Hs).
Qed.

Lemma linked_prs_edge_cases_witness :
  main (example_world example_names
          (example_issue [JObj [("head_sha", JStr "def456"); ("patch", JInt 5)]])
          (example_now 0) all_pass)
       example_args
  = _die "linked_prs[0] missing base_sha.".
Proof.
  destruct (linked_prs_edge_cases
              (example_world example_names
                 (example_issue
                    [JObj [("head_sha", JStr "def456"); ("patch", JInt 5)]])
                 (example_now 0) all_pass)
              example_args
              (example_issue
                 [JObj [("head_sha", JStr "def456"); ("patch", JInt 5)]])
              eq_refl eq_refl eq_refl eq_refl)
    as (_ & H).
  destruct (H _ "always-further/AgentUp" eq_refl eq_refl) as (_ & _ & _ & H4).
  destruct (H4 [("head_sha", JStr "def456"); ("patch", JInt 5)] [] eq_refl)
    as (H5 & _).
  apply H5. reflexivity.
Defined.

(* ================================================================= *)
(** ** A process that raises *)

Section Raising.

Variable w : World.

Lemma propagating_bind {A B} (m : M A) (f : A -> M B) :
  propagating w m -> (forall a, propagating w (f a)) -> propagating w (bind m f).
Proof.
  intros Hm Hf cmd cwd t e Hin He Hb.
  destruct (result m) as [x|a] eqn:E.
  - rewrite (bind_aborts _ _ x E) in *. cbn [trace result fst snd] in *.
    destruct (Hm _ _ _ _ Hin He Hb) as (Hr & pre & Hpre).
    split; [congruence | eauto].
  - rewrite (bind_continues _ _ a E) in *. cbn [trace result fst snd] in *.
    apply in_app_or in Hin. destruct Hin as [Hin|Hin].
    + destruct (Hm _ _ _ _ Hin He Hb) as (Hr & _). congruence.
    + destruct (Hf a _ _ _ _ Hin He Hb) as (Hr & pre & Hpre).
      split; [exact Hr|]. exists (trace m ++ pre)%list.
      now rewrite Hpre, app_assoc.
Qed.

Lemma propagating_no_process {A} (m : M A) :
  all_events (fun ev => forall cmd cwd t, ev <> EvProc cmd cwd t) m ->
  propagating w m.
Proof. intros H cmd cwd t e Hin. now destruct (H _ Hin cmd cwd t). Qed.

Lemma propagating_checked_run cmd cwd t dir o e msg :
  propagating w (checked_run w cmd cwd t dir o e msg).
Proof.
  intros cmd' cwd' t' x Hin Hx _.
  pose proof (checked_run_cases w cmd cwd t dir o e msg) as H.
  destruct (subprocess_run w cmd cwd t) as [y|q] eqn:E.
  - rewrite H in *. cbn [trace result fst snd] in *.
    destruct Hin as [Hin|[]]. inversion Hin; subst.
    split; [congruence | now exists []].
  - exfalso.
    destruct (returncode q =? 0)%Z; rewrite H in Hin;
      repeat (destruct Hin as [Hin|Hin]; try discriminate);
      try (inversion Hin; subst; congruence); destruct Hin.
Qed.

Lemma propagating_build_and_test (args : Args) (b : Bundle) (r : Run)
    (label worktree : string) :
  propagating w (build_and_test w args b r label worktree).
Proof.
  intros cmd cwd t x Hin Hx _.
  rewrite build_and_test_cases in *. cbv zeta in *.
  destruct (subprocess_run w (build_cmd b r label) worktree (arg_timeout_build args))
    as [e|p] eqn:Eb.
  - destruct Hin as [Hin|[]]. inversion Hin; subst.
    split; [cbn; congruence | now exists []].
  - destruct (returncode p =? 0)%Z.
    + destruct (subprocess_run w (test_cmd args b r label) worktree
                               (arg_timeout_test args)) as [e|q] eqn:Et;
        cbn [trace result fst snd List.app] in *.
      * destruct Hin as [Hin|[Hin|[Hin|[Hin|[]]]]]; try discriminate;
          inversion Hin; subst; [congruence|].
        split; [congruence|]. eexists [_; _; _]. reflexivity.
      * exfalso.
        destruct Hin as [Hin|[Hin|[Hin|[Hin|[Hin|[Hin|[]]]]]]]; try discriminate;
          inversion Hin; subst; congruence.
    + exfalso. cbn [trace fst] in *.
      destruct Hin as [Hin|[Hin|[Hin|[]]]]; try discriminate.
      inversion Hin; subst. congruence.
Qed.

Lemma propagating_main (args : Args) : propagating w (main w args).
Proof.
  unfold main. apply propagating_bind.
  { apply propagating_no_process. intros ev Hin cmd cwd t ->.
    destruct (load_bundle_stderr w args _ Hin) as [msg H]. discriminate. }
  intros b. apply propagating_bind.
  { apply propagating_no_process. unfold start_run. all_ev; event_case. }
  intros r. rewrite provision_eq.
  unfold provision_setup, apply_step, classify_and_report.
  repeat first
    [ apply propagating_checked_run
    | apply propagating_build_and_test
    | match goal with
      | |- propagating w (write_text _ _ _) =>
          apply propagating_no_process; unfold write_text; all_ev; event_case
      | |- propagating w (emit _) =>
          apply propagating_no_process; all_ev; event_case
      | |- propagating w (stage_bundle_into _ _) =>
          apply propagating_no_process; unfold stage_bundle_into; all_ev; event_case
      | |- propagating w (cleanup _ ?a ?r) =>
          intros cmd cwd t p Hin _ Hb;
          rewrite (cleanup_only_removes w a r _ Hin cmd cwd t eq_refl) in Hb;
          discriminate
      end
    | apply propagating_bind; [|intros ?] ].
Qed.

End Raising.

Section Reported.

Variables (w : World) (args : Args).

Lemma event_after {A B} (P : event -> Prop) (m : M A) (f : A -> M B) (ev : event) :
  all_events (fun e => ~ P e) m -> P ev ->
  In ev (trace (bind m f)) ->
  exists a, result m = inr a /\ In ev (trace (f a)).
Proof.
  intros Hm HP Hin. apply In_bind in Hin. destruct Hin as [Hin|Hin]; [|exact Hin].
  now destruct (Hm _ Hin).
Qed.

Ltac not_report :=
  let dir := fresh "dir" in
  let c := fresh "c" in
  let E := fresh "E" in
  intros (dir & c & E); simpl in E; try discriminate;
  inversion E; discriminate.

Lemma provision_no_report (b : Bundle) (r : Run) :
  all_events (fun e => ~ is_report e) (provision w b r).
Proof. unfold provision, write_text. all_ev; not_report. Qed.

Lemma stage_no_report (b : Bundle) (dir : string) :
  all_events (fun e => ~ is_report e) (stage_bundle_into b dir).
Proof. unfold stage_bundle_into. all_ev; not_report. Qed.

Lemma build_and_test_no_report (b : Bundle) (r : Run) (label dir : string) :
  all_events (fun e => ~ is_report e) (build_and_test w args b r label dir).
Proof.
  unfold build_and_test, write_text.
  repeat first
    [ match goal with
      | |- all_events _ (if ?c then _ else _) => destruct c
      end
    | progress all_ev ]; not_report.
Qed.

Lemma cleanup_no_report (r : Run) :
  all_events (fun e => ~ is_report e) (cleanup w args r).
Proof. unfold cleanup. all_ev; not_report. Qed.

Lemma report_written_returns (ev : event) :
  In ev (trace (main w args)) -> is_report ev -> result (main w args) = inr tt.
Proof.
  intros Hin Hrep.
  destruct (main_events_after_load w args _ Hin) as (b & Hload & H);
    try (destruct Hrep as (dir & c & ->); discriminate).
  rewrite (main_after_load w args b Hload). cbn [result snd].
  set (r := new_run w args b) in *. unfold pipeline in *.
  apply (event_after is_report) in H; [|apply provision_no_report|exact Hrep].
  destruct H as (u1 & H1 & H).
  apply (event_after is_report) in H; [|apply stage_no_report|exact Hrep].
  destruct H as (u2 & H2 & H).
  apply (event_after is_report) in H; [|apply stage_no_report|exact Hrep].
  destruct H as (u3 & H3 & H).
  apply In_bind in H. destruct H as [H|(u4 & _ & H)].
  - assert (H4 : result (classify_and_report w args b r) = inr tt).
    { unfold classify_and_report in *.
      apply (event_after is_report) in H;
        [|apply build_and_test_no_report|exact Hrep].
      destruct H as (before & Hb & H).
      apply (event_after is_report) in H;
        [|apply build_and_test_no_report|exact Hrep].
      destruct H as (after & Ha & H).
      rewrite (bind_continues _ _ before Hb). cbn [result snd].
      rewrite (bind_continues _ _ after Ha). reflexivity. }
    rewrite !bind_result, H1, H2, H3, H4. apply cleanup_returns.
  - now destruct (cleanup_no_report r _ H).
Qed.

End Reported.

(** X20: an exception raised when a process is started or awaited (a
    timeout, a missing executable) is not caught, except around the final
    removal of the worktrees.  The run ends right there with that
    exception and exit status 1: the process is the last effect of the
    run, its output is not logged, nothing is printed to stdout or
    stderr and no report is written. *)
Theorem process_exception_propagates (w : World) (args : Args)
    (cmd : list string) (cwd : string) (t : Z) (e : exn) :
  In (EvProc cmd cwd t) (trace (main w args)) ->
  subprocess_run w cmd cwd t = inl e ->
  begins ["git"; "worktree"; "remove"] cmd = false ->
  result (main w args) = inl (Uncaught e) /\
  exit_status (main w args) = 1%Z /\
  (exists pre, trace (main w args) = (pre ++ [EvProc cmd cwd t])%list) /\
  (forall line, ~ In (EvStdout line) (trace (main w args))) /\
  (forall msg, ~ In (EvStderr msg) (trace (main w args))) /\
  (forall dir c, ~ In (EvWrite dir "f2p_report.json" c) (trace (main w args))).
Proof.
  intros Hin He Hb.
  destruct (propagating_main w args _ _ _ _ Hin He Hb) as (Hres & Hpre).
  split; [exact Hres|]. split; [unfold exit_status; now rewrite Hres|].
  split; [exact Hpre|]. split; [|split].
  - intros line H.
    destruct (main_events_after_load w args _ H) as (b & Hload & Hp);
      try discriminate.
    apply pipeline_label_returns in Hp.
    rewrite (main_after_load w args b Hload) in Hres. cbn [result snd] in Hres.
    congruence.
  - intros msg H. destruct (main_stderr_final w args msg H) as (H' & _).
    congruence.
  - intros dir c H.
    assert (Hr : result (main w args) = inr tt).
    { apply (report_written_returns w args _ H). now exists dir, c. }
    congruence.
Qed.

Lemma process_exception_propagates_witness :
  result (main {| resolve := fun p => p; path_exists := fun _ => true;
                  which := fun _ => true;
                  listdir := fun _ => example_names;
                  json_load := fun _ => inr (example_issue [example_pr]);
                  utcnow := example_now 0;
                  subprocess_run := fun cmd _ _ =>
                    if begins ["git"; "fetch"] cmd
                    then inl (LibraryError "TimeoutExpired")
                    else inr {| returncode := 0; cp_stdout := "out";
                                cp_stderr := "err" |} |}
               example_args)
  = inl (Uncaught (LibraryError "TimeoutExpired")).
Proof.
  destruct (process_exception_propagates
              {| resolve := fun p => p; path_exists := fun _ => true;
                 which := fun _ => true;
                 listdir := fun _ => example_names;
                 json_load := fun _ => inr (example_issue [example_pr]);
                 utcnow := example_now 0;
                 subprocess_run := fun cmd _ _ =>
                   if begins ["git"; "fetch"] cmd
                   then inl (LibraryError "TimeoutExpired")
                   else inr {| returncode := 0; cp_stdout := "out";
                               cp_stderr := "err" |} |}
              example_args
              ["git"; "fetch"; "--all"; "--tags"]
              "/work/issue_256-20260102T030405Z/repo" 3600%Z
              (LibraryError "TimeoutExpired"))
    as (H & _).
  - vm_compute. in_list.
  - reflexivity.
  - reflexivity.
  - exact H.
Defined.

(* ================================================================= *)
(** ** The two records of the report *)

Section Sides.

Variables (w : World) (args : Args).

Lemma build_and_test_consistent (b : Bundle) (r : Run) (label worktree : string)
    (o : dict) :
  result (build_and_test w args b r label worktree) = inr o ->
  outcome_consistent label (image_of r label) o.
Proof.
  rewrite build_and_test_cases. cbv zeta.
  destruct (subprocess_run w (build_cmd b r label) worktree (arg_timeout_build args))
    as [e|p]; [discriminate|].
  destruct (returncode p =? 0)%Z eqn:Ep.
  - destruct (subprocess_run w (test_cmd args b r label) worktree
                             (arg_timeout_test args)) as [e|q]; [discriminate|].
    cbn [result snd]. intros H. inversion H; subst; clear H.
    split; [reflexivity|]. split; [reflexivity|]. split; [reflexivity|].
    exists (returncode p). split; [reflexivity|]. rewrite Ep.
    split; [reflexivity|]. exists (returncode q). now split.
  - cbn [result snd]. intros H. inversion H; subst; clear H.
    split; [reflexivity|]. split; [reflexivity|]. split; [reflexivity|].
    exists (returncode p). split; [reflexivity|]. rewrite Ep. now repeat split.
Qed.

Lemma report_content (dir : string) (c : content) :
  In (EvWrite dir "f2p_report.json" c) (trace (main w args)) ->
  exists b before after,
    result (load_bundle w args) = inr b /\
    let r := new_run w args b in
    result (build_and_test w args b r "before" (base_dir r)) = inr before /\
    result (build_and_test w args b r "after" (head_dir r)) = inr after /\
    let status := _classify (truthy (dict_get before "test_ok"))
                            (truthy (dict_get after "test_ok")) in
    dir = run_root r /\
    c = JsonText (JObj (make_report r status before after)) /\
    In (EvStdout ("[F2P] " ++ status)) (trace (main w args)).
Proof.
  intros Hin.
  assert (Hrep : is_report (EvWrite dir "f2p_report.json" c)) by now exists dir, c.
  destruct (main_events_after_load w args _ Hin) as (b & Hload & H);
    try discriminate.
  exists b. rewrite (main_after_load w args b Hload). cbn [trace fst].
  set (r := new_run w args b) in *. unfold pipeline in *.
  apply (event_after is_report) in H; [|apply provision_no_report|exact Hrep].
  destruct H as (u1 & H1 & H).
  apply (event_after is_report) in H; [|apply stage_no_report|exact Hrep].
  destruct H as (u2 & H2 & H).
  apply (event_after is_report) in H; [|apply stage_no_report|exact Hrep].
  destruct H as (u3 & H3 & H).
  apply In_bind in H. destruct H as [H|(u4 & _ & H)];
    [|now destruct (cleanup_no_report w args r _ H)].
  unfold classify_and_report in *.
  apply (event_after is_report) in H;
    [|apply build_and_test_no_report|exact Hrep].
  destruct H as (before & Hb & H).
  apply (event_after is_report) in H;
    [|apply build_and_test_no_report|exact Hrep].
  destruct H as (after & Ha & H).
  exists before, after. split; [exact Hload|]. cbv zeta.
  split; [exact Hb|]. split; [exact Ha|].
  cbn in H. destruct H as [H|[H|[H|[]]]]; try discriminate. inversion H; subst.
  split; [reflexivity|]. split; [reflexivity|].
  right. right.
  apply (In_bind_r _ _ _ u1 H1). apply (In_bind_r _ _ _ u2 H2).
  apply (In_bind_r _ _ _ u3 H3). apply In_bind_l.
  apply (In_bind_r _ _ _ before Hb). apply (In_bind_r _ _ _ after Ha).
  right. now left.
Qed.

End Sides.

(** X21: the report can be read on its own.  In every report a run
    writes, [before] and [after] are records with the six keys label,
    image, build_ok, test_ok, build_exit and test_exit; in each,
    [build_ok] is true exactly when [build_exit] is 0, a failed build
    leaves [test_ok] false and [test_exit] null, and after a successful
    build [test_ok] is true exactly when [test_exit] is 0; and [status]
    is [_classify] of the two [test_ok] fields, the label the run
    prints. *)
Theorem report_sides_consistent (w : World) (args : Args) (dir : string)
    (c : content) :
  In (EvWrite dir "f2p_report.json" c) (trace (main w args)) ->
  exists b report before after,
    result (load_bundle w args) = inr b /\
    let r := new_run w args b in
    let status := _classify (truthy (dict_get before "test_ok"))
                            (truthy (dict_get after "test_ok")) in
    dir = run_root r /\ c = JsonText (JObj report) /\
    dict_find report "status" = Some (JStr status) /\
    dict_find report "before" = Some (JObj before) /\
    dict_find report "after" = Some (JObj after) /\
    outcome_consistent "before" (image_of r "before") before /\
    outcome_consistent "after" (image_of r "after") after /\
    In (EvStdout ("[F2P] " ++ status)) (trace (main w args)).
Proof.
  intros Hin.
  destruct (report_content w args dir c Hin)
    as (b & before & after & Hload & Hb & Ha & Hdir & Hc & Hl).
  cbv zeta in *.
  exists b, (make_report (new_run w args b)
               (_classify (truthy (dict_get before "test_ok"))
                          (truthy (dict_get after "test_ok"))) before after),
         before, after.
  destruct (make_report_frame b (new_run w args b) (run_id (new_run w args b))
              (_classify (truthy (dict_get before "test_ok"))
                         (truthy (dict_get after "test_ok")))
              before after eq_refl)
    as (_ & _ & _ & Fs & Fb & Fa).
  split; [exact Hload|]. split; [exact Hdir|]. split; [exact Hc|].
  split; [exact Fs|]. split; [exact Fb|]. split; [exact Fa|].
  split; [exact (build_and_test_consistent w args b _ _ _ _ Hb)|].
  split; [exact (build_and_test_consistent w args b _ _ _ _ Ha)|].
  exact Hl.
Qed.

Lemma report_sides_consistent_witness :
  exists before after,
    outcome_consistent "before" "swegent-f2p:issue_256-20260102t030405z-before"
                       before /\
    outcome_consistent "after" "swegent-f2p:issue_256-20260102t030405z-after"
                       after.
Proof.
  assert (H : In (EvWrite "/work/issue_256-20260102T030405Z" "f2p_report.json"
                    (JsonText (JObj (make_report
                       (new_run unbuildable_world example_args example_bundle)
                       "pass2fail"
                       [ ("label", JStr "before");
                         ("image", JStr "swegent-f2p:issue_256-20260102t030405z-before");
                         ("build_ok", JBool true); ("test_ok", JBool true);
                         ("build_exit", JInt 0); ("test_exit", JInt 0) ]
                       [ ("label", JStr "after");
                         ("image", JStr "swegent-f2p:issue_256-20260102t030405z-after");
                         ("build_ok", JBool false); ("test_ok", JBool false);
                         ("build_exit", JInt 1); ("test_exit", JNull) ]))))
                 (trace (main unbuildable_world example_args))).
  { vm_compute. in_list. }
  destruct (report_sides_consistent unbuildable_world example_args _ _ H)
    as (b & report & before & after & Hload & _ & _ & _ & _ & _ & Hb & Ha & _).
  vm_compute in Hload. inversion Hload; subst b; clear Hload.
  exists before, after. split; [exact Hb | exact Ha].
Defined.

(* ================================================================= *)
(** ** The message of a failed workspace step *)

Section Blame.

Variables (w : World) (args : Args).

Lemma blaming_bind {A B} (r : Run) (m : M A) (f : A -> M B) :
  blaming w r m -> (forall a, blaming w r (f a)) -> blaming w r (bind m f).
Proof.
  intros Hm Hf cmd cwd t p Hin Hws Hp Hrc.
  destruct (result m) as [x|a] eqn:E.
  - rewrite (bind_aborts _ _ x E) in *. cbn [trace result fst snd] in *.
    destruct (Hm _ _ _ _ Hin Hws Hp Hrc) as (Hr & pre & Hpre).
    split; [congruence | eauto].
  - rewrite (bind_continues _ _ a E) in *. cbn [trace result fst snd] in *.
    apply in_app_or in Hin. destruct Hin as [Hin|Hin].
    + destruct (Hm _ _ _ _ Hin Hws Hp Hrc) as (Hr & _). congruence.
    + destruct (Hf a _ _ _ _ Hin Hws Hp Hrc) as (Hr & pre & out & err & Hpre).
      split; [exact Hr|]. exists (trace m ++ pre)%list, out, err.
      now rewrite Hpre, app_assoc.
Qed.

Lemma blaming_no_step {A} (r : Run) (m : M A) :
  all_events
    (fun ev => forall cmd cwd t,
       ev = EvProc cmd cwd t -> is_workspace_step cmd = false) m ->
  blaming w r m.
Proof.
  intros H cmd cwd t p Hin Hws. rewrite (H _ Hin cmd cwd t eq_refl) in Hws.
  discriminate.
Qed.

Lemma blaming_checked_run (r : Run) cmd cwd t o e :
  blaming w r (checked_run w cmd cwd t (run_root r) o e (failure_message r cmd)).
Proof.
  intros cmd' cwd' t' p Hin _ Hp Hrc.
  pose proof (checked_run_cases w cmd cwd t (run_root r) o e
                                (failure_message r cmd)) as H.
  destruct (subprocess_run w cmd cwd t) as [y|q] eqn:E.
  - rewrite H in Hin. destruct Hin as [Hin|[]]. inversion Hin; subst. congruence.
  - assert (Hq : cmd' = cmd /\ cwd' = cwd /\ t' = t).
    { destruct (returncode q =? 0)%Z; rewrite H in Hin;
        repeat (destruct Hin as [Hin|Hin]; try discriminate);
        try (inversion Hin; subst; auto); destruct Hin. }
    destruct Hq as (-> & -> & ->). rewrite E in Hp. inversion Hp; subst q.
    apply Z.eqb_neq in Hrc. rewrite Hrc in H. rewrite H.
    split; [reflexivity|]. now exists [], o, e.
Qed.

Lemma failure_message_worktree (r : Run) (sha : string) :
  failure_message r ["git"; "worktree"; "add"; "--detach"; base_dir r; sha]
  = "git worktree add (base) failed" /\
  failure_message r ["git"; "worktree"; "add"; "--detach"; head_dir r; sha]
  = "git worktree add (head) failed".
Proof.
  cbn [failure_message]. rewrite String.eqb_refl. split; [reflexivity|].
  destruct (dirs_distinct r) as (_ & _ & D & _).
  destruct (String.eqb_spec (head_dir r) (base_dir r)) as [E|_];
    [now destruct D | reflexivity].
Qed.

Lemma blaming_pipeline (b : Bundle) (r : Run) : blaming w r (pipeline w args b r).
Proof.
  unfold pipeline. apply blaming_bind.
  - rewrite provision_eq. unfold provision_setup, apply_step.
    destruct (failure_message_worktree r (py_str (base_sha b))) as (Eb & Eh).
    rewrite <- Eb, <- Eh.
    repeat first
      [ match goal with
        | |- blaming w r (write_text _ _ _) =>
            apply blaming_no_step; unfold write_text; all_ev; event_case
        | |- blaming w r (checked_run w ?c ?d ?t _ ?o ?e _) =>
            apply (blaming_checked_run r c d t o e)
        end
      | apply blaming_bind; [|intros ?] ].
  - intros []. apply blaming_no_step. apply later_steps_not_workspace.
Qed.

End Blame.

(** X22: a clone, fetch, worktree or patch step that exits with a
    non-zero status is the last process of the run.  Its output is
    written to two files of the run directory, then the line that names
    the step is printed to stderr and the run exits with status 2:
    "git clone failed (see logs under <run directory>)", "git fetch
    failed", "git worktree add (base) failed", "git worktree add (head)
    failed" or "git apply patch failed (see git_apply_patch.stderr.txt)". *)
Theorem workspace_failure_reported (w : World) (args : Args)
    (cmd : list string) (cwd : string) (t : Z) (p : CompletedProcess) :
  In (EvProc cmd cwd t) (trace (main w args)) ->
  is_workspace_step cmd = true ->
  subprocess_run w cmd cwd t = inr p -> returncode p <> 0%Z ->
  exists b pre out err,
    result (load_bundle w args) = inr b /\
    let r := new_run w args b in
    main w args
    = ((pre ++ [EvProc cmd cwd t;
                EvWrite (run_root r) out (Text (cp_stdout p));
                EvWrite (run_root r) err (Text (cp_stderr p));
                EvStderr (failure_message r cmd)])%list,
       inl (SysExit 2)).
Proof.
  intros Hin Hws Hp Hrc.
  destruct (main_events_after_load w args _ Hin) as (b & Hload & Hpipe);
    try discriminate.
  destruct (blaming_pipeline w args b _ _ _ _ _ Hpipe Hws Hp Hrc)
    as (Hres & pre & out & err & Htr).
  exists b, (EvMkdir (run_root (new_run w args b))
               :: EvWrite (run_root (new_run w args b)) "meta.json"
                    (JsonText (JObj (meta (new_run w args b)))) :: pre),
    out, err.
  split; [exact Hload|]. cbv zeta.
  rewrite (main_after_load w args b Hload). now rewrite Htr, Hres.
Qed.

Lemma workspace_failure_reported_witness :
  exists pre out err,
    main (example_world example_names (example_issue [example_pr]) (example_now 0)
            (fun cmd => if begins ["git"; "fetch"] cmd then 128%Z else 0%Z))
         example_args
    = ((pre ++ [EvProc ["git"; "fetch"; "--all"; "--tags"]
                       "/work/issue_256-20260102T030405Z/repo" 3600;
                EvWrite "/work/issue_256-20260102T030405Z" out (Text "out");
                EvWrite "/work/issue_256-20260102T030405Z" err (Text "err");
                EvStderr "git fetch failed"])%list,
       inl (SysExit 2)).
Proof.
  destruct (workspace_failure_reported
              (example_world example_names (example_issue [example_pr])
                 (example_now 0)
                 (fun cmd => if begins ["git"; "fetch"] cmd then 128%Z else 0%Z))
              example_args
              ["git"; "fetch"; "--all"; "--tags"]
              "/work/issue_256-20260102T030405Z/repo" 3600%Z
              {| returncode := 128; cp_stdout := "out"; cp_stderr := "err" |})
    as (b & pre & out & err & Hload & Hmain).
  - vm_compute. in_list.
  - reflexivity.
  - reflexivity.
  - discriminate.
  - vm_compute in Hload. inversion Hload; subst b; clear Hload.
    exists pre, out, err. exact Hmain.
Defined.
